(** * fix_deps.py: workspace dependency normalizer

    A shallow embedding of [packages/WhisperDrop/scripts/fix_deps.py] and the
    properties of its two functions, [fix_dependencies] and [main].

    The script walks the directory tree under the current directory, collects
    every [package.json] outside [node_modules], and in each of them points
    the [@styx/] dependencies at [workspace:*].

    Layout of the development:
    - [PyStr]   : the operations on Python strings the script uses;
    - [Json]    : the values [json.load] builds, dicts, [json.dump] with
                  [indent=2], and the layout of its text line by line;
    - [Fs]      : a directory tree, [os.walk], [os.path.join], reading and
                  writing a file by its path;
    - [Script]  : the script itself, over a state and exception monad, with
                  [json.load] as a parameter;
    - [Scan]    : what the two loops of [fix_dependencies] compute, as
                  functions on dicts;
    - [Sample]  : a small workspace and a loader for it;
    - [Layout]  : shapes of values, lines and trees that further properties
                  speak of, and more sample data;
    - the facts about strings, dicts, the loops and the tree, and then the
      properties of [fix_dependencies] and of [main]. *)

From Stdlib Require Import String Ascii List Bool Arith NArith ZArith Lia.
From Stdlib Require Import DecimalString.
Import ListNotations.
Local Open Scope string_scope.
Local Open Scope list_scope.

Set Warnings "-register-all".

(* ================================================================== *)
(** ** Python strings *)

Module PyStr.

(** [s.startswith(p)]. *)
Fixpoint startswith (s p : string) {struct p} : bool :=
  match p with
  | EmptyString => true
  | String b p' =>
      match s with
      | EmptyString => false
      | String a s' => Ascii.eqb a b && startswith s' p'
      end
  end.

(** [s.endswith(p)], used by [os.path.join]. *)
Fixpoint endswith (s p : string) : bool :=
  String.eqb s p ||
  match s with
  | EmptyString => false
  | String _ s' => endswith s' p
  end.

(** [sub in s] on two strings: [sub] occurs in [s] as a substring. *)
Fixpoint str_in (sub s : string) : bool :=
  startswith s sub ||
  match s with
  | EmptyString => false
  | String _ s' => str_in sub s'
  end.

(** [x in l] on a list of strings. *)
Definition list_in (x : string) (l : list string) : bool :=
  existsb (String.eqb x) l.

(** [s.split(sep)] for a one-character separator. *)
Fixpoint split (sep : ascii) (s : string) : list string :=
  match s with
  | EmptyString => [EmptyString]
  | String c s' =>
      if Ascii.eqb c sep then EmptyString :: split sep s'
      else match split sep s' with
           | [] => [String c EmptyString]
           | x :: r => String c x :: r
           end
  end.

(** [' ' * n]. *)
Fixpoint spaces (n : nat) : string :=
  match n with
  | O => EmptyString
  | S n' => String " " (spaces n')
  end.

(** ['\n']. *)
Definition newline : string := String "010" EmptyString.

(** The character [c] occurs in [s]. *)
Fixpoint has_char (c : ascii) (s : string) : bool :=
  match s with
  | EmptyString => false
  | String c' s' => Ascii.eqb c c' || has_char c s'
  end.

End PyStr.

(* ================================================================== *)
(** ** JSON values *)

Module Json.

Import PyStr.

(** What [json.load] returns.  A float is carried by the text
    [float.__repr__] gives it ([NaN], [Infinity] and [-Infinity] for the
    three special values); a [dict] is the list of its items in insertion
    order. *)
Inductive json : Type :=
| JNull
| JBool (b : bool)
| JInt (z : Z)
| JFloat (repr : string)
| JStr (s : string)
| JList (l : list json)
| JDict (d : list (string * json)).

Definition dict := list (string * json).

(** The field names the script goes through. *)
Definition dep_types : list string :=
  ["dependencies"; "devDependencies"; "peerDependencies"].

(** [v != "workspace:*"], and more generally [v != s] for a string [s]: a
    value that is not a [str] never equals one. *)
Definition ne_str (v : json) (s : string) : bool :=
  match v with
  | JStr s' => negb (String.eqb s' s)
  | _ => true
  end.

(** *** Dictionaries *)

Definition keys (d : dict) : list string := map fst d.

(** [k in d]. *)
Definition dict_in (k : string) (d : dict) : bool :=
  existsb (fun kv => String.eqb k (fst kv)) d.

(** [d[k]], [None] on a missing key. *)
Fixpoint dict_get (d : dict) (k : string) : option json :=
  match d with
  | [] => None
  | (k', v') :: d' => if String.eqb k k' then Some v' else dict_get d' k
  end.

(** [d[k] = v]: the value of an existing key is replaced where it stands, a
    new key goes to the end. *)
Fixpoint dict_set (d : dict) (k : string) (v : json) : dict :=
  match d with
  | [] => [(k, v)]
  | (k', v') :: d' =>
      if String.eqb k k' then (k', v) :: d' else (k', v') :: dict_set d' k v
  end.

(** The keys of a Python [dict] are pairwise different. *)
Fixpoint unique (l : list string) : bool :=
  match l with
  | [] => true
  | x :: l' => negb (list_in x l') && unique l'
  end.

(** The part of that invariant the script relies on: the keys of the
    manifest object and those of each mapping it holds. *)
Definition proper (v : json) : bool :=
  match v with
  | JDict d =>
      unique (keys d) &&
      forallb (fun kv => match snd kv with
                         | JDict deps => unique (keys deps)
                         | _ => true
                         end) d
  | _ => true
  end.

(** *** [json.dump(data, f, indent=2)] *)

Definition hex_digit (n : nat) : ascii :=
  match n with
  | 0 => "0" | 1 => "1" | 2 => "2" | 3 => "3" | 4 => "4" | 5 => "5"
  | 6 => "6" | 7 => "7" | 8 => "8" | 9 => "9" | 10 => "a" | 11 => "b"
  | 12 => "c" | 13 => "d" | 14 => "e" | _ => "f"
  end%char.

(** *** Strings

    A Python [str] is a sequence of code points.  It is carried here by its
    UTF-8 bytes, a lone surrogate by the three bytes that scheme gives its
    code point.  [==], [startswith] and [in] on two strs are then the same
    operations on the bytes; [json.dump] is where the code points show. *)

(** The code points of a str, from its bytes, one byte at a time: [more]
    is the number of bytes the code point under way still takes, [partial]
    what the bytes so far give.  Bytes that are the UTF-8 of no str have no
    meaning here. *)
Fixpoint code_points (partial : N) (more : nat) (s : string) : list N :=
  match s with
  | EmptyString => []
  | String c s' =>
      let n := N_of_ascii c in
      match more with
      | O =>
          if N.ltb n 0xC0 then n :: code_points 0 0 s'
          else if N.ltb n 0xE0 then code_points (n - 0xC0) 1 s'
          else if N.ltb n 0xF0 then code_points (n - 0xE0) 2 s'
          else code_points (n - 0xF0) 3 s'
      | S more' =>
          let partial' := (partial * 64 + n mod 64)%N in
          match more' with
          | O => partial' :: code_points 0 0 s'
          | S _ => code_points partial' more' s'
          end
      end
  end.

(** [{0:04x}]. *)
Definition hex4 (n : N) : string :=
  String (hex_digit (N.to_nat (N.shiftr n 12 mod 16)))
    (String (hex_digit (N.to_nat (N.shiftr n 8 mod 16)))
       (String (hex_digit (N.to_nat (N.shiftr n 4 mod 16)))
          (String (hex_digit (N.to_nat (n mod 16))) EmptyString))).

Definition u_escape (n : N) : string := ("\u" ++ hex4 n)%string.

(** One code point under [ensure_ascii]: the short escapes, the printable
    ASCII characters as they are, the other code points of the basic plane
    as [\uxxxx], and a code point beyond it as the escapes of its two
    surrogates. *)
Definition escape_code_point (n : N) : string :=
  if N.eqb n 34 then String "\" (String "034" EmptyString)
  else if N.eqb n 92 then "\\"
  else if N.eqb n 10 then "\n"
  else if N.eqb n 13 then "\r"
  else if N.eqb n 9 then "\t"
  else if N.eqb n 8 then "\b"
  else if N.eqb n 12 then "\f"
  else if N.leb 32 n && N.leb n 126 then String (ascii_of_N n) EmptyString
  else if N.ltb n 0x10000 then u_escape n
  else
    let m := (n - 0x10000)%N in
    (u_escape (N.lor 0xd800 (N.land (N.shiftr m 10) 0x3ff))
     ++ u_escape (N.lor 0xdc00 (N.land m 0x3ff)))%string.

Definition escape (s : string) : string :=
  String.concat EmptyString (map escape_code_point (code_points 0 0 s)).

(** [encode_basestring_ascii]. *)
Definition encode_str (s : string) : string :=
  String "034" (escape s ++ String "034" EmptyString)%string.

(** [int.__repr__]. *)
Definition int_repr (z : Z) : string := NilZero.string_of_int (Z.to_int z).

(** A line break followed by the indentation of nesting level [level]. *)
Definition newline_indent (indent level : nat) : string :=
  String "010" (spaces (indent * level)).

(** The encoder of [json.dump] when [indent] is given: items one per line,
    [,] between them, [: ] after a key, the closing bracket on a line of its
    own at the level of the opening one; an empty list is [[]] and an empty
    dict [{}]. *)
Fixpoint encode (indent level : nat) (v : json) : string :=
  (match v with
  | JNull => "null"
  | JBool true => "true"
  | JBool false => "false"
  | JInt z => int_repr z
  | JFloat r => r
  | JStr s => encode_str s
  | JList [] => "[]"
  | JList (x :: l) =>
      "[" ++ newline_indent indent (S level) ++ encode indent (S level) x
      ++ (fix items (l : list json) : string :=
            match l with
            | [] => EmptyString
            | y :: l' =>
                "," ++ newline_indent indent (S level)
                ++ encode indent (S level) y ++ items l'
            end) l
      ++ newline_indent indent level ++ "]"
  | JDict [] => "{}"
  | JDict ((k, x) :: d) =>
      "{" ++ newline_indent indent (S level)
      ++ encode_str k ++ ": " ++ encode indent (S level) x
      ++ (fix items (d : dict) : string :=
            match d with
            | [] => EmptyString
            | (k', y) :: d' =>
                "," ++ newline_indent indent (S level)
                ++ encode_str k' ++ ": " ++ encode indent (S level) y
                ++ items d'
            end) d
      ++ newline_indent indent level ++ "}"
  end)%string.

(** The text the script writes: [json.dump(data, f, indent=2)] and then
    [f.write('\n')]. *)
Definition dump_text (data : json) : string :=
  (encode 2 0 data ++ String "010" EmptyString)%string.

(** *** The layout of that text, line by line

    What an indentation of two spaces means for the lines of the text.  A
    scalar, an empty list and an empty dict take one line.  A list or dict
    with items opens with its bracket; then come its items, one after the
    other, on lines two spaces further in than those of the list or dict
    itself, with a comma at the end of every item but the last; then the
    closing bracket, on a line of its own.  A member of a dict has its key
    and [: ] before the first line of its value. *)

Definition indented (ls : list string) : list string :=
  map (append "  ") ls.

(** A comma at the end of the last line. *)
Fixpoint with_comma (ls : list string) : list string :=
  match ls with
  | [] => []
  | [l] => [(l ++ ",")%string]
  | l :: ls' => l :: with_comma ls'
  end.

(** The lines of the items of a list or dict, from the lines of each. *)
Fixpoint item_lines (items : list (list string)) : list string :=
  match items with
  | [] => []
  | [ls] => indented ls
  | ls :: items' => indented (with_comma ls) ++ item_lines items'
  end.

(** The lines of a member, from its key and the lines of its value. *)
Definition member_lines (k : string) (ls : list string) : list string :=
  match ls with
  | [] => []
  | l :: ls' => (encode_str k ++ ": " ++ l)%string :: ls'
  end.

(** The lines of the text of a value. *)
Fixpoint pretty (v : json) : list string :=
  match v with
  | JNull => ["null"]
  | JBool true => ["true"]
  | JBool false => ["false"]
  | JInt z => [int_repr z]
  | JFloat r => [r]
  | JStr s => [encode_str s]
  | JList [] => ["[]"]
  | JList l => "[" :: item_lines (map pretty l) ++ ["]"]
  | JDict [] => ["{}"]
  | JDict d =>
      "{" :: item_lines (map (fun '(k, x) => member_lines k (pretty x)) d)
      ++ ["}"]
  end.

(** Induction on a value, with the hypothesis for every item of a list
    and every value of a dict. *)
Fixpoint json_induction (P : json -> Prop)
  (HN : P JNull) (HB : forall b, P (JBool b)) (HI : forall z, P (JInt z))
  (HF : forall r, P (JFloat r)) (HS : forall s, P (JStr s))
  (HL : forall l, Forall P l -> P (JList l))
  (HD : forall d, Forall (fun kv => P (snd kv)) d -> P (JDict d))
  (v : json) : P v :=
  match v with
  | JNull => HN
  | JBool b => HB b
  | JInt z => HI z
  | JFloat r => HF r
  | JStr s => HS s
  | JList l =>
      HL l ((fix items (l : list json) : Forall P l :=
               match l with
               | [] => Forall_nil _
               | x :: l' =>
                   Forall_cons x (json_induction P HN HB HI HF HS HL HD x)
                     (items l')
               end) l)
  | JDict d =>
      HD d ((fix items (d : dict) : Forall (fun kv => P (snd kv)) d :=
               match d with
               | [] => Forall_nil _
               | (k, x) :: d' =>
                   Forall_cons (k, x)
                     (json_induction P HN HB HI HF HS HL HD x) (items d')
               end) d)
  end.

(** The text of a list of lines, a line break after each. *)
Fixpoint unlines (ls : list string) : string :=
  match ls with
  | [] => EmptyString
  | l :: ls' => (l ++ String "010" (unlines ls'))%string
  end.

End Json.

(* ================================================================== *)
(** ** The file system *)

Module Fs.

Import PyStr.

(** A directory tree: a file holds its bytes, a directory its entries in
    the order [os.scandir] lists them.  Symbolic links are left out, and so
    are access rights: a file that is there can be read and written. *)
Inductive node : Type :=
| File (text : string)
| Dir (entries : list (string * node)).

Definition is_dir (n : node) : bool :=
  match n with Dir _ => true | File _ => false end.

(** The [dirs] and [files] of a triple of [os.walk]. *)
Definition dirs (es : list (string * node)) : list string :=
  map fst (filter (fun e => is_dir (snd e)) es).

Definition nondirs (es : list (string * node)) : list string :=
  map fst (filter (fun e => negb (is_dir (snd e))) es).

(** [os.path.join(a, b)] of [posixpath]. *)
Definition os_path_join (a b : string) : string :=
  if startswith b "/" then b
  else if String.eqb a EmptyString || endswith a "/" then (a ++ b)%string
  else (a ++ "/" ++ b)%string.

(** [os.walk(top)], top down: the triple of a directory, then the walks of
    its sub-directories in the order of [dirs]. *)
Fixpoint os_walk (top : string) (t : node)
  : list (string * list string * list string) :=
  match t with
  | File _ => []
  | Dir es =>
      (top, dirs es, nondirs es)
      :: (fix subdirs (l : list (string * node)) :=
            match l with
            | [] => []
            | (name, child) :: l' =>
                os_walk (os_path_join top name) child ++ subdirs l'
            end) es
  end.

(** The first entry of a directory with a given name. *)
Fixpoint find_entry (name : string) (es : list (string * node))
  : option node :=
  match es with
  | [] => None
  | (n, c) :: es' => if String.eqb name n then Some c else find_entry name es'
  end.

Fixpoint set_entry (name : string) (c : node) (es : list (string * node))
  : list (string * node) :=
  match es with
  | [] => []
  | (n, c') :: es' =>
      if String.eqb name n then (n, c) :: es'
      else (n, c') :: set_entry name c es'
  end.

(** The node a list of names leads to. *)
Fixpoint lookup (t : node) (segs : list string) : option node :=
  match segs with
  | [] => Some t
  | s :: r =>
      match t with
      | Dir es =>
          match find_entry s es with
          | Some c => lookup c r
          | None => None
          end
      | File _ => None
      end
  end.

(** Truncating and writing the file a list of names leads to; a name that
    is missing from its directory is created there.  [None] where [open]
    fails: the path is a directory or goes through a file or a missing
    directory. *)
Fixpoint write_at (segs : list string) (text : string) (t : node)
  : option node :=
  match segs, t with
  | [], File _ => Some (File text)
  | [], Dir _ => None
  | _ :: _, File _ => None
  | s :: r, Dir es =>
      match find_entry s es with
      | Some c =>
          match write_at r text c with
          | Some c' => Some (Dir (set_entry s c' es))
          | None => None
          end
      | None =>
          match r with
          | [] => Some (Dir (es ++ [(s, File text)]))
          | _ :: _ => None
          end
      end
  end.

(** The names a relative path goes through: its [/]-separated parts, the
    empty ones and [.] dropped.  The paths the script builds start at [.]
    and never hold [..]. *)
Definition resolve (path : string) : list string :=
  filter (fun s => negb (String.eqb s EmptyString || String.eqb s "."))
         (split "/" path).

(** The text of the file a list of names leads to. *)
Definition read_at (t : node) (segs : list string) : option string :=
  match lookup t segs with
  | Some (File text) => Some text
  | _ => None
  end.

(** The text [open(path, 'r')] gives access to. *)
Definition read_path (t : node) (path : string) : option string :=
  read_at t (resolve path).

(** The tree after [open(path, 'w')] and the writes to it. *)
Definition write_path (t : node) (path text : string) : option node :=
  write_at (resolve path) text t.

(** The path [os.walk('.')] gives the directory reached through [segs]. *)
Definition walk_root (segs : list string) : string :=
  fold_left os_path_join segs ".".

(** [es] are the entries of a directory of [t], reached through [segs]. *)
Inductive dir_at : node -> list string -> list (string * node) -> Prop :=
| dir_here es : dir_at (Dir es) [] es
| dir_below es name child segs es' :
    In (name, child) es -> dir_at child segs es' ->
    dir_at (Dir es) (name :: segs) es'.

(** A file or directory name: not empty, no [/]. *)
Definition valid_name (s : string) : bool :=
  negb (String.eqb s EmptyString) && negb (has_char "/" s).

(** Induction on a tree, with the hypothesis for every entry of a
    directory. *)
Fixpoint node_induction (P : node -> Prop)
  (HF : forall text, P (File text))
  (HD : forall es, Forall (fun e => P (snd e)) es -> P (Dir es))
  (t : node) : P t :=
  match t with
  | File text => HF text
  | Dir es =>
      HD es ((fix entries (l : list (string * node))
                : Forall (fun e => P (snd e)) l :=
                match l with
                | [] => Forall_nil _
                | (name, child) :: l' =>
                    Forall_cons (name, child)
                      (node_induction P HF HD child) (entries l')
                end) es)
  end.

End Fs.

(* ================================================================== *)
(** ** The script *)

Module Script.

Import PyStr Json Fs.

(** What the script prints, one constructor per [print] of the source:
    [Error decoding {file_path}] and
    [Updating {pkg} in {file_path} from {version} to workspace:*]. *)
Inductive line : Type :=
| Error_decoding (file_path : string)
| Updating (pkg file_path : string) (version : json).

(** The state a run works on: the tree under the current directory, the
    lines printed so far and, for every [json.dump] so far, the path opened
    for writing with the object that was serialized. *)
Record world : Type := World {
  cwd : node;
  stdout : list line;
  dumped : list (string * json)
}.

(** The exceptions that can leave [fix_dependencies]; none is caught
    ([json.JSONDecodeError] is, and is no exception here: see [loaded]).
    The last three are those [json.load] raises besides
    [json.JSONDecodeError]: [UnicodeDecodeError] when the bytes of the file
    are no text in the encoding [open] chose, [RecursionError] on a
    document nested too deep, and [ValueError] on an integer with more
    digits than [int] converts. *)
Inductive exn : Type :=
| OSError
| KeyError
| TypeError
| AttributeError
| UnicodeDecodeError
| RecursionError
| ValueError.

Inductive result (A : Type) : Type :=
| Returns (a : A)
| Raises (e : exn).
Arguments Returns {A} a.
Arguments Raises {A} e.

(** Computations: a state, and either a value or an exception. *)
Definition M (A : Type) : Type := world -> result A * world.

Definition ret {A} (a : A) : M A := fun w => (Returns a, w).

Definition bind {A B} (m : M A) (k : A -> M B) : M B :=
  fun w =>
    match m w with
    | (Returns a, w') => k a w'
    | (Raises e, w') => (Raises e, w')
    end.

Notation "x <- m ;; k" := (bind m (fun x => k))
  (at level 61, m at next level, right associativity).
Notation "' pat <- m ;; k" := (bind m (fun x => match x with pat => k end))
  (at level 61, pat pattern, m at next level, right associativity).
Notation "m ;; k" := (bind m (fun _ => k))
  (at level 61, right associativity).

Definition lift {A} (r : result A) : M A := fun w => (r, w).

(** [print(...)]. *)
Definition print (l : line) : M unit :=
  fun w => (Returns tt, World (cwd w) (stdout w ++ [l]) (dumped w)).

(** [open(file_path, 'r')] and reading the whole file. *)
Definition open_read (file_path : string) : M string :=
  fun w =>
    match read_path (cwd w) file_path with
    | Some text => (Returns text, w)
    | None => (Raises OSError, w)
    end.

(** [open(file_path, 'w')], [json.dump(data, f, indent=2)] and
    [f.write('\n')].  [open] fails where the path leads to no file that can
    be written; access rights being left out of the tree, it succeeds on
    every file that was read. *)
Definition open_dump (file_path : string) (data : json) : M unit :=
  fun w =>
    match write_path (cwd w) file_path (dump_text data) with
    | Some t => (Returns tt,
                 World t (stdout w) (dumped w ++ [(file_path, data)]))
    | None => (Raises OSError, w)
    end.

(** *** Python's operators on the loaded value *)

(** [key in data].  On a dict it looks for the key, on a list for an equal
    item, on a string for a substring; the other values are not
    containers. *)
Definition py_contains (data : json) (key : string) : result bool :=
  match data with
  | JDict d => Returns (dict_in key d)
  | JList l => Returns (existsb (fun x => negb (ne_str x key)) l)
  | JStr s => Returns (str_in key s)
  | _ => Raises TypeError
  end.

(** [data[key]] for a string [key], after [key in data] held. *)
Definition py_getitem (data : json) (key : string) : result json :=
  match data with
  | JDict d =>
      match dict_get d key with
      | Some v => Returns v
      | None => Raises KeyError
      end
  | _ => Raises TypeError
  end.

(** [v.items()]: only a dict has the method. *)
Definition py_items (v : json) : result (list (string * json)) :=
  match v with
  | JDict d => Returns d
  | _ => Raises AttributeError
  end.

(** [data[key] = v]. *)
Definition py_setitem (data : json) (key : string) (v : json) : result json :=
  match data with
  | JDict d => Returns (JDict (dict_set d key v))
  | _ => Raises TypeError
  end.

(** How [json.load(f)] ends: with a value; with [json.JSONDecodeError],
    the one exception the script catches; or with another exception, which
    it does not catch. *)
Inductive loaded : Type :=
| Loaded (data : json)
| JSONDecodeError
| Uncaught (e : exn).

Section WithLoader.

(** [json.load] on a file, as a function of the bytes the file holds: it
    reads them, decodes them and parses the text. *)
Variable json_load : string -> loaded.

(** The body of [for pkg, version in data[dep_type].items()], over the
    items still to visit.  The assignment [data[dep_type][pkg] = ...]
    changes the mapping that [data] holds under [dep_type]: it gives a new
    value to the key of the item just visited and keeps the keys and their
    order, so the items still to visit are those the view had when the loop
    started. *)
Fixpoint for_items (file_path dep_type : string) (its : list (string * json))
  (data : json) (changed : bool) : M (json * bool) :=
  match its with
  | [] => ret (data, changed)
  | (pkg, version) :: its' =>
      if startswith pkg "@styx/" && ne_str version "workspace:*" then
        print (Updating pkg file_path version) ;;
        deps <- lift (py_getitem data dep_type) ;;
        deps' <- lift (py_setitem deps pkg (JStr "workspace:*")) ;;
        data' <- lift (py_setitem data dep_type deps') ;;
        for_items file_path dep_type its' data' true
      else for_items file_path dep_type its' data changed
  end.

(** [for dep_type in [...]: if dep_type in data: ...]. *)
Fixpoint for_dep_types (file_path : string) (l : list string)
  (data : json) (changed : bool) : M (json * bool) :=
  match l with
  | [] => ret (data, changed)
  | dep_type :: l' =>
      present <- lift (py_contains data dep_type) ;;
      if (present : bool) then
        deps <- lift (py_getitem data dep_type) ;;
        its <- lift (py_items deps) ;;
        '(data', changed') <- for_items file_path dep_type its data changed ;;
        for_dep_types file_path l' data' changed'
      else for_dep_types file_path l' data changed
  end.

Definition fix_dependencies (file_path : string) : M unit :=
  text <- open_read file_path ;;
  match json_load text with
  | JSONDecodeError => print (Error_decoding file_path)
  | Uncaught e => lift (Raises e)
  | Loaded data =>
      '(data', changed) <-
        for_dep_types file_path
          ["dependencies"; "devDependencies"; "peerDependencies"] data false ;;
      if (changed : bool) then open_dump file_path data' else ret tt
  end.

(** The first loop of [main], over the triples of [os.walk('.')]. *)
Fixpoint find_package_files (walk : list (string * list string * list string))
  (package_files : list string) : list string :=
  match walk with
  | [] => package_files
  | (root, _, files) :: walk' =>
      if str_in "node_modules" root then
        find_package_files walk' package_files
      else if list_in "package.json" files then
        find_package_files walk'
          (package_files ++ [os_path_join root "package.json"])
      else find_package_files walk' package_files
  end.

(** The second loop of [main]. *)
Fixpoint for_files (package_files : list string) : M unit :=
  match package_files with
  | [] => ret tt
  | file_path :: rest => fix_dependencies file_path ;; for_files rest
  end.

Definition main : M unit :=
  fun w =>
    let package_files := find_package_files (os_walk "." (cwd w)) [] in
    for_files package_files w.

End WithLoader.

End Script.

(* ================================================================== *)
(** ** What the loops compute *)

Module Scan.

Import PyStr Json Fs Script.

(** The test of the inner loop: an internal package whose version is not
    the workspace pointer. *)
Definition stale (kv : string * json) : bool :=
  startswith (fst kv) "@styx/" && ne_str (snd kv) "workspace:*".

(** One turn of the inner loop, on the mapping. *)
Definition visit (deps : dict) (kv : string * json) : dict :=
  if stale kv then dict_set deps (fst kv) (JStr "workspace:*") else deps.

(** The inner loop over the items [its], on the mapping. *)
Definition scan_items (its : list (string * json)) (deps : dict) : dict :=
  fold_left visit its deps.

(** One turn of the outer loop, on a manifest object. *)
Definition scan_field (d : dict) (dep_type : string) : dict :=
  match dict_get d dep_type with
  | Some (JDict deps) => dict_set d dep_type (JDict (scan_items deps deps))
  | _ => d
  end.

(** The items of the field [dep_type] the loop changes. *)
Definition stale_items (d : dict) (dep_type : string) : list (string * json) :=
  match dict_get d dep_type with
  | Some (JDict deps) => filter stale deps
  | _ => []
  end.

(** The lines one field gives rise to. *)
Definition updates (file_path : string) (its : list (string * json))
  : list line :=
  map (fun kv => Updating (fst kv) file_path (snd kv)) (filter stale its).

(** A field the outer loop gets through: absent, or a mapping. *)
Definition mapping_or_absent (d : dict) (dep_type : string) : bool :=
  match dict_get d dep_type with
  | Some (JDict _) | None => true
  | Some _ => false
  end.

(** The outer loop over the field names [l], on a manifest object. *)
Definition scan (l : list string) (d : dict) : dict :=
  fold_left scan_field l d.

(** The field [dep_type] holds a stale item. *)
Definition field_changed (d : dict) (dep_type : string) : bool :=
  match dict_get d dep_type with
  | Some (JDict deps) => existsb stale deps
  | _ => false
  end.

(** The outer loop over [l] meets a stale item. *)
Fixpoint scan_changed (l : list string) (d : dict) : bool :=
  match l with
  | [] => false
  | k :: l' => field_changed d k || scan_changed l' (scan_field d k)
  end.

(** The lines the outer loop over [l] prints. *)
Fixpoint scan_lines (file_path : string) (l : list string) (d : dict)
  : list line :=
  match l with
  | [] => []
  | k :: l' =>
      updates file_path (stale_items d k)
      ++ scan_lines file_path l' (scan_field d k)
  end.

(** The manifests [main] collects in the tree [t]. *)
Definition package_files (t : node) : list string :=
  find_package_files (os_walk "." t) [].

(** What one triple of [os.walk] adds to [package_files]. *)
Definition collected (triple : string * list string * list string)
  : list string :=
  let '(root, _, files) := triple in
  if str_in "node_modules" root then []
  else if list_in "package.json" files
       then [os_path_join root "package.json"]
       else [].

(** A text on which [fix_dependencies] writes nothing: it does not load,
    or not as an object, or a recognized field is no mapping, or no item is
    stale. *)
Definition rests (json_load : string -> loaded) (text : string) : bool :=
  match json_load text with
  | Loaded (JDict d) =>
      negb (forallb (mapping_or_absent d) dep_types
            && scan_changed dep_types d)
  | _ => true
  end.

(** A path on which [fix_dependencies] writes nothing in the tree [t]. *)
Definition at_rest (json_load : string -> loaded) (t : node)
  (path : string) : bool :=
  match read_path t path with
  | Some text => rests json_load text
  | None => true
  end.

(** [json.load] builds dicts, whose keys are pairwise different. *)
Definition loads_proper (json_load : string -> loaded) : Prop :=
  forall text v, json_load text = Loaded v -> proper v = true.

(** [json.load] reads back what [json.dump] and the line break after it
    wrote for [v]. *)
Definition reads_back (json_load : string -> loaded) (v : json) : Prop :=
  json_load (dump_text v) = Loaded v.

(** A mapping after a scan, item by item. *)
Definition normalize (deps : dict) : dict :=
  map (fun kv => if startswith (fst kv) "@styx/"
                 then (fst kv, JStr "workspace:*") else kv) deps.

(** Every internal package of the mapping is at the workspace pointer. *)
Definition normalized (deps : dict) : Prop :=
  forall pkg v, In (pkg, v) deps -> startswith pkg "@styx/" = true ->
                v = JStr "workspace:*".

End Scan.

(* ================================================================== *)
(** ** A workspace to run the script on *)

Module Sample.

Import PyStr Json Fs Script Scan.

Definition quoted (s : string) : string :=
  String "034" (s ++ String "034" EmptyString)%string.

(** [packages/a/package.json] of the example scenario, and what
    [json.load] makes of it. *)
Definition a_text : string :=
  ("{" ++ quoted "dependencies" ++ ": {" ++ quoted "@styx/core" ++ ": "
   ++ quoted "^1.0.0" ++ ", " ++ quoted "lodash" ++ ": " ++ quoted "^4.0.0"
   ++ "}}")%string.

Definition a_fields : dict :=
  [("dependencies",
    JDict [("@styx/core", JStr "^1.0.0"); ("lodash", JStr "^4.0.0")])].

Definition a_data : json := JDict a_fields.

Definition a_fixed_fields : dict :=
  [("dependencies",
    JDict [("@styx/core", JStr "workspace:*"); ("lodash", JStr "^4.0.0")])].

Definition a_fixed : json := JDict a_fixed_fields.

(** A manifest with other fields, and an internal package whose version
    is an object. *)
Definition b_fields : dict :=
  [("name", JStr "@styx/b");
   ("version", JStr "0.3.1");
   ("scripts", JDict [("build", JStr "tsc")]);
   ("dependencies",
    JDict [("@styx/core", JDict [("version", JStr "1.x")]);
           ("react", JStr "^18.2.0")]);
   ("peerDependencies", JDict [("@styx/ui", JStr "workspace:*")])].

Definition b_data : json := JDict b_fields.

Definition b_fixed_fields : dict :=
  [("name", JStr "@styx/b");
   ("version", JStr "0.3.1");
   ("scripts", JDict [("build", JStr "tsc")]);
   ("dependencies",
    JDict [("@styx/core", JStr "workspace:*"); ("react", JStr "^18.2.0")]);
   ("peerDependencies", JDict [("@styx/ui", JStr "workspace:*")])].

Definition b_fixed : json := JDict b_fixed_fields.

(** A manifest with nothing to change. *)
Definition c_fields : dict :=
  [("name", JStr "styx-stack");
   ("devDependencies",
    JDict [("@styx/tools", JStr "workspace:*");
           ("typescript", JStr "^5.4.0")])].

Definition c_data : json := JDict c_fields.

(** A manifest whose [dependencies] is no mapping. *)
Definition odd_fields : dict :=
  [("name", JStr "odd");
   ("devDependencies", JDict [("@styx/tools", JStr "^2.0.0")]);
   ("dependencies", JStr "none")].

Definition odd_data : json := JDict odd_fields.

(** A file that is no JSON. *)
Definition broken_text : string := "{ not json".

(** A file that holds one integer of [n] digits. *)
Fixpoint nines (n : nat) : string :=
  match n with
  | O => EmptyString
  | S n' => String "9" (nines n')
  end.

Definition is_digit (c : ascii) : bool :=
  Nat.leb 48 (nat_of_ascii c) && Nat.leb (nat_of_ascii c) 57.

Fixpoint all_digits (s : string) : bool :=
  match s with
  | EmptyString => true
  | String c s' => is_digit c && all_digits s'
  end.

(** A text that is one integer, without a leading zero, of more digits
    than [int] converts: [sys.get_int_max_str_digits()] is 4300. *)
Definition long_integer (text : string) : bool :=
  match text with
  | EmptyString => false
  | String c _ =>
      negb (Ascii.eqb c "0") && all_digits text
      && Nat.ltb 4300 (String.length text)
  end.

(** The documents the loader knows by their text. *)
Definition documents : list (string * json) :=
  [(a_text, a_data);
   (dump_text a_fixed, a_fixed);
   (dump_text b_data, b_data);
   (dump_text b_fixed, b_fixed);
   (dump_text c_data, c_data);
   (dump_text odd_data, odd_data)].

(** The loader: the value of a document it knows; [ValueError] on an
    integer too long for [int]; [json.JSONDecodeError] on any other text. *)
Definition sample_load (text : string) : loaded :=
  match dict_get documents text with
  | Some v => Loaded v
  | None => if long_integer text then Uncaught ValueError else JSONDecodeError
  end.

Definition workspace : node :=
  Dir [("package.json", File (dump_text c_data));
       ("packages",
        Dir [("a", Dir [("package.json", File a_text);
                        ("README.md", File "a")]);
             ("b", Dir [("package.json", File (dump_text b_data));
                        ("node_modules",
                         Dir [("dep", Dir [("package.json", File a_text)])])]);
             ("broken", Dir [("package.json", File broken_text)])]);
       ("node_modules_old", Dir [("package.json", File a_text)])].

(** A workspace with one manifest, of the given text. *)
Definition single (text : string) : node :=
  Dir [("package.json", File text)].

(** A workspace where the broken manifest comes first. *)
Definition broken_first : node :=
  Dir [("broken", Dir [("package.json", File broken_text)]);
       ("packages", Dir [("a", Dir [("package.json", File a_text)])])].

(** A workspace where the first manifest holds one integer of 4301
    digits. *)
Definition long_first : node :=
  Dir [("big", Dir [("package.json", File (nines 4301))]);
       ("packages", Dir [("a", Dir [("package.json", File a_text)])])].

(** A workspace where a manifest of the wrong shape comes first. *)
Definition odd_first : node :=
  Dir [("odd", Dir [("package.json", File (dump_text odd_data))]);
       ("packages", Dir [("a", Dir [("package.json", File a_text)])])].

Definition start (t : node) : world := World t [] [].

(** The state after [fix_dependencies] on the only manifest of
    [single text]. *)
Definition after (text : string) : world :=
  snd (fix_dependencies sample_load "./package.json" (start (single text))).

End Sample.

(* ================================================================== *)
(** ** Shapes of values, lines and trees *)

Module Layout.

Import PyStr Json Fs Script Scan Sample.

(** A value that [in] cannot search: [None], a bool or a number. *)
Definition no_container (data : json) : bool :=
  match data with
  | JNull | JBool _ | JInt _ | JFloat _ => true
  | _ => false
  end.

(** The file a printed line is about. *)
Definition line_path (l : line) : string :=
  match l with
  | Error_decoding file_path => file_path
  | Updating _ file_path _ => file_path
  end.

(** A tree without the texts of its files: the directories, and the names
    in them, in their order. *)
Fixpoint skeleton (t : node) : node :=
  match t with
  | File _ => File EmptyString
  | Dir es =>
      Dir ((fix each (l : list (string * node)) : list (string * node) :=
              match l with
              | [] => []
              | (name, child) :: l' => (name, skeleton child) :: each l'
              end) es)
  end.

(** A name a directory can list: a valid name other than [.] and [..]. *)
Definition entry_name (s : string) : bool :=
  valid_name s && negb (String.eqb s ".") && negb (String.eqb s "..").

(** A tree as a file system has it: in every directory the names are
    entry names and pairwise different. *)
Fixpoint well_formed (t : node) : bool :=
  match t with
  | File _ => true
  | Dir es =>
      forallb entry_name (map fst es)
      && unique (map fst es)
      && (fix each (l : list (string * node)) : bool :=
            match l with
            | [] => true
            | (_, child) :: l' => well_formed child && each l'
            end) es
  end.

(** How a computation prints: it adds lines, all about [file_path]. *)
Definition says {A} (file_path : string) (m : M A) : Prop :=
  forall w, exists out,
    stdout (snd (m w)) = stdout w ++ out
    /\ Forall (fun l => line_path l = file_path) out.

(** The manifests collected in the tree [t] when [os.walk] starts at
    [top]. *)
Definition found (top : string) (t : node) : list string :=
  flat_map collected (os_walk top t).

(** The text a manifest holds after a call of [fix_dependencies] on it, as
    a function of the text it held. *)
Definition rewritten (json_load : string -> loaded) (text : string)
  : string :=
  match json_load text with
  | Loaded (JDict d) =>
      if forallb (mapping_or_absent d) dep_types && scan_changed dep_types d
      then dump_text (JDict (scan dep_types d))
      else text
  | _ => text
  end.

(** A manifest with a stale package in [dependencies] and a
    [devDependencies] that is no mapping. *)
Definition odd_late_fields : dict :=
  [("name", JStr "odd-late");
   ("dependencies", JDict [("@styx/core", JStr "^1.0.0")]);
   ("devDependencies", JInt 3)].

Definition odd_late_data : json := JDict odd_late_fields.

(** A manifest whose [dependencies] is no mapping, with a stale package
    in [devDependencies]. *)
Definition odd_early_fields : dict :=
  [("dependencies", JInt 3);
   ("devDependencies", JDict [("@styx/a", JInt 1)])].

Definition odd_early_data : json := JDict odd_early_fields.

(** More documents for the sample loader: values that are no objects, and
    the two manifests above. *)
Definition more_documents : list (string * json) :=
  [(dump_text odd_late_data, odd_late_data);
   (dump_text odd_early_data, odd_early_data);
   ("null", JNull);
   ("42", JInt 42);
   ("[1, 2]", JList [JInt 1; JInt 2]);
   (("[" ++ quoted "name" ++ ", " ++ quoted "dependencies" ++ "]")%string,
    JList [JStr "name"; JStr "dependencies"]);
   (quoted "no manifest", JStr "no manifest");
   (quoted "my peerDependencies", JStr "my peerDependencies")].

(** A tree without any manifest. *)
Definition bare : node :=
  Dir [("README.md", File "styx");
       ("src", Dir [("index.js", File "export {}")])].

(** A workspace where a manifest of the wrong shape stands between two
    others. *)
Definition odd_second : node :=
  Dir [("a", Dir [("package.json", File a_text)]);
       ("odd", Dir [("package.json", File (dump_text odd_data))]);
       ("z", Dir [("package.json", File a_text)])].

Definition wide_load (text : string) : loaded :=
  match dict_get more_documents text with
  | Some v => Loaded v
  | None => sample_load text
  end.

End Layout.

Import PyStr Json Fs Script Scan.

(* ================================================================== *)
(** ** Strings: prefixes, substrings, parts of a path *)

Section StringFacts.

Lemma append_assoc (a b c : string) :
  ((a ++ b) ++ c = a ++ (b ++ c))%string.
Proof. induction a as [|x a IH]; simpl; [|rewrite IH]; reflexivity. Qed.

Lemma startswith_cons a s b p :
  startswith (String a s) (String b p) = Ascii.eqb a b && startswith s p.
Proof. reflexivity. Qed.

Lemma startswith_nil s : startswith s EmptyString = true.
Proof. now destruct s. Qed.

Lemma startswith_refl s : startswith s s = true.
Proof. induction s as [|c s IH]; simpl; [|rewrite Ascii.eqb_refl]; auto. Qed.

Lemma startswith_app s p b :
  startswith s p = true -> startswith (s ++ b)%string p = true.
Proof.
  revert s. induction p as [|c p IH]; intros s; [reflexivity|].
  destruct s as [|a s]; simpl; [discriminate|].
  rewrite !andb_true_iff. intros [Hc Hp]. auto.
Qed.

(** A prefix that lacks the character [c] ends before the first [c]. *)
Lemma startswith_before c p a b :
  has_char c p = false ->
  startswith (a ++ String c b)%string p = true -> startswith a p = true.
Proof.
  revert a. induction p as [|y p IH]; intros a Hc H.
  - apply startswith_nil.
  - simpl in Hc. apply orb_false_iff in Hc as [Hy Hp].
    destruct a as [|x a]; simpl in *.
    + apply andb_true_iff in H as [H _]. congruence.
    + apply andb_true_iff in H as [Hx H]. rewrite Hx. simpl. eauto.
Qed.

Lemma str_in_nil s : str_in EmptyString s = true.
Proof. destruct s; reflexivity. Qed.

Lemma str_in_refl s : str_in s s = true.
Proof.
  destruct s; simpl; [reflexivity|].
  now rewrite Ascii.eqb_refl, startswith_refl.
Qed.

Lemma str_in_app_l sub a b :
  str_in sub a = true -> str_in sub (a ++ b)%string = true.
Proof.
  induction a as [|x a IH]; simpl.
  - rewrite orb_false_r.
    destruct sub; [intros _; apply str_in_nil | discriminate].
  - intros H. apply orb_true_iff in H as [H|H].
    + apply (startswith_app _ _ b) in H. simpl in H. now rewrite H.
    + rewrite (IH H). apply orb_true_r.
Qed.

Lemma str_in_app_r sub a b :
  str_in sub b = true -> str_in sub (a ++ b)%string = true.
Proof.
  intros H. induction a as [|x a IH]; simpl; [assumption|].
  rewrite IH. apply orb_true_r.
Qed.

(** A substring that lacks the character [c] lies on one side of it. *)
Lemma str_in_around c sub a b :
  has_char c sub = false ->
  str_in sub (a ++ String c b)%string = true ->
  str_in sub a = true \/ str_in sub b = true.
Proof.
  intros Hc. induction a as [|x a IH]; simpl.
  - intros H. apply orb_true_iff in H as [H|H]; [|now right].
    left. apply (startswith_before c sub EmptyString b Hc) in H.
    now rewrite H.
  - intros H. apply orb_true_iff in H as [H|H].
    + left. apply (startswith_before c sub (String x a) b Hc) in H.
      simpl in H. now rewrite H.
    + destruct (IH H) as [Ha|Hb]; [left | now right].
      rewrite Ha. apply orb_true_r.
Qed.

(** The first part of a split string is a prefix of the string. *)
Lemma split_head sep s :
  exists x r, split sep s = x :: r /\ startswith s x = true.
Proof.
  induction s as [|c s (x & r & E & Hx)]; simpl.
  - now exists EmptyString, [].
  - destruct (Ascii.eqb c sep).
    + now exists EmptyString, (split sep s).
    + rewrite E. exists (String c x), r. simpl.
      now rewrite Ascii.eqb_refl, Hx.
Qed.

(** Every part of a split string is a substring of it. *)
Lemma split_str_in sep s x : In x (split sep s) -> str_in x s = true.
Proof.
  revert x. induction s as [|c s IH]; intros x; simpl.
  - intros [<-|[]]. reflexivity.
  - destruct (Ascii.eqb c sep).
    + intros [<-|H]; [reflexivity|]. rewrite (IH _ H). apply orb_true_r.
    + destruct (split_head sep s) as (y & r & E & Hy). rewrite E in *.
      intros [<-|H].
      * simpl. now rewrite Ascii.eqb_refl, Hy.
      * rewrite (IH x (or_intror H)). apply orb_true_r.
Qed.

End StringFacts.

#[global] Arguments startswith : simpl never.
#[global] Arguments str_in : simpl never.

(* ================================================================== *)
(** ** Dictionaries: reading and assigning *)

Section DictFacts.

Lemma dict_get_set_same (d : dict) k v :
  dict_get (dict_set d k v) k = Some v.
Proof.
  induction d as [|[k' v'] d IH]; simpl.
  - now rewrite String.eqb_refl.
  - destruct (String.eqb k k') eqn:E; simpl; rewrite E; auto.
Qed.

Lemma dict_get_set_other (d : dict) k k' v :
  k <> k' -> dict_get (dict_set d k v) k' = dict_get d k'.
Proof.
  intros Hne. induction d as [|[k0 v0] d IH]; simpl.
  - destruct (String.eqb_spec k' k); congruence.
  - destruct (String.eqb_spec k k0) as [->|]; simpl.
    + destruct (String.eqb_spec k' k0); congruence.
    + now rewrite IH.
Qed.

Lemma dict_set_twice (d : dict) k x y :
  dict_set (dict_set d k x) k y = dict_set d k y.
Proof.
  induction d as [|[k' v'] d IH]; simpl.
  - now rewrite String.eqb_refl.
  - destruct (String.eqb k k') eqn:E; simpl; rewrite E; congruence.
Qed.

Lemma dict_set_same_value (d : dict) k v :
  dict_get d k = Some v -> dict_set d k v = d.
Proof.
  induction d as [|[k' v'] d IH]; simpl; [discriminate|].
  destruct (String.eqb k k'); intros H.
  - congruence.
  - now rewrite IH.
Qed.

Lemma dict_in_get (d : dict) k :
  dict_in k d = true <-> exists v, dict_get d k = Some v.
Proof.
  unfold dict_in. induction d as [|[k' v'] d IH]; simpl.
  - split; [discriminate | intros [v H]; discriminate].
  - destruct (String.eqb k k'); simpl; [split; eauto | exact IH].
Qed.

Lemma keys_dict_set (d : dict) k v :
  dict_in k d = true -> keys (dict_set d k v) = keys d.
Proof.
  unfold dict_in, keys. induction d as [|[k' v'] d IH]; simpl; [discriminate|].
  destruct (String.eqb k k'); simpl; intros H; [reflexivity|].
  now rewrite IH.
Qed.

Lemma dict_get_In (d : dict) k v : dict_get d k = Some v -> In (k, v) d.
Proof.
  induction d as [|[k' v'] d IH]; simpl; [discriminate|].
  destruct (String.eqb_spec k k') as [->|]; intros H.
  - left; congruence.
  - right; auto.
Qed.

Lemma list_in_In x l : list_in x l = true <-> In x l.
Proof.
  unfold list_in. rewrite existsb_exists. split.
  - intros [y [Hy E]]. apply String.eqb_eq in E. now subst.
  - intros H. exists x. split; [assumption | apply String.eqb_refl].
Qed.

Lemma unique_NoDup l : unique l = true <-> NoDup l.
Proof.
  induction l as [|x l IH]; simpl.
  - split; [constructor | reflexivity].
  - rewrite andb_true_iff, negb_true_iff, IH. split.
    + intros [Hx Hl]. constructor; [|assumption].
      rewrite <- list_in_In. congruence.
    + intros H. inversion H as [|? ? Hx Hl]; subst. split; [|assumption].
      destruct (list_in x l) eqn:E; [|reflexivity].
      apply list_in_In in E. contradiction.
Qed.

(** With pairwise different keys, the items of a dict are what reading it
    by key gives. *)
Lemma In_dict_get (d : dict) k v :
  unique (keys d) = true -> In (k, v) d -> dict_get d k = Some v.
Proof.
  induction d as [|[k' v'] d IH]; simpl; [contradiction|].
  rewrite andb_true_iff, negb_true_iff. intros [Hk Hu] [E|Hin].
  - inversion E; subst. now rewrite String.eqb_refl.
  - destruct (String.eqb_spec k k') as [->|]; [|auto].
    exfalso. apply (in_map fst) in Hin. simpl in Hin.
    apply list_in_In in Hin. unfold keys in Hk. congruence.
Qed.

End DictFacts.

(* ================================================================== *)
(** ** The inner loop *)

Section InnerLoop.

Variable file_path : string.

Lemma world_eta (w : world) : World (cwd w) (stdout w) (dumped w) = w.
Proof. now destruct w. Qed.

Lemma scan_items_cons kv its deps :
  scan_items (kv :: its) deps = scan_items its (visit deps kv).
Proof. reflexivity. Qed.

Lemma updates_cons kv its :
  updates file_path (kv :: its) =
  if stale kv then Updating (fst kv) file_path (snd kv) :: updates file_path its
  else updates file_path its.
Proof. unfold updates. simpl. now destruct (stale kv). Qed.

(** The inner loop returns; it leaves under [dep_type] the mapping
    [scan_items] computes, sets [changed] when some item was stale, and
    prints one line per stale item. *)
Lemma for_items_spec dep_type its :
  forall d deps changed w,
    dict_get d dep_type = Some (JDict deps) ->
    for_items file_path dep_type its (JDict d) changed w =
    (Returns (JDict (dict_set d dep_type (JDict (scan_items its deps))),
              changed || existsb stale its),
     World (cwd w) (stdout w ++ updates file_path its) (dumped w)).
Proof.
  induction its as [|[pkg version] its IH]; intros d deps changed w Hget.
  - simpl. unfold ret, updates. simpl.
    rewrite (dict_set_same_value _ _ _ Hget), orb_false_r, app_nil_r.
    now rewrite world_eta.
  - cbn [for_items]. rewrite scan_items_cons, updates_cons. cbn [existsb].
    change (startswith pkg "@styx/" && ne_str version "workspace:*")
      with (stale (pkg, version)).
    unfold visit. destruct (stale (pkg, version)) eqn:E.
    + unfold bind at 1. unfold print at 1.
      unfold bind at 1. unfold lift at 1. simpl py_getitem. rewrite Hget.
      unfold bind at 1. unfold lift at 1. simpl py_setitem.
      unfold bind at 1. unfold lift at 1.
      rewrite (IH _ (dict_set deps pkg (JStr "workspace:*")) true).
      * simpl. rewrite dict_set_twice, orb_true_r, <- app_assoc. reflexivity.
      * apply dict_get_set_same.
    + rewrite (IH _ deps _ _ Hget). reflexivity.
Qed.

End InnerLoop.

(* ================================================================== *)
(** ** The outer loop *)

Section OuterLoop.

Variable file_path : string.

Lemma filter_stale_idem its :
  filter stale (filter stale its) = filter stale its.
Proof.
  induction its as [|kv its IH]; simpl; [reflexivity|].
  destruct (stale kv) eqn:E; simpl; [rewrite E|]; congruence.
Qed.

Lemma updates_filter its :
  updates file_path (filter stale its) = updates file_path its.
Proof. unfold updates. now rewrite filter_stale_idem. Qed.

Lemma mapping_or_absent_scan_field d k k' :
  mapping_or_absent (scan_field d k) k' = mapping_or_absent d k'.
Proof.
  unfold mapping_or_absent, scan_field.
  destruct (dict_get d k) as [[| | | | | |deps]|] eqn:E; try reflexivity.
  destruct (String.eqb_spec k k') as [<-|Hne].
  - now rewrite dict_get_set_same, E.
  - now rewrite dict_get_set_other.
Qed.

(** On a manifest object whose recognized fields are mappings, the outer
    loop returns what [scan] computes. *)
Lemma for_dep_types_ok l :
  forall d changed w,
    forallb (mapping_or_absent d) l = true ->
    for_dep_types file_path l (JDict d) changed w =
    (Returns (JDict (scan l d), changed || scan_changed l d),
     World (cwd w) (stdout w ++ scan_lines file_path l d) (dumped w)).
Proof.
  induction l as [|k l IH]; intros d changed w Hok.
  - simpl. unfold ret. now rewrite orb_false_r, app_nil_r, world_eta.
  - simpl in Hok. apply andb_true_iff in Hok as [Hk Hl].
    simpl for_dep_types. simpl scan_changed. simpl scan_lines.
    unfold scan. simpl fold_left. fold (scan l (scan_field d k)).
    unfold bind at 1. unfold lift at 1. simpl py_contains.
    unfold mapping_or_absent in Hk.
    unfold scan_field, field_changed, stale_items.
    destruct (dict_get d k) as [v|] eqn:E.
    + assert (Hin : dict_in k d = true) by (apply dict_in_get; eauto).
      rewrite Hin.
      unfold bind at 1. unfold lift at 1. simpl py_getitem. rewrite ?E.
      destruct v as [| | | | | |deps]; try discriminate.
      unfold bind at 1. unfold lift at 1. simpl py_items.
      unfold bind at 1.
      rewrite (for_items_spec file_path k deps d deps changed w E).
      rewrite IH.
      * simpl. rewrite updates_filter, <- app_assoc, orb_assoc.
        replace (dict_set d k (JDict (scan_items deps deps)))
          with (scan_field d k) by (unfold scan_field; now rewrite E).
        reflexivity.
      * replace (dict_set d k (JDict (scan_items deps deps)))
          with (scan_field d k) by (unfold scan_field; now rewrite E).
        rewrite forallb_forall in *. intros x Hx.
        rewrite mapping_or_absent_scan_field. auto.
    + assert (Hin : dict_in k d = false).
      { destruct (dict_in k d) eqn:F; [|reflexivity].
        apply dict_in_get in F as [v F]. congruence. }
      rewrite Hin. simpl. now rewrite IH.
Qed.

(** A recognized field that is present and is no mapping makes the outer
    loop raise [AttributeError], at the call of [items]; the files are as
    they were. *)
Lemma for_dep_types_bad l :
  forall d,
    forallb (mapping_or_absent d) l = false ->
    exists out, forall changed w,
      for_dep_types file_path l (JDict d) changed w =
      (Raises AttributeError, World (cwd w) (stdout w ++ out) (dumped w)).
Proof.
  induction l as [|k l IH]; intros d Hbad; [discriminate|].
  simpl in Hbad. unfold mapping_or_absent at 1 in Hbad.
  destruct (dict_get d k) as [v|] eqn:E.
  - assert (Hin : dict_in k d = true) by (apply dict_in_get; eauto).
    assert (Hstep : forall changed w,
      for_dep_types file_path (k :: l) (JDict d) changed w =
      (its <- lift (py_items v) ;;
       '(data', changed') <- for_items file_path k its (JDict d) changed ;;
       for_dep_types file_path l data' changed') w).
    { intros changed w. simpl for_dep_types.
      unfold bind at 1. unfold lift at 1. simpl py_contains. rewrite Hin.
      unfold bind at 1. unfold lift at 1. simpl py_getitem. now rewrite E. }
    destruct v as [| | | | | |deps];
      try (exists []; intros changed w; rewrite Hstep; simpl;
           now rewrite app_nil_r, world_eta).
    simpl in Hbad.
    destruct (IH (scan_field d k)) as [out Hout].
    { rewrite <- Hbad. clear. induction l as [|x l IHl]; simpl; [reflexivity|].
      now rewrite mapping_or_absent_scan_field, IHl. }
    exists (updates file_path deps ++ out). intros changed w.
    rewrite Hstep. unfold bind at 1. unfold lift at 1. simpl py_items.
    unfold bind at 1.
    rewrite (for_items_spec file_path k deps d deps changed w E).
    replace (dict_set d k (JDict (scan_items deps deps)))
      with (scan_field d k) by (unfold scan_field; now rewrite E).
    rewrite Hout. simpl. now rewrite app_assoc.
  - assert (Hin : dict_in k d = false).
    { destruct (dict_in k d) eqn:F; [|reflexivity].
      apply dict_in_get in F as [v F]. congruence. }
    simpl in Hbad. destruct (IH d Hbad) as [out Hout].
    exists out. intros changed w. simpl for_dep_types.
    unfold bind at 1. unfold lift at 1. simpl py_contains. rewrite Hin.
    apply Hout.
Qed.

End OuterLoop.

(** On a value that is no object the outer loop changes nothing: it
    returns with [data] and [changed] as they were, or raises
    [TypeError]. *)
Lemma for_dep_types_other file_path l :
  forall data,
    (forall d, data <> JDict d) ->
    (forall changed w,
       for_dep_types file_path l data changed w = (Returns (data, changed), w))
    \/ (forall changed w,
          for_dep_types file_path l data changed w = (Raises TypeError, w)).
Proof.
  induction l as [|k l IH]; intros data Hnd; [now left|].
  simpl for_dep_types. unfold bind at 1 3. unfold lift at 1 3.
  destruct data as [|b|z|r|s|items|d]; simpl py_contains;
    try (now right).
  - destruct (str_in k s); [now right | now apply IH].
  - destruct (existsb _ items); [now right | now apply IH].
  - now destruct (Hnd d).
Qed.

(* ================================================================== *)
(** ** A scan, item by item *)

Section Normalize.

Lemma ne_str_false v s : ne_str v s = false -> v = JStr s.
Proof.
  destruct v; simpl; try discriminate.
  rewrite negb_false_iff, String.eqb_eq. congruence.
Qed.

Lemma ne_str_true v s : ne_str v s = true <-> v <> JStr s.
Proof.
  destruct v; simpl; try (split; [discriminate | reflexivity]).
  rewrite negb_true_iff, String.eqb_neq. split; congruence.
Qed.

Lemma keys_normalize deps : keys (normalize deps) = keys deps.
Proof.
  unfold keys, normalize. rewrite map_map. apply map_ext.
  intros [k v]. simpl. now destruct (startswith k "@styx/").
Qed.

Lemma normalize_app a b : normalize (a ++ b) = normalize a ++ normalize b.
Proof. apply map_app. Qed.

Lemma dict_set_fresh (pre post : dict) k v x :
  list_in k (keys pre) = false ->
  dict_set (pre ++ (k, v) :: post) k x = pre ++ (k, x) :: post.
Proof.
  induction pre as [|[k' v'] pre IH]; simpl.
  - now rewrite String.eqb_refl.
  - rewrite orb_false_iff. intros [Hk Hpre]. rewrite Hk. now rewrite IH.
Qed.

Lemma unique_app_fresh (pre : list string) k post :
  unique (pre ++ k :: post) = true -> list_in k pre = false.
Proof.
  rewrite unique_NoDup. intros H. apply NoDup_remove_2 in H.
  destruct (list_in k pre) eqn:E; [|reflexivity].
  apply list_in_In in E. exfalso. apply H. apply in_or_app. now left.
Qed.

Lemma scan_items_from pre its :
  unique (keys (pre ++ its)) = true ->
  scan_items its (normalize pre ++ its) = normalize (pre ++ its).
Proof.
  revert pre. induction its as [|[k v] its IH]; intros pre Hu.
  - unfold scan_items. simpl. now rewrite !app_nil_r.
  - rewrite scan_items_cons.
    assert (Hfresh : list_in k (keys (normalize pre)) = false).
    { rewrite keys_normalize. unfold keys in *. rewrite map_app in Hu.
      simpl in Hu. now apply unique_app_fresh in Hu. }
    assert (Hnext : visit (normalize pre ++ (k, v) :: its) (k, v)
                    = normalize (pre ++ [(k, v)]) ++ its).
    { unfold visit, stale. simpl fst. simpl snd.
      rewrite normalize_app, <- app_assoc. simpl.
      destruct (startswith k "@styx/") eqn:Hs; simpl.
      - destruct (ne_str v "workspace:*") eqn:Hv.
        + now apply dict_set_fresh.
        + now rewrite (ne_str_false _ _ Hv).
      - reflexivity. }
    rewrite Hnext, IH; rewrite <- app_assoc; [reflexivity | exact Hu].
Qed.

(** With pairwise different keys, the inner loop gives every internal
    package the workspace pointer and leaves the other items alone. *)
Lemma scan_items_normalize deps :
  unique (keys deps) = true -> scan_items deps deps = normalize deps.
Proof. intros H. exact (scan_items_from [] deps H). Qed.

Lemma normalize_normalized deps : normalized (normalize deps).
Proof.
  intros pkg v Hin Hs. unfold normalize in Hin. apply in_map_iff in Hin.
  destruct Hin as [[k x] [E _]]. simpl in E.
  destruct (startswith k "@styx/") eqn:Hk; inversion E; subst; congruence.
Qed.

Lemma normalized_not_stale deps :
  normalized deps <-> existsb stale deps = false.
Proof.
  split.
  - intros H. destruct (existsb stale deps) eqn:E; [|reflexivity].
    apply existsb_exists in E as [[k v] [Hin Hst]]. unfold stale in Hst.
    simpl in Hst. apply andb_true_iff in Hst as [Hs Hv].
    rewrite (H k v Hin Hs) in Hv. discriminate.
  - intros H pkg v Hin Hs. apply ne_str_false.
    destruct (ne_str v "workspace:*") eqn:Hv; [|reflexivity].
    assert (existsb stale deps = true); [|congruence].
    apply existsb_exists. exists (pkg, v). split; [assumption|].
    unfold stale. simpl. now rewrite Hs, Hv.
Qed.

Lemma normalize_fixed deps : normalized deps -> normalize deps = deps.
Proof.
  intros H. unfold normalize. induction deps as [|[k v] deps IH];
    [reflexivity|].
  cbn [map fst]. rewrite IH by (intros pkg x Hin; apply H; now right).
  destruct (startswith k "@styx/") eqn:Hk; [|reflexivity].
  now rewrite (H k v (or_introl eq_refl) Hk).
Qed.

End Normalize.

(* ================================================================== *)
(** ** The file system: writing a file that is there *)

Section FsFacts.

Lemma os_walk_dir top es :
  os_walk top (Dir es) =
  (top, dirs es, nondirs es)
  :: flat_map (fun e => os_walk (os_path_join top (fst e)) (snd e)) es.
Proof.
  simpl. f_equal. induction es as [|[name child] es IH]; simpl; [reflexivity|].
  now rewrite IH.
Qed.

Lemma find_entry_set_same s c c' es :
  find_entry s es = Some c -> find_entry s (set_entry s c' es) = Some c'.
Proof.
  induction es as [|[n x] es IH]; simpl; [discriminate|].
  destruct (String.eqb s n) eqn:E; simpl; rewrite E; auto.
Qed.

Lemma find_entry_set_other s s' c' es :
  s <> s' -> find_entry s' (set_entry s c' es) = find_entry s' es.
Proof.
  intros Hne. induction es as [|[n x] es IH]; simpl; [reflexivity|].
  destruct (String.eqb_spec s n) as [->|]; simpl.
  - destruct (String.eqb_spec s' n); congruence.
  - now rewrite IH.
Qed.

(** Writing a file that is there succeeds, and the file then holds the
    text written. *)
Lemma write_at_same a x :
  forall t text,
    read_at t a = Some text ->
    exists t', write_at a x t = Some t' /\ read_at t' a = Some x.
Proof.
  unfold read_at.
  induction a as [|s r IH]; intros t text; simpl.
  - destruct t; [|discriminate]. intros _. now exists (File x).
  - destruct t as [|es]; [discriminate|].
    destruct (find_entry s es) as [c|] eqn:E; [|discriminate].
    intros H. destruct (IH c text H) as (c' & Hw & Hr).
    rewrite Hw. eexists. split; [reflexivity|]. simpl.
    now rewrite (find_entry_set_same s c c' es E).
Qed.

(** It leaves the text of every other file as it was. *)
Lemma write_at_other a x :
  forall t t' text b,
    read_at t a = Some text -> write_at a x t = Some t' -> b <> a ->
    read_at t' b = read_at t b.
Proof.
  unfold read_at.
  induction a as [|s r IH]; intros t t' text b; simpl.
  - destruct t; [|discriminate]. intros _ [= <-] Hb.
    destruct b; [congruence | reflexivity].
  - destruct t as [|es]; [discriminate|].
    destruct (find_entry s es) as [c|] eqn:E; [|discriminate].
    intros Hr Hw Hb. destruct (write_at r x c) as [c'|] eqn:Hc; [|discriminate].
    injection Hw as <-. destruct b as [|s' r']; [reflexivity|]. simpl.
    destruct (String.eqb_spec s s') as [<-|Hne].
    + rewrite (find_entry_set_same s c c' es E), E.
      apply (IH c c' text r' Hr Hc). congruence.
    + now rewrite find_entry_set_other.
Qed.

Lemma write_at_is_dir a x :
  forall t t' text,
    read_at t a = Some text -> write_at a x t = Some t' ->
    is_dir t' = is_dir t.
Proof.
  unfold read_at. destruct a as [|s r]; intros t t' text; simpl.
  - destruct t; [|discriminate]. now intros _ [= <-].
  - destruct t as [|es]; [discriminate|].
    destruct (find_entry s es) as [c|]; [|discriminate].
    destruct (write_at r x c); [|discriminate]. now intros _ [= <-].
Qed.

(** It leaves [os.walk] as it was: the same directories, with the same
    names in them. *)
Lemma write_at_walk a x :
  forall t t' text top,
    read_at t a = Some text -> write_at a x t = Some t' ->
    os_walk top t' = os_walk top t.
Proof.
  induction a as [|s r IH]; intros t t' text top Hr Hw.
  - unfold read_at in Hr. simpl in *. destruct t; [|discriminate].
    now injection Hw as <-.
  - unfold read_at in Hr. simpl in Hr, Hw.
    destruct t as [|es]; [discriminate|].
    destruct (find_entry s es) as [c|] eqn:E; [|discriminate].
    destruct (write_at r x c) as [c'|] eqn:Hc; [|discriminate].
    injection Hw as <-.
    assert (Hd : is_dir c' = is_dir c)
      by (apply (write_at_is_dir r x c c' text); [exact Hr | exact Hc]).
    assert (Hwalk : forall top, os_walk top c' = os_walk top c)
      by (intros top'; apply (IH c c' text top'); [exact Hr | exact Hc]).
    rewrite !os_walk_dir. clear Hr Hc IH.
    induction es as [|[n y] es IHes]; simpl in *; [discriminate|].
    destruct (String.eqb_spec s n) as [->|Hne].
    + injection E as ->. unfold dirs, nondirs. simpl.
      rewrite Hd, Hwalk. now destruct (is_dir c).
    + specialize (IHes E). injection IHes as Hdirs Hfiles Hsub.
      unfold dirs, nondirs in *. simpl.
      destruct (is_dir y); simpl; now rewrite Hdirs, Hfiles, Hsub.
Qed.

End FsFacts.

(* ================================================================== *)
(** ** A scan, field by field *)

Section ScanFacts.

Lemma scan_items_unchanged its deps :
  existsb stale its = false -> scan_items its deps = deps.
Proof.
  revert deps. induction its as [|kv its IH]; intros deps H; [reflexivity|].
  simpl in H. apply orb_false_iff in H as [Hkv Hits].
  rewrite scan_items_cons. unfold visit. rewrite Hkv. auto.
Qed.

Lemma scan_items_keys its :
  forall deps,
    (forall kv, In kv its -> dict_in (fst kv) deps = true) ->
    keys (scan_items its deps) = keys deps.
Proof.
  induction its as [|kv its IH]; intros deps Hin; [reflexivity|].
  rewrite scan_items_cons. unfold visit.
  destruct (stale kv).
  - rewrite IH.
    + apply keys_dict_set. apply Hin. now left.
    + intros kv' H'. apply dict_in_get.
      destruct (String.eqb_spec (fst kv) (fst kv')) as [E|Hne].
      * rewrite E, dict_get_set_same. eauto.
      * rewrite dict_get_set_other by assumption.
        apply dict_in_get. apply Hin. now right.
  - apply IH. intros kv' H'. apply Hin. now right.
Qed.

Lemma In_dict_in (d : dict) kv : In kv d -> dict_in (fst kv) d = true.
Proof.
  intros H. unfold dict_in. apply existsb_exists. exists kv.
  split; [assumption | apply String.eqb_refl].
Qed.

(** The inner loop does not touch a package outside the internal scope. *)
Lemma scan_items_get_other its pkg :
  forall deps,
    startswith pkg "@styx/" = false ->
    dict_get (scan_items its deps) pkg = dict_get deps pkg.
Proof.
  induction its as [|[k v] its IH]; intros deps Hp; [reflexivity|].
  rewrite scan_items_cons, IH by assumption. unfold visit, stale. simpl.
  destruct (startswith k "@styx/") eqn:Hk; simpl; [|reflexivity].
  destruct (ne_str v "workspace:*"); [|reflexivity].
  apply dict_get_set_other. congruence.
Qed.

Lemma get_scan_field_same d k :
  dict_get (scan_field d k) k =
  match dict_get d k with
  | Some (JDict deps) => Some (JDict (scan_items deps deps))
  | other => other
  end.
Proof.
  unfold scan_field.
  destruct (dict_get d k) as [[| | | | | |deps]|] eqn:E; try exact E.
  apply dict_get_set_same.
Qed.

Lemma get_scan_field_other d k k' :
  k <> k' -> dict_get (scan_field d k) k' = dict_get d k'.
Proof.
  intros Hne. unfold scan_field.
  destruct (dict_get d k) as [[| | | | | |deps]|] eqn:E; try reflexivity.
  now apply dict_get_set_other.
Qed.

Lemma keys_scan_field d k : keys (scan_field d k) = keys d.
Proof.
  unfold scan_field.
  destruct (dict_get d k) as [[| | | | | |deps]|] eqn:E; try reflexivity.
  apply keys_dict_set. apply dict_in_get. eauto.
Qed.

Lemma keys_scan l : forall d, keys (scan l d) = keys d.
Proof.
  induction l as [|k l IH]; intros d; [reflexivity|].
  unfold scan. simpl. fold (scan l (scan_field d k)).
  now rewrite IH, keys_scan_field.
Qed.

Lemma scan_cons k l d : scan (k :: l) d = scan l (scan_field d k).
Proof. reflexivity. Qed.

(** A field the outer loop does not name is as it was. *)
Lemma scan_get_other l k :
  forall d, ~ In k l -> dict_get (scan l d) k = dict_get d k.
Proof.
  induction l as [|k0 l IH]; intros d Hk; [reflexivity|].
  rewrite scan_cons, IH.
  - apply get_scan_field_other. intros ->. apply Hk. now left.
  - intros H. apply Hk. now right.
Qed.

(** A field it names once holds what the inner loop made of it. *)
Lemma scan_get_in l k :
  forall d, NoDup l -> In k l ->
    dict_get (scan l d) k =
    match dict_get d k with
    | Some (JDict deps) => Some (JDict (scan_items deps deps))
    | other => other
    end.
Proof.
  induction l as [|k0 l IH]; intros d Hnd Hin; [contradiction|].
  inversion Hnd as [|? ? Hk0 Hl]; subst. rewrite scan_cons.
  destruct Hin as [->|Hin].
  - rewrite scan_get_other by assumption. apply get_scan_field_same.
  - rewrite IH by assumption. rewrite get_scan_field_other; [reflexivity|].
    intros ->. contradiction.
Qed.

Lemma field_changed_scan_field d k k' :
  k <> k' -> field_changed (scan_field d k) k' = field_changed d k'.
Proof.
  intros Hne. unfold field_changed. now rewrite get_scan_field_other.
Qed.

Lemma scan_changed_fields l :
  forall d, NoDup l -> scan_changed l d = existsb (field_changed d) l.
Proof.
  induction l as [|k l IH]; intros d Hnd; [reflexivity|].
  inversion Hnd as [|? ? Hk Hl]; subst. simpl. rewrite IH by assumption.
  f_equal. clear - Hk. induction l as [|k' l IHl]; [reflexivity|].
  simpl. rewrite IHl by (intros H; apply Hk; now right).
  rewrite field_changed_scan_field; [reflexivity|].
  intros ->. apply Hk. now left.
Qed.

Lemma scan_field_unchanged d k :
  field_changed d k = false -> scan_field d k = d.
Proof.
  unfold field_changed, scan_field.
  destruct (dict_get d k) as [[| | | | | |deps]|] eqn:E; try reflexivity.
  intros H. rewrite scan_items_unchanged by assumption.
  now apply dict_set_same_value.
Qed.

(** When no item is stale the outer loop changes nothing and prints
    nothing. *)
Lemma scan_unchanged file_path l :
  forall d, scan_changed l d = false ->
    scan l d = d /\ scan_lines file_path l d = [].
Proof.
  induction l as [|k l IH]; intros d H; [now split|].
  simpl in H. apply orb_false_iff in H as [Hk Hl].
  rewrite scan_cons. cbn [scan_lines].
  rewrite (scan_field_unchanged d k Hk) in *.
  destruct (IH d Hl) as [-> ->]. split; [reflexivity|].
  unfold stale_items, field_changed in *.
  destruct (dict_get d k) as [[| | | | | |deps]|]; try reflexivity.
  rewrite app_nil_r. unfold updates. rewrite filter_stale_idem.
  clear - Hk. induction deps as [|kv deps IH]; [reflexivity|].
  simpl in *. apply orb_false_iff in Hk as [Hkv Hd]. rewrite Hkv. auto.
Qed.

Lemma dep_types_NoDup : NoDup dep_types.
Proof. apply unique_NoDup. reflexivity. Qed.

(** A stale item, spelled out. *)
Lemma field_changed_iff d k :
  field_changed d k = true <->
  exists deps pkg v,
    dict_get d k = Some (JDict deps) /\ In (pkg, v) deps
    /\ startswith pkg "@styx/" = true /\ v <> JStr "workspace:*".
Proof.
  unfold field_changed. split.
  - destruct (dict_get d k) as [[| | | | | |deps]|]; try discriminate.
    intros H. apply existsb_exists in H as [[pkg v] [Hin Hst]].
    unfold stale in Hst. simpl in Hst. apply andb_true_iff in Hst as [Hs Hv].
    exists deps, pkg, v. rewrite <- ne_str_true. auto.
  - intros (deps & pkg & v & -> & Hin & Hs & Hv).
    apply existsb_exists. exists (pkg, v). split; [assumption|].
    unfold stale. simpl. rewrite Hs. now apply ne_str_true.
Qed.

End ScanFacts.

(* ================================================================== *)
(** ** One manifest *)

Section OneManifest.

Variable json_load : string -> loaded.

(** Opening for writing a file that was read succeeds. *)
Lemma open_dump_there file_path data w text :
  read_path (cwd w) file_path = Some text ->
  exists t',
    write_path (cwd w) file_path (dump_text data) = Some t'
    /\ read_path t' file_path = Some (dump_text data)
    /\ open_dump file_path data w =
       (Returns tt, World t' (stdout w) (dumped w ++ [(file_path, data)])).
Proof.
  intros Hr. unfold read_path in Hr.
  destruct (write_at_same (resolve file_path) (dump_text data) (cwd w) text Hr)
    as (t' & Hw & Hr').
  exists t'. unfold open_dump, write_path, read_path. rewrite Hw. auto.
Qed.

Lemma fix_missing file_path w :
  read_path (cwd w) file_path = None ->
  fix_dependencies json_load file_path w = (Raises OSError, w).
Proof.
  intros Hr. unfold fix_dependencies, bind, open_read. now rewrite Hr.
Qed.

Lemma fix_undecodable file_path w text :
  read_path (cwd w) file_path = Some text ->
  json_load text = JSONDecodeError ->
  fix_dependencies json_load file_path w =
  (Returns tt,
   World (cwd w) (stdout w ++ [Error_decoding file_path]) (dumped w)).
Proof.
  intros Hr Hl. unfold fix_dependencies, bind, open_read.
  now rewrite Hr, Hl.
Qed.

Lemma fix_uncaught file_path w text e :
  read_path (cwd w) file_path = Some text ->
  json_load text = Uncaught e ->
  fix_dependencies json_load file_path w = (Raises e, w).
Proof.
  intros Hr Hl. unfold fix_dependencies, bind, open_read.
  now rewrite Hr, Hl.
Qed.

Lemma fix_loaded file_path w text data :
  read_path (cwd w) file_path = Some text ->
  json_load text = Loaded data ->
  fix_dependencies json_load file_path w =
  ('(data', changed) <- for_dep_types file_path dep_types data false ;;
   if (changed : bool) then open_dump file_path data' else ret tt) w.
Proof.
  intros Hr Hl. unfold fix_dependencies. unfold bind at 1.
  unfold open_read. now rewrite Hr, Hl.
Qed.

(** A manifest object whose recognized fields are mappings: the call
    returns, and writes the scanned object when an item was stale. *)
Lemma fix_object file_path w text d :
  read_path (cwd w) file_path = Some text ->
  json_load text = Loaded (JDict d) ->
  forallb (mapping_or_absent d) dep_types = true ->
  fix_dependencies json_load file_path w =
  (if scan_changed dep_types d
   then open_dump file_path (JDict (scan dep_types d))
   else ret tt)
    (World (cwd w) (stdout w ++ scan_lines file_path dep_types d) (dumped w)).
Proof.
  intros Hr Hl Hok. rewrite (fix_loaded file_path w text (JDict d) Hr Hl).
  unfold bind. now rewrite (for_dep_types_ok file_path dep_types d false w Hok).
Qed.

Lemma fix_object_unchanged file_path w text d :
  read_path (cwd w) file_path = Some text ->
  json_load text = Loaded (JDict d) ->
  forallb (mapping_or_absent d) dep_types = true ->
  scan_changed dep_types d = false ->
  fix_dependencies json_load file_path w = (Returns tt, w).
Proof.
  intros Hr Hl Hok Hc. rewrite (fix_object file_path w text d Hr Hl Hok), Hc.
  destruct (scan_unchanged file_path dep_types d Hc) as [_ ->].
  unfold ret. now rewrite app_nil_r, world_eta.
Qed.

Lemma fix_object_changed file_path w text d :
  read_path (cwd w) file_path = Some text ->
  json_load text = Loaded (JDict d) ->
  forallb (mapping_or_absent d) dep_types = true ->
  scan_changed dep_types d = true ->
  exists t',
    write_path (cwd w) file_path (dump_text (JDict (scan dep_types d))) = Some t'
    /\ read_path t' file_path = Some (dump_text (JDict (scan dep_types d)))
    /\ fix_dependencies json_load file_path w =
       (Returns tt,
        World t' (stdout w ++ scan_lines file_path dep_types d)
              (dumped w ++ [(file_path, JDict (scan dep_types d))])).
Proof.
  intros Hr Hl Hok Hc. rewrite (fix_object file_path w text d Hr Hl Hok), Hc.
  destruct (open_dump_there file_path (JDict (scan dep_types d))
              (World (cwd w) (stdout w ++ scan_lines file_path dep_types d)
                     (dumped w)) text Hr)
    as (t' & Hw & Hr' & Hd).
  exists t'. cbn [cwd stdout dumped] in *. auto.
Qed.

Lemma fix_object_bad file_path text d :
  json_load text = Loaded (JDict d) ->
  forallb (mapping_or_absent d) dep_types = false ->
  exists out, forall w,
    read_path (cwd w) file_path = Some text ->
    fix_dependencies json_load file_path w =
    (Raises AttributeError, World (cwd w) (stdout w ++ out) (dumped w)).
Proof.
  intros Hl Hbad.
  destruct (for_dep_types_bad file_path dep_types d Hbad) as [out Hout].
  exists out. intros w Hr.
  rewrite (fix_loaded file_path w text (JDict d) Hr Hl).
  unfold bind. now rewrite Hout.
Qed.

Lemma fix_other file_path text data :
  json_load text = Loaded data ->
  (forall d, data <> JDict d) ->
  exists r, forall w,
    read_path (cwd w) file_path = Some text ->
    fix_dependencies json_load file_path w = (r, w).
Proof.
  intros Hl Hnd.
  destruct (for_dep_types_other file_path dep_types data Hnd) as [H|H].
  - exists (Returns tt). intros w Hr.
    rewrite (fix_loaded file_path w text data Hr Hl). unfold bind.
    now rewrite H.
  - exists (Raises TypeError). intros w Hr.
    rewrite (fix_loaded file_path w text data Hr Hl). unfold bind.
    now rewrite H.
Qed.

(** A call either leaves the files alone, with a result and lines that
    depend on the tree only, or it is the call of [fix_object_changed]. *)
Lemma fix_dependencies_cases t file_path :
  (at_rest json_load t file_path = true
   /\ exists r out, forall w, cwd w = t ->
        fix_dependencies json_load file_path w =
        (r, World t (stdout w ++ out) (dumped w)))
  \/ (exists text d t',
        read_path t file_path = Some text
        /\ json_load text = Loaded (JDict d)
        /\ forallb (mapping_or_absent d) dep_types = true
        /\ scan_changed dep_types d = true
        /\ write_path t file_path (dump_text (JDict (scan dep_types d))) = Some t'
        /\ read_path t' file_path = Some (dump_text (JDict (scan dep_types d)))
        /\ forall w, cwd w = t ->
             fix_dependencies json_load file_path w =
             (Returns tt,
              World t' (stdout w ++ scan_lines file_path dep_types d)
                    (dumped w ++ [(file_path, JDict (scan dep_types d))]))).
Proof.
  unfold at_rest, rests.
  destruct (read_path t file_path) as [text|] eqn:Hr.
  2:{ left. split; [reflexivity|]. exists (Raises OSError), []. intros w <-.
      rewrite (fix_missing file_path w Hr). now rewrite app_nil_r, world_eta. }
  destruct (json_load text) as [data| |e] eqn:Hl.
  2:{ left. split; [reflexivity|].
      exists (Returns tt), [Error_decoding file_path]. intros w <-.
      apply (fix_undecodable file_path w text Hr Hl). }
  2:{ left. split; [reflexivity|]. exists (Raises e), []. intros w <-.
      rewrite (fix_uncaught file_path w text e Hr Hl).
      now rewrite app_nil_r, world_eta. }
  assert (Hd : (exists d, data = JDict d) \/ forall d, data <> JDict d)
    by (destruct data; try (right; discriminate); left; eauto).
  destruct Hd as [[d ->]|Hnd].
  2:{ left. split; [destruct data; try reflexivity; now destruct (Hnd d)|].
      destruct (fix_other file_path text data Hl Hnd) as [r Hfix].
      exists r, []. intros w <-. rewrite (Hfix w Hr).
      now rewrite app_nil_r, world_eta. }
  destruct (forallb (mapping_or_absent d) dep_types) eqn:Hok.
  2:{ left. split; [reflexivity|].
      destruct (fix_object_bad file_path text d Hl Hok) as [out Hfix].
      exists (Raises AttributeError), out. intros w <-. now apply Hfix. }
  destruct (scan_changed dep_types d) eqn:Hc.
  - right. exists text, d.
    destruct (fix_object_changed file_path (World t [] []) text d Hr Hl Hok Hc)
      as (t' & Hw & Hr' & _).
    exists t'. repeat split; try assumption. intros w <-.
    destruct (fix_object_changed file_path w text d Hr Hl Hok Hc)
      as (t'' & Hw' & _ & Hfix).
    cbn [cwd] in Hw. rewrite Hw in Hw'. injection Hw' as <-. exact Hfix.
  - left. split; [reflexivity|]. exists (Returns tt), []. intros w <-.
    rewrite (fix_object_unchanged file_path w text d Hr Hl Hok Hc).
    now rewrite app_nil_r, world_eta.
Qed.

(** A path at rest stays as it is under [fix_dependencies]. *)
Lemma at_rest_settled t file_path :
  at_rest json_load t file_path = true ->
  exists r out, forall w, cwd w = t ->
    fix_dependencies json_load file_path w =
    (r, World t (stdout w ++ out) (dumped w)).
Proof.
  intros H. destruct (fix_dependencies_cases t file_path)
    as [[_ Hq]|(text & d & t' & Hr & Hl & Hok & Hc & _)]; [exact Hq|].
  unfold at_rest, rests in H. rewrite Hr, Hl, Hok, Hc in H. discriminate.
Qed.

End OneManifest.

(* ================================================================== *)
(** ** Properties of [fix_dependencies] *)

Lemma proper_field d k deps :
  proper (JDict d) = true -> dict_get d k = Some (JDict deps) ->
  unique (keys deps) = true.
Proof.
  simpl. rewrite andb_true_iff. intros [_ H] Hget.
  rewrite forallb_forall in H. apply dict_get_In in Hget.
  exact (H _ Hget).
Qed.

Lemma not_changed_normalized d k deps :
  scan_changed dep_types d = false -> In k dep_types ->
  dict_get d k = Some (JDict deps) -> normalized deps.
Proof.
  intros Hc Hk Hget.
  rewrite (scan_changed_fields dep_types d dep_types_NoDup) in Hc.
  apply normalized_not_stale.
  destruct (existsb stale deps) eqn:E; [|reflexivity].
  assert (existsb (field_changed d) dep_types = true); [|congruence].
  apply existsb_exists. exists k. split; [assumption|].
  unfold field_changed. now rewrite Hget.
Qed.

Lemma app_one_neq {A} (l : list A) x : l ++ [x] <> l.
Proof.
  intros H. apply (f_equal (@List.length A)) in H.
  rewrite length_app in H. simpl in H. lia.
Qed.

(** The lines of a scan are those of its stale items. *)
Lemma updates_In file_path its pkg fp version :
  In (Updating pkg fp version) (updates file_path its) <->
  fp = file_path /\ In (pkg, version) its /\ stale (pkg, version) = true.
Proof.
  unfold updates. rewrite in_map_iff. split.
  - intros [[k v] [E H]]. apply filter_In in H as [Hin Hst].
    simpl in E. injection E as -> -> ->. auto.
  - intros (-> & Hin & Hst). exists (pkg, version). split; [reflexivity|].
    now apply filter_In.
Qed.

Lemma stale_items_scan_field d k k' :
  k <> k' -> stale_items (scan_field d k) k' = stale_items d k'.
Proof.
  intros Hne. unfold stale_items. now rewrite get_scan_field_other.
Qed.

Lemma scan_lines_In file_path l :
  forall d line, NoDup l ->
    (In line (scan_lines file_path l d) <->
     exists k, In k l /\ In line (updates file_path (stale_items d k))).
Proof.
  induction l as [|k0 l IH]; intros d line Hnd; simpl.
  - split; [contradiction | intros [k [[] _]]].
  - inversion Hnd as [|? ? Hk0 Hl]; subst.
    rewrite in_app_iff, (IH (scan_field d k0) line Hl). split.
    + intros [H|[k [Hk H]]].
      * exists k0. auto.
      * exists k. split; [now right|].
        rewrite stale_items_scan_field in H; [assumption|].
        intros ->. contradiction.
    + intros [k [[->|Hk] H]]; [now left|]. right. exists k.
      split; [assumption|].
      rewrite stale_items_scan_field; [assumption|].
      intros ->. contradiction.
Qed.

(* ================================================================== *)
(** ** The text [json.dump] writes, line by line *)

Section LayoutFacts.

Lemma append_nil_r (a : string) : (a ++ EmptyString)%string = a.
Proof. induction a as [|c a IH]; simpl; [|rewrite IH]; reflexivity. Qed.

Lemma concat_cons sep l ls :
  ls <> [] ->
  String.concat sep (l :: ls) = (l ++ sep ++ String.concat sep ls)%string.
Proof. destruct ls; [contradiction | reflexivity]. Qed.

Lemma concat_app sep a b :
  a <> [] -> b <> [] ->
  String.concat sep (a ++ b)
  = (String.concat sep a ++ sep ++ String.concat sep b)%string.
Proof.
  intros Ha Hb. induction a as [|l a IH]; [contradiction|].
  destruct a as [|l' a].
  - simpl app. now rewrite concat_cons.
  - change ((l :: l' :: a) ++ b) with (l :: (l' :: a) ++ b).
    rewrite !concat_cons by discriminate. rewrite IH by discriminate.
    now rewrite !append_assoc.
Qed.

(** Lines two spaces further in, joined by [sep]: the lines themselves
    joined by [sep] and two spaces. *)
Lemma concat_indented sep ls :
  ls <> [] ->
  String.concat sep (indented ls)
  = ("  " ++ String.concat (sep ++ "  ") ls)%string.
Proof.
  intros H. induction ls as [|l ls IH]; [contradiction|].
  destruct ls as [|l' ls]; [reflexivity|].
  unfold indented in *. cbn [map] in *.
  rewrite (concat_cons sep) by discriminate.
  rewrite IH by discriminate.
  rewrite (concat_cons (sep ++ "  ") l (l' :: ls)) by discriminate.
  now rewrite !append_assoc.
Qed.

Lemma with_comma_cons l l' ls :
  with_comma (l :: l' :: ls) = l :: with_comma (l' :: ls).
Proof. reflexivity. Qed.

Lemma with_comma_nonempty ls : ls <> [] -> with_comma ls <> [].
Proof. destruct ls as [|l [|l' ls]]; [contradiction| |]; discriminate. Qed.

Lemma concat_with_comma sep ls :
  ls <> [] ->
  String.concat sep (with_comma ls) = (String.concat sep ls ++ ",")%string.
Proof.
  intros H. induction ls as [|l ls IH]; [contradiction|].
  destruct ls as [|l' ls]; [reflexivity|].
  rewrite with_comma_cons.
  rewrite (concat_cons sep l (with_comma (l' :: ls)))
    by (apply with_comma_nonempty; discriminate).
  rewrite IH by discriminate.
  rewrite (concat_cons sep l (l' :: ls)) by discriminate.
  now rewrite !append_assoc.
Qed.

Lemma concat_member sep k ls :
  ls <> [] ->
  String.concat sep (member_lines k ls)
  = (encode_str k ++ ": " ++ String.concat sep ls)%string.
Proof.
  destruct ls as [|l ls]; [contradiction|]. intros _. unfold member_lines.
  destruct ls as [|l' ls]; [reflexivity|].
  rewrite (concat_cons sep _ (l' :: ls)) by discriminate.
  rewrite (concat_cons sep l (l' :: ls)) by discriminate.
  now rewrite !append_assoc.
Qed.

Lemma pretty_nonempty v : pretty v <> [].
Proof. destruct v as [| [|] | | | | [|x l] | [|[k x] d]]; discriminate. Qed.

Lemma member_lines_nonempty k ls : ls <> [] -> member_lines k ls <> [].
Proof. destruct ls; [contradiction | discriminate]. Qed.

Lemma indented_nonempty ls : ls <> [] -> indented ls <> [].
Proof. destruct ls; [contradiction | discriminate]. Qed.

Lemma item_lines_cons ls ls' items :
  item_lines (ls :: ls' :: items)
  = indented (with_comma ls) ++ item_lines (ls' :: items).
Proof. reflexivity. Qed.

Lemma item_lines_nonempty items :
  items <> [] -> Forall (fun ls => ls <> []) items -> item_lines items <> [].
Proof.
  destruct items as [|ls [|ls' items]]; [contradiction| |]; intros _ H;
    inversion H; subst.
  - now apply indented_nonempty.
  - rewrite item_lines_cons. intros E. apply app_eq_nil in E as [E _].
    revert E. now apply indented_nonempty, with_comma_nonempty.
Qed.

(** The lines of the items, joined: the text of each item, with a comma
    and a line break between two of them, as [encode] strings them
    together. *)
Lemma concat_item_lines sep ls items :
  Forall (fun ls => ls <> []) (ls :: items) ->
  String.concat sep (item_lines (ls :: items))
  = ("  " ++ String.concat (sep ++ "  ") ls
     ++ fold_right
          (fun ls' acc => "," ++ (sep ++ "  ")
                          ++ String.concat (sep ++ "  ") ls' ++ acc)
          EmptyString items)%string.
Proof.
  revert ls. induction items as [|ls' items IH]; intros ls H.
  - inversion H; subst. cbn [item_lines fold_right].
    rewrite concat_indented by assumption. now rewrite append_nil_r.
  - inversion H as [|? ? Hls H']; subst.
    rewrite item_lines_cons, concat_app.
    + rewrite concat_indented by now apply with_comma_nonempty.
      rewrite concat_with_comma by assumption.
      rewrite (IH ls' H'). cbn [fold_right].
      now rewrite !append_assoc.
    + now apply indented_nonempty, with_comma_nonempty.
    + apply item_lines_nonempty; [discriminate | assumption].
Qed.

Lemma newline_indent_S level :
  (newline_indent 2 level ++ "  ")%string = newline_indent 2 (S level).
Proof.
  unfold newline_indent. cbn [append]. f_equal.
  replace (2 * S level) with (S (S (2 * level))) by lia.
  induction (2 * level) as [|n IH]; [reflexivity|].
  cbn [spaces append] in *. now rewrite IH.
Qed.

Lemma encode_list level x l :
  encode 2 level (JList (x :: l)) =
  ("[" ++ newline_indent 2 (S level) ++ encode 2 (S level) x
   ++ fold_right
        (fun y acc => "," ++ newline_indent 2 (S level)
                      ++ encode 2 (S level) y ++ acc) EmptyString l
   ++ newline_indent 2 level ++ "]")%string.
Proof. reflexivity. Qed.

Lemma encode_dict level k x d :
  encode 2 level (JDict ((k, x) :: d)) =
  ("{" ++ newline_indent 2 (S level)
   ++ encode_str k ++ ": " ++ encode 2 (S level) x
   ++ fold_right
        (fun kv acc => "," ++ newline_indent 2 (S level)
                       ++ encode_str (fst kv) ++ ": "
                       ++ encode 2 (S level) (snd kv) ++ acc) EmptyString d
   ++ newline_indent 2 level ++ "}")%string.
Proof.
  cbn [encode]. do 6 f_equal.
  induction d as [|[k' y] d IH]; [reflexivity|]. cbn [fold_right fst snd].
  now rewrite IH.
Qed.

Lemma pretty_list x l :
  pretty (JList (x :: l)) = "[" :: item_lines (map pretty (x :: l)) ++ ["]"].
Proof. reflexivity. Qed.

Lemma pretty_dict kv d :
  pretty (JDict (kv :: d)) =
  "{" :: item_lines (map (fun '(k, x) => member_lines k (pretty x)) (kv :: d))
  ++ ["}"].
Proof. reflexivity. Qed.

(** The text of a list or dict, from the lines of its items. *)
Lemma concat_bracketed sep opening closing ls items :
  Forall (fun ls => ls <> []) (ls :: items) ->
  String.concat sep (opening :: item_lines (ls :: items) ++ [closing])
  = (opening ++ (sep ++ "  ") ++ String.concat (sep ++ "  ") ls
     ++ fold_right
          (fun ls' acc => "," ++ (sep ++ "  ")
                          ++ String.concat (sep ++ "  ") ls' ++ acc)
          EmptyString items
     ++ sep ++ closing)%string.
Proof.
  intros H.
  assert (Hne : item_lines (ls :: items) <> [])
    by (apply item_lines_nonempty; [discriminate | assumption]).
  rewrite concat_cons
    by (intros E; apply app_eq_nil in E as [_ E]; discriminate).
  rewrite concat_app by (assumption || discriminate).
  rewrite (concat_item_lines sep ls items H). cbn [String.concat].
  now rewrite !append_assoc.
Qed.

(** The text [json.dump] gives a value at a nesting level is its lines,
    joined by a line break and the indentation of that level. *)
Lemma encode_pretty v :
  forall level,
    encode 2 level v = String.concat (newline_indent 2 level) (pretty v).
Proof.
  induction v as [|b|z|r|s|l IH|d IH] using json_induction; intros level;
    try reflexivity.
  - now destruct b.
  - destruct l as [|x l]; [reflexivity|].
    rewrite encode_list, pretty_list. cbn [map].
    rewrite concat_bracketed
      by (apply Forall_forall; intros ls Hls;
          change (pretty x :: map pretty l) with (map pretty (x :: l)) in Hls;
          apply in_map_iff in Hls as [y [<- _]]; apply pretty_nonempty).
    rewrite newline_indent_S. inversion IH as [|? ? Hx Hl]; subst.
    rewrite <- (Hx (S level)). do 4 f_equal.
    clear - Hl. induction Hl as [|y l Hy Hl IHl]; [reflexivity|].
    cbn [map fold_right]. now rewrite IHl, (Hy (S level)).
  - destruct d as [|[k x] d]; [reflexivity|].
    rewrite encode_dict, pretty_dict. cbn [map].
    rewrite concat_bracketed
      by (apply Forall_forall; intros ls Hls;
          change (member_lines k (pretty x)
                  :: map (fun '(k, x) => member_lines k (pretty x)) d)
            with (map (fun '(k, x) => member_lines k (pretty x)) ((k, x) :: d))
            in Hls;
          apply in_map_iff in Hls as [[k' y] [<- _]];
          apply member_lines_nonempty, pretty_nonempty).
    rewrite newline_indent_S. inversion IH as [|? ? Hx Hd]; subst.
    cbn [snd] in Hx.
    rewrite concat_member by apply pretty_nonempty.
    rewrite <- (Hx (S level)). rewrite !append_assoc. do 7 f_equal.
    clear - Hd. induction Hd as [|[k' y] d Hy Hd IHd]; [reflexivity|].
    cbn [map fold_right fst snd] in *.
    rewrite IHd, concat_member by apply pretty_nonempty.
    now rewrite (Hy (S level)), !append_assoc.
Qed.

Lemma unlines_concat ls :
  ls <> [] ->
  unlines ls = (String.concat (String "010" EmptyString) ls
                ++ String "010" EmptyString)%string.
Proof.
  intros H. induction ls as [|l ls IH]; [contradiction|].
  destruct ls as [|l' ls]; [reflexivity|].
  cbn [unlines] in *. rewrite IH by discriminate.
  rewrite (concat_cons _ l (l' :: ls)) by discriminate.
  now rewrite !append_assoc.
Qed.

(** What the script writes is the layout, a line break after every
    line. *)
Lemma dump_text_pretty v : dump_text v = unlines (pretty v).
Proof.
  unfold dump_text. rewrite unlines_concat by apply pretty_nonempty.
  now rewrite (encode_pretty v 0).
Qed.

Lemma with_comma_In l ls :
  In l ls -> In l (with_comma ls) \/ In (l ++ ",")%string (with_comma ls).
Proof.
  induction ls as [|l0 ls IH]; [contradiction|].
  destruct ls as [|l1 ls].
  - intros [->|[]]. right. now left.
  - rewrite with_comma_cons. intros [->|H]; [left; now left|].
    destruct (IH H) as [H'|H']; [left | right]; now right.
Qed.

(** Every line of an item stands among the lines of the items, two spaces
    further in, with a comma after it when it ends an item that is not the
    last. *)
Lemma item_lines_In items ls l :
  In ls items -> In l ls ->
  exists c, In ("  " ++ l ++ c)%string (item_lines items).
Proof.
  intros Hls Hl. induction items as [|ls0 items IH]; [contradiction|].
  destruct items as [|ls1 items].
  - destruct Hls as [->|[]]. exists EmptyString. rewrite append_nil_r.
    cbn [item_lines]. unfold indented. now apply in_map.
  - rewrite item_lines_cons. destruct Hls as [->|Hls].
    + destruct (with_comma_In l ls Hl) as [H|H].
      * exists EmptyString. rewrite append_nil_r. apply in_or_app. left.
        unfold indented. now apply in_map.
      * exists ",". apply in_or_app. left. unfold indented.
        now apply (in_map (append "  ")) in H.
    + destruct (IH Hls) as [c H]. exists c. apply in_or_app. now right.
Qed.

Lemma item_lines_indented items :
  Forall (fun l => startswith l "  " = true) (item_lines items).
Proof.
  assert (H : forall ls,
            Forall (fun l => startswith l "  " = true) (indented ls)).
  { intros ls. apply Forall_forall. intros l Hl. unfold indented in Hl.
    apply in_map_iff in Hl as [l' [<- _]]. reflexivity. }
  induction items as [|ls0 items IH]; [constructor|].
  destruct items as [|ls1 items]; [apply H|].
  rewrite item_lines_cons. apply Forall_app. split; [apply H | exact IH].
Qed.

(** An object with fields: its first line is the opening brace, its last
    the closing one, and the lines between start with two spaces. *)
Lemma pretty_object kv d :
  exists middle,
    pretty (JDict (kv :: d)) = "{" :: middle ++ ["}"]
    /\ Forall (fun l => startswith l "  " = true) middle.
Proof. eexists. split; [apply pretty_dict | apply item_lines_indented]. Qed.

(** A line of a value of an object, other than the first, stands in the
    text of the object two spaces further in. *)
Lemma pretty_inner d k v l0 rest l :
  In (k, v) d -> pretty v = l0 :: rest -> In l rest ->
  exists c, In ("  " ++ l ++ c)%string (pretty (JDict d)).
Proof.
  intros Hin Hv Hl. destruct d as [|kv d]; [contradiction|].
  rewrite pretty_dict.
  destruct (item_lines_In
              (map (fun '(k, x) => member_lines k (pretty x)) (kv :: d))
              (member_lines k (pretty v)) l) as [c Hc].
  - apply in_map_iff. exists (k, v). now split.
  - rewrite Hv. right. exact Hl.
  - exists c. right. apply in_or_app. now left.
Qed.

(** Every field of an object has a line: two spaces, the key, [: ] and
    the first line of the value. *)
Lemma pretty_field d k v :
  In (k, v) d ->
  exists l rest tail,
    pretty v = l :: rest
    /\ In ("  " ++ encode_str k ++ ": " ++ l ++ tail)%string (pretty (JDict d)).
Proof.
  intros Hin. destruct (pretty v) as [|l rest] eqn:Hv;
    [now destruct (pretty_nonempty v)|].
  destruct d as [|kv d]; [contradiction|].
  destruct (item_lines_In
              (map (fun '(k, x) => member_lines k (pretty x)) (kv :: d))
              (member_lines k (pretty v))
              (encode_str k ++ ": " ++ l)%string) as [c Hc].
  - apply in_map_iff. exists (k, v). now split.
  - rewrite Hv. now left.
  - exists l, rest, c. split; [reflexivity|]. rewrite pretty_dict.
    right. apply in_or_app. left. now rewrite !append_assoc in Hc.
Qed.

(** Every package of a mapping that is a field of an object has a line:
    four spaces, the name, [: ] and the first line of the version. *)
Lemma pretty_package d k deps pkg version :
  In (k, JDict deps) d -> In (pkg, version) deps ->
  exists l rest tail,
    pretty version = l :: rest
    /\ In ("    " ++ encode_str pkg ++ ": " ++ l ++ tail)%string
          (pretty (JDict d)).
Proof.
  intros Hk Hp.
  destruct (pretty_field deps pkg version Hp) as (l & rest & c1 & Hv & Hl).
  destruct deps as [|kv deps]; [contradiction|].
  rewrite pretty_dict in Hl. destruct Hl as [E|Hl]; [discriminate|].
  destruct (pretty_inner d k (JDict (kv :: deps)) _ _ _ Hk
              (pretty_dict kv deps) Hl) as [c2 Hc].
  exists l, rest, (c1 ++ c2)%string. split; [exact Hv|].
  rewrite !append_assoc in Hc. exact Hc.
Qed.

Lemma unlines_app a b : unlines (a ++ b) = (unlines a ++ unlines b)%string.
Proof.
  induction a as [|l a IH]; [reflexivity|].
  cbn [app unlines]. rewrite IH, append_assoc. reflexivity.
Qed.

(** The text of lines ends with a line break. *)
Lemma unlines_ends ls :
  ls <> [] -> exists body, unlines ls = (body ++ newline)%string.
Proof.
  induction ls as [|l ls IH]; [contradiction|]. intros _.
  destruct ls as [|l' ls].
  - exists l. reflexivity.
  - destruct IH as [body E]; [discriminate|].
    exists (l ++ newline ++ body)%string.
    change (unlines (l :: l' :: ls))
      with (l ++ newline ++ unlines (l' :: ls))%string.
    now rewrite E, !append_assoc.
Qed.

(** A line after the first stands in the text between two line breaks. *)
Lemma unlines_line first ls l :
  In l ls ->
  exists before after,
    unlines (first :: ls)
    = (before ++ newline ++ l ++ newline ++ after)%string.
Proof.
  intros H. apply in_split in H as (a & b & ->).
  change (first :: a ++ l :: b) with ((first :: a) ++ l :: b).
  rewrite unlines_app.
  destruct (unlines_ends (first :: a)) as [body E]; [discriminate|].
  exists body, (unlines b). rewrite E. cbn [unlines].
  now rewrite !append_assoc.
Qed.

(** In the text of an object every field starts a line: a line break,
    two spaces, the key, [: ] and the first line of the value. *)
Lemma text_field d k v :
  In (k, v) d ->
  exists l rest before after,
    pretty v = l :: rest
    /\ unlines (pretty (JDict d))
       = (before ++ newline ++ "  " ++ encode_str k ++ ": "
          ++ l ++ after)%string.
Proof.
  intros Hin. destruct (pretty_field d k v Hin) as (l & rest & tail & Hv & Hl).
  destruct d as [|kv d]; [contradiction|]. rewrite pretty_dict in *.
  destruct Hl as [E|Hl]; [discriminate|].
  destruct (unlines_line "{" _ _ Hl) as (before & after & E).
  exists l, rest, before, (tail ++ newline ++ after)%string.
  split; [exact Hv|]. rewrite E. now rewrite !append_assoc.
Qed.

(** And so does every package of a field that is a mapping, after four
    spaces. *)
Lemma text_package d k deps pkg version :
  In (k, JDict deps) d -> In (pkg, version) deps ->
  exists l rest before after,
    pretty version = l :: rest
    /\ unlines (pretty (JDict d))
       = (before ++ newline ++ "    " ++ encode_str pkg ++ ": "
          ++ l ++ after)%string.
Proof.
  intros Hk Hp.
  destruct (pretty_package d k deps pkg version Hk Hp)
    as (l & rest & tail & Hv & Hl).
  destruct d as [|kv d]; [contradiction|]. rewrite pretty_dict in *.
  destruct Hl as [E|Hl]; [discriminate|].
  destruct (unlines_line "{" _ _ Hl) as (before & after & E).
  exists l, rest, before, (tail ++ newline ++ after)%string.
  split; [exact Hv|]. rewrite E. now rewrite !append_assoc.
Qed.

(** The text of an object with fields: the opening brace on the first
    line, the first key two spaces in on the second, the closing brace on
    the last, and one line break after it. *)
Lemma text_object kv d :
  (exists rest,
     unlines (pretty (JDict (kv :: d)))
     = ("{" ++ newline ++ "  " ++ String "034" rest)%string)
  /\ exists body,
       unlines (pretty (JDict (kv :: d)))
       = (body ++ newline ++ "}" ++ newline)%string.
Proof.
  split.
  - destruct kv as [k x]. rewrite pretty_dict. cbn [map].
    destruct (pretty x) as [|l rest] eqn:Hx;
      [now destruct (pretty_nonempty x)|].
    destruct d as [|kv d].
    + cbn [map item_lines member_lines indented unlines app].
      eexists. reflexivity.
    + cbn [map]. rewrite item_lines_cons. cbn [member_lines].
      destruct rest as [|l' rest]; cbn; eexists; reflexivity.
  - rewrite pretty_dict.
    change ("{" :: ?a ++ ["}"]) with (("{" :: a) ++ ["}"]).
    rewrite unlines_app.
    destruct (unlines_ends ("{" :: item_lines
                (map (fun '(k, x) => member_lines k (pretty x)) (kv :: d))))
      as [body E]; [discriminate|].
    exists body. rewrite E. now rewrite !append_assoc.
Qed.

End LayoutFacts.

(* ================================================================== *)
(** ** What [fix_dependencies] does to a manifest *)

Section Claims.

Variable json_load : string -> loaded.

(** A call that returns on a manifest object found every recognized field
    absent or a mapping. *)
Lemma returns_mappings file_path w text d w' :
  read_path (cwd w) file_path = Some text ->
  json_load text = Loaded (JDict d) ->
  fix_dependencies json_load file_path w = (Returns tt, w') ->
  forallb (mapping_or_absent d) dep_types = true.
Proof.
  intros Hr Hl Hfix.
  destruct (forallb (mapping_or_absent d) dep_types) eqn:Hok; [reflexivity|].
  destruct (fix_object_bad json_load file_path text d Hl Hok) as [out Hbad].
  rewrite (Hbad w Hr) in Hfix. discriminate.
Qed.

(** What the scan makes of a manifest object whose keys are pairwise
    different and whose recognized fields are mappings: the fields are the
    same, in the same order; a field other than the three recognized ones
    has the value it had; a recognized field is absent as before, or holds
    the mapping it held with the version of every [@styx/] package
    replaced. *)
Lemma scan_fields d :
  proper (JDict d) = true ->
  forallb (mapping_or_absent d) dep_types = true ->
  keys (scan dep_types d) = keys d
  /\ (forall k, ~ In k dep_types ->
                dict_get (scan dep_types d) k = dict_get d k)
  /\ (forall k, In k dep_types ->
        dict_get d k = None /\ dict_get (scan dep_types d) k = None
        \/ exists deps,
             dict_get d k = Some (JDict deps)
             /\ dict_get (scan dep_types d) k = Some (JDict (normalize deps))).
Proof.
  intros Hp Hok. split; [apply keys_scan|].
  split; [intros k Hk; now apply scan_get_other|].
  intros k Hk. rewrite (scan_get_in dep_types k d dep_types_NoDup Hk).
  rewrite forallb_forall in Hok. specialize (Hok k Hk).
  unfold mapping_or_absent in Hok.
  destruct (dict_get d k) as [[| | | | | |deps]|] eqn:E; try discriminate.
  - right. exists deps. split; [reflexivity|].
    now rewrite (scan_items_normalize deps (proper_field d k deps Hp E)).
  - now left.
Qed.

(** C1. When [fix_dependencies] returns on a manifest that loads as an
    object [d], there is an object [d'] that the manifest holds at the end:
    either nothing was written and [d'] is [d], or the file holds the text
    [json.dump] gives [d'].  [d'] has the fields of [d], in the same order; a
    field other than the three recognized ones has the value it had; a
    recognized field is absent as before, or holds the mapping it held in
    [d] with [workspace:*] as the version of every package whose name starts
    with [@styx/], the other packages as they were.  So in [d'] every
    package of [dependencies], [devDependencies] and [peerDependencies] whose
    name starts with [@styx/] has the version [workspace:*]. *)
Theorem fix_dependencies_normalizes file_path w text d w' :
  read_path (cwd w) file_path = Some text ->
  json_load text = Loaded (JDict d) ->
  proper (JDict d) = true ->
  fix_dependencies json_load file_path w = (Returns tt, w') ->
  exists d',
    (w' = w /\ d' = d
     \/ read_path (cwd w') file_path = Some (dump_text (JDict d'))
        /\ dumped w' = dumped w ++ [(file_path, JDict d')])
    /\ keys d' = keys d
    /\ (forall k, ~ In k dep_types -> dict_get d' k = dict_get d k)
    /\ (forall dep_type,
          In dep_type dep_types ->
          dict_get d dep_type = None /\ dict_get d' dep_type = None
          \/ exists deps,
               dict_get d dep_type = Some (JDict deps)
               /\ dict_get d' dep_type =
                  Some (JDict
                          (map (fun kv =>
                                  if startswith (fst kv) "@styx/"
                                  then (fst kv, JStr "workspace:*")
                                  else kv) deps)))
    /\ forall dep_type deps pkg version,
         In dep_type dep_types ->
         dict_get d' dep_type = Some (JDict deps) ->
         In (pkg, version) deps ->
         startswith pkg "@styx/" = true ->
         version = JStr "workspace:*".
Proof.
  intros Hr Hl Hp Hfix.
  assert (Hok := returns_mappings file_path w text d w' Hr Hl Hfix).
  destruct (scan_fields d Hp Hok) as (Hkeys & Hother & Hfields).
  exists (scan dep_types d). split; [|split; [|split; [|split]]].
  - destruct (scan_changed dep_types d) eqn:Hc.
    + destruct (fix_object_changed json_load file_path w text d Hr Hl Hok Hc)
        as (t' & _ & Hr' & Hfix').
      rewrite Hfix' in Hfix. injection Hfix as <-. right. now split.
    + rewrite (fix_object_unchanged json_load file_path w text d Hr Hl Hok Hc)
        in Hfix.
      injection Hfix as <-. left. split; [reflexivity|].
      exact (proj1 (scan_unchanged file_path dep_types d Hc)).
  - exact Hkeys.
  - exact Hother.
  - exact Hfields.
  - intros k deps pkg version Hk Hget.
    destruct (Hfields k Hk) as [[_ E]|(deps0 & _ & E)];
      rewrite E in Hget; [discriminate|].
    injection Hget as <-. apply normalize_normalized.
Qed.

(** C2. When [json.load] fails on a manifest, it is in one of two ways.
    With [json.JSONDecodeError]: [fix_dependencies] prints the error line
    with the path of the file, writes nothing and returns, and the loop of
    [main] goes on with the manifests that follow, on the same files.  With
    another exception: nothing is printed or written, the exception leaves
    [fix_dependencies], and the loop of [main] ends there with it, the
    manifests that follow left unvisited. *)
Theorem fix_dependencies_decode_error file_path w text rest :
  read_path (cwd w) file_path = Some text ->
  (forall data, json_load text <> Loaded data) ->
  (json_load text = JSONDecodeError
   /\ fix_dependencies json_load file_path w =
      (Returns tt,
       World (cwd w) (stdout w ++ [Error_decoding file_path]) (dumped w))
   /\ for_files json_load (file_path :: rest) w =
      for_files json_load rest
        (World (cwd w) (stdout w ++ [Error_decoding file_path]) (dumped w)))
  \/ (exists e,
        json_load text = Uncaught e
        /\ fix_dependencies json_load file_path w = (Raises e, w)
        /\ for_files json_load (file_path :: rest) w = (Raises e, w)).
Proof.
  intros Hr Hfail. destruct (json_load text) as [data| |e] eqn:Hl.
  - now destruct (Hfail data).
  - left. assert (Hfix := fix_undecodable json_load file_path w text Hr Hl).
    repeat split; [exact Hfix|].
    simpl for_files. unfold bind. now rewrite Hfix.
  - right. exists e.
    assert (Hfix := fix_uncaught json_load file_path w text e Hr Hl).
    repeat split; [exact Hfix|].
    simpl for_files. unfold bind. now rewrite Hfix.
Qed.

(** C10. When a recognized field of a manifest object is present and is no
    mapping, [fix_dependencies] raises [AttributeError]; nothing is written,
    and the loop of [main] ends there with that exception, the manifests
    that follow left unvisited. *)
Theorem fix_dependencies_shape_error file_path w text d dep_type v rest :
  read_path (cwd w) file_path = Some text ->
  json_load text = Loaded (JDict d) ->
  In dep_type dep_types ->
  dict_get d dep_type = Some v ->
  (forall deps, v <> JDict deps) ->
  exists w',
    fix_dependencies json_load file_path w = (Raises AttributeError, w')
    /\ cwd w' = cwd w /\ dumped w' = dumped w
    /\ for_files json_load (file_path :: rest) w = (Raises AttributeError, w').
Proof.
  intros Hr Hl Hk Hget Hv.
  assert (Hbad : forallb (mapping_or_absent d) dep_types = false).
  { destruct (forallb (mapping_or_absent d) dep_types) eqn:Hok; [|reflexivity].
    rewrite forallb_forall in Hok. specialize (Hok dep_type Hk).
    unfold mapping_or_absent in Hok. rewrite Hget in Hok.
    destruct v; try discriminate. now destruct (Hv d0). }
  destruct (fix_object_bad json_load file_path text d Hl Hbad) as [out Hfix].
  specialize (Hfix w Hr). eexists. split; [exact Hfix|].
  repeat split. simpl for_files. unfold bind. now rewrite Hfix.
Qed.

(** A call that opened the manifest for writing. *)
Lemma fix_rewrites file_path w text d r w' :
  read_path (cwd w) file_path = Some text ->
  json_load text = Loaded (JDict d) ->
  fix_dependencies json_load file_path w = (r, w') ->
  dumped w' <> dumped w ->
  forallb (mapping_or_absent d) dep_types = true
  /\ scan_changed dep_types d = true
  /\ r = Returns tt
  /\ stdout w' = stdout w ++ scan_lines file_path dep_types d
  /\ dumped w' = dumped w ++ [(file_path, JDict (scan dep_types d))]
  /\ read_path (cwd w') file_path = Some (dump_text (JDict (scan dep_types d))).
Proof.
  intros Hr Hl Hfix Hd.
  destruct (forallb (mapping_or_absent d) dep_types) eqn:Hok.
  2:{ destruct (fix_object_bad json_load file_path text d Hl Hok) as [out Hbad].
      rewrite (Hbad w Hr) in Hfix. injection Hfix as <- <-. now destruct Hd. }
  destruct (scan_changed dep_types d) eqn:Hc.
  2:{ rewrite (fix_object_unchanged json_load file_path w text d Hr Hl Hok Hc)
        in Hfix.
      injection Hfix as <- <-. now destruct Hd. }
  destruct (fix_object_changed json_load file_path w text d Hr Hl Hok Hc)
    as (t' & _ & Hr' & Hfix').
  rewrite Hfix' in Hfix. injection Hfix as <- <-. simpl.
  repeat split. exact Hr'.
Qed.

(** C4. When [fix_dependencies] rewrites a manifest that loaded as the
    object [d], the object [d'] it writes has the fields of [d] in the same
    order; a field other than the three recognized ones has the value it
    had; a recognized mapping has the packages it had, in the same order,
    and a package whose name does not start with [@styx/] has the version
    it had. *)
Theorem fix_dependencies_frame file_path w text d r w' :
  read_path (cwd w) file_path = Some text ->
  json_load text = Loaded (JDict d) ->
  fix_dependencies json_load file_path w = (r, w') ->
  dumped w' <> dumped w ->
  exists d',
    read_path (cwd w') file_path = Some (dump_text (JDict d'))
    /\ keys d' = keys d
    /\ (forall k, ~ In k dep_types -> dict_get d' k = dict_get d k)
    /\ (forall k deps,
          In k dep_types -> dict_get d k = Some (JDict deps) ->
          exists deps',
            dict_get d' k = Some (JDict deps')
            /\ keys deps' = keys deps
            /\ forall pkg, startswith pkg "@styx/" = false ->
                           dict_get deps' pkg = dict_get deps pkg).
Proof.
  intros Hr Hl Hfix Hd.
  destruct (fix_rewrites file_path w text d r w' Hr Hl Hfix Hd)
    as (_ & _ & _ & _ & _ & Hr').
  exists (scan dep_types d). repeat split.
  - exact Hr'.
  - apply keys_scan.
  - intros k Hk. now apply scan_get_other.
  - intros k deps Hk Hget. exists (scan_items deps deps).
    rewrite (scan_get_in dep_types k d dep_types_NoDup Hk), Hget.
    repeat split.
    + apply scan_items_keys. intros kv Hin. now apply In_dict_in.
    + intros pkg Hp. now apply scan_items_get_other.
Qed.

(** C5. On a manifest that loads as an object [d] whose recognized fields
    are mappings, [fix_dependencies] returns, and it writes the file exactly
    when some package of a recognized mapping of [d] starts with [@styx/] and
    has a version other than [workspace:*].  With such a package the tree
    after the call is the one before it with the file written, and the file
    holds the text [json.dump] gives an object with the fields of [d];
    without one the whole state is as before the call: no file written, no
    line printed.  Lines are printed exactly when the file is written, and
    every line is for a package whose version was not [workspace:*]. *)
Theorem fix_dependencies_writes_iff_changed file_path w text d :
  read_path (cwd w) file_path = Some text ->
  json_load text = Loaded (JDict d) ->
  forallb (mapping_or_absent d) dep_types = true ->
  let stale_entry :=
    exists dep_type deps pkg version,
      In dep_type dep_types /\ dict_get d dep_type = Some (JDict deps)
      /\ In (pkg, version) deps /\ startswith pkg "@styx/" = true
      /\ version <> JStr "workspace:*" in
  exists w',
    fix_dependencies json_load file_path w = (Returns tt, w')
    /\ (stale_entry ->
        exists d',
          keys d' = keys d
          /\ (forall k, ~ In k dep_types -> dict_get d' k = dict_get d k)
          /\ dumped w' = dumped w ++ [(file_path, JDict d')]
          /\ write_path (cwd w) file_path (dump_text (JDict d'))
             = Some (cwd w')
          /\ read_path (cwd w') file_path = Some (dump_text (JDict d')))
    /\ (~ stale_entry -> w' = w)
    /\ (dumped w' <> dumped w <-> stale_entry)
    /\ exists out,
         stdout w' = stdout w ++ out
         /\ (out <> [] <-> stale_entry)
         /\ forall pkg fp version,
              In (Updating pkg fp version) out ->
              version <> JStr "workspace:*".
Proof.
  intros Hr Hl Hok stale_entry.
  assert (Hiff : scan_changed dep_types d = true <-> stale_entry).
  { rewrite (scan_changed_fields dep_types d dep_types_NoDup), existsb_exists.
    split.
    - intros [k [Hk Hc]]. apply field_changed_iff in Hc.
      destruct Hc as (deps & pkg & v & H). exists k, deps, pkg, v. tauto.
    - intros (k & deps & pkg & v & Hk & H). exists k. split; [assumption|].
      apply field_changed_iff. exists deps, pkg, v. exact H. }
  assert (Hlines : forall pkg fp version,
            In (Updating pkg fp version) (scan_lines file_path dep_types d) ->
            version <> JStr "workspace:*").
  { intros pkg fp version Hin.
    apply (scan_lines_In file_path dep_types d _ dep_types_NoDup) in Hin.
    destruct Hin as [k [_ Hin]]. apply updates_In in Hin as (_ & _ & Hst).
    unfold stale in Hst. simpl in Hst. apply andb_true_iff in Hst as [_ Hv].
    now apply ne_str_true. }
  destruct (scan_changed dep_types d) eqn:Hc.
  - destruct (fix_object_changed json_load file_path w text d Hr Hl Hok Hc)
      as (t' & Hw & Hr' & Hfix).
    assert (Hst : stale_entry) by now apply Hiff.
    eexists. split; [exact Hfix|]. cbn [stdout dumped cwd].
    split; [|split; [|split]].
    + intros _. exists (scan dep_types d).
      split; [apply keys_scan|].
      split; [intros k Hk; now apply scan_get_other|]. now repeat split.
    + intros Hn. now destruct Hn.
    + split; [intros _; exact Hst | intros _; apply app_one_neq].
    + exists (scan_lines file_path dep_types d).
      split; [reflexivity|]. split; [|exact Hlines].
      split; [intros _; exact Hst|]. intros _ E.
      destruct Hst as (k & deps & pkg & v & Hk & Hget & Hin & Hs & Hv).
      assert (Hline : In (Updating pkg file_path v)
                         (scan_lines file_path dep_types d)).
      { apply (scan_lines_In file_path dep_types d _ dep_types_NoDup).
        exists k. split; [assumption|]. unfold stale_items. rewrite Hget.
        rewrite updates_filter. apply updates_In.
        repeat split; [assumption|]. unfold stale. simpl. rewrite Hs.
        now apply ne_str_true. }
      rewrite E in Hline. contradiction.
  - exists w. split;
      [exact (fix_object_unchanged json_load file_path w text d Hr Hl Hok Hc)|].
    assert (Hno : ~ stale_entry)
      by (intros H; apply Hiff in H; discriminate).
    split; [|split; [|split]].
    + intros H. now destruct Hno.
    + reflexivity.
    + split; [intros H; now destruct H | intros H; now destruct Hno].
    + exists []. split; [now rewrite app_nil_r|]. split; [|contradiction].
      split; [intros H; now destruct H | intros H; now destruct Hno].
Qed.

(** C8. When [fix_dependencies] opens a manifest for writing, what it
    serializes is the object it loaded, with all its fields in their order,
    and the file at the same path then holds the text of [json.dump] with
    [indent=2] followed by one line break.  That text is, line by line,
    the layout [pretty]: it starts with the opening brace on a line of its
    own and the first key two spaces in on the next; it ends with the
    closing brace on a line of its own and one line break; the lines
    between the braces start with two spaces; for every field there is a
    line that starts with two spaces, the key, [: ] and the first line of
    the value; and for every package of a field that is a mapping a line
    that starts with four spaces, the name, [: ] and the first line of the
    version. *)
Theorem fix_dependencies_dump file_path w text d r w' :
  read_path (cwd w) file_path = Some text ->
  json_load text = Loaded (JDict d) ->
  fix_dependencies json_load file_path w = (r, w') ->
  dumped w' <> dumped w ->
  exists d' text',
    dumped w' = dumped w ++ [(file_path, JDict d')]
    /\ keys d' = keys d
    /\ (forall k, ~ In k dep_types -> dict_get d' k = dict_get d k)
    /\ read_path (cwd w') file_path = Some text'
    /\ text' = (encode 2 0 (JDict d') ++ newline)%string
    /\ text' = unlines (pretty (JDict d'))
    /\ (exists rest,
          text' = ("{" ++ newline ++ "  " ++ String "034" rest)%string)
    /\ (exists body, text' = (body ++ newline ++ "}" ++ newline)%string)
    /\ (exists middle,
          pretty (JDict d') = "{" :: middle ++ ["}"]
          /\ Forall (fun l => startswith l "  " = true) middle)
    /\ (forall k v,
          In (k, v) d' ->
          exists l rest before after,
            pretty v = l :: rest
            /\ text' = (before ++ newline ++ "  " ++ encode_str k ++ ": "
                        ++ l ++ after)%string)
    /\ (forall k deps pkg version,
          In (k, JDict deps) d' -> In (pkg, version) deps ->
          exists l rest before after,
            pretty version = l :: rest
            /\ text' = (before ++ newline ++ "    " ++ encode_str pkg ++ ": "
                        ++ l ++ after)%string).
Proof.
  intros Hr Hl Hfix Hd.
  destruct (fix_rewrites file_path w text d r w' Hr Hl Hfix Hd)
    as (_ & Hc & _ & _ & Hd' & Hr').
  exists (scan dep_types d), (dump_text (JDict (scan dep_types d))).
  assert (Hk := keys_scan dep_types d).
  destruct (scan dep_types d) as [|kv d'] eqn:E.
  { destruct d; [|discriminate].
    unfold dep_types in Hc. cbn in Hc. discriminate. }
  rewrite dump_text_pretty.
  split; [exact Hd'|]. split; [exact Hk|].
  split; [intros k Hk'; rewrite <- E; now apply scan_get_other|].
  split; [now rewrite <- dump_text_pretty|].
  split; [symmetry; apply dump_text_pretty|].
  split; [reflexivity|].
  split; [apply text_object|]. split; [apply text_object|].
  split; [apply pretty_object|].
  split; [apply text_field | apply text_package].
Qed.

(** C9. In a manifest object whose recognized fields are mappings, a
    package of such a mapping whose name starts with [@styx/] and whose
    version is any value other than the string [workspace:*], a string or
    not, gets that string as its version: the call returns, prints the line
    for the package with the old value, and writes the object with the new
    one, which has the fields of the loaded one and, in that mapping, the
    packages it had. *)
Theorem fix_dependencies_any_value
  file_path w text d dep_type deps pkg version :
  read_path (cwd w) file_path = Some text ->
  json_load text = Loaded (JDict d) ->
  proper (JDict d) = true ->
  forallb (mapping_or_absent d) dep_types = true ->
  In dep_type dep_types ->
  dict_get d dep_type = Some (JDict deps) ->
  In (pkg, version) deps ->
  startswith pkg "@styx/" = true ->
  version <> JStr "workspace:*" ->
  exists w' d' deps',
    fix_dependencies json_load file_path w = (Returns tt, w')
    /\ In (Updating pkg file_path version) (stdout w')
    /\ dumped w' = dumped w ++ [(file_path, JDict d')]
    /\ read_path (cwd w') file_path = Some (dump_text (JDict d'))
    /\ keys d' = keys d
    /\ dict_get d' dep_type = Some (JDict deps')
    /\ keys deps' = keys deps
    /\ dict_get deps' pkg = Some (JStr "workspace:*").
Proof.
  intros Hr Hl Hp Hok Hk Hget Hin Hs Hv.
  assert (Hst : stale (pkg, version) = true).
  { unfold stale. simpl. rewrite Hs. now apply ne_str_true. }
  assert (Hc : scan_changed dep_types d = true).
  { rewrite (scan_changed_fields dep_types d dep_types_NoDup).
    apply existsb_exists. exists dep_type. split; [assumption|].
    apply field_changed_iff. exists deps, pkg, version. auto. }
  destruct (fix_object_changed json_load file_path w text d Hr Hl Hok Hc)
    as (t' & _ & Hr' & Hfix).
  assert (Hu := proper_field d dep_type deps Hp Hget).
  eexists. exists (scan dep_types d), (normalize deps).
  split; [exact Hfix|]. cbn [stdout cwd dumped].
  split; [|split; [|split; [|split; [|split; [|split]]]]].
  - apply in_or_app. right.
    apply (scan_lines_In file_path dep_types d _ dep_types_NoDup).
    exists dep_type. split; [assumption|]. unfold stale_items. rewrite Hget.
    rewrite updates_filter. apply updates_In. auto.
  - reflexivity.
  - exact Hr'.
  - apply keys_scan.
  - rewrite (scan_get_in dep_types dep_type d dep_types_NoDup Hk), Hget.
    now rewrite (scan_items_normalize deps Hu).
  - apply keys_normalize.
  - apply In_dict_get; [now rewrite keys_normalize|].
    unfold normalize. apply in_map_iff. exists (pkg, version).
    simpl. now rewrite Hs.
Qed.

End Claims.

(* ================================================================== *)
(** ** Discovery *)

Section Discovery.

Lemma find_package_files_collected walk :
  forall acc, find_package_files walk acc = acc ++ flat_map collected walk.
Proof.
  induction walk as [|[[root ds] files] walk IH]; intros acc; simpl.
  - now rewrite app_nil_r.
  - destruct (str_in "node_modules" root); [apply IH|].
    destruct (list_in "package.json" files); [|apply IH].
    rewrite IH, <- app_assoc. reflexivity.
Qed.

(** The triples of [os.walk] are those of the directories of the tree. *)
Lemma os_walk_dirs t :
  forall top root ds files,
    In (root, ds, files) (os_walk top t) ->
    exists segs es,
      dir_at t segs es /\ root = fold_left os_path_join segs top
      /\ ds = dirs es /\ files = nondirs es.
Proof.
  induction t as [text|es IH] using node_induction;
    intros top root ds files Hin; [contradiction|].
  rewrite os_walk_dir in Hin. destruct Hin as [E|Hin].
  - injection E as <- <- <-. exists [], es. repeat split. constructor.
  - apply in_flat_map in Hin as [[name child] [He Hin]]. simpl in Hin.
    rewrite Forall_forall in IH.
    destruct (IH _ He _ _ _ _ Hin) as (segs & es' & Hd & -> & -> & ->).
    exists (name :: segs), es'. repeat split.
    now apply dir_below with child.
Qed.

Lemma dirs_os_walk t segs es :
  dir_at t segs es ->
  forall top,
    In (fold_left os_path_join segs top, dirs es, nondirs es) (os_walk top t).
Proof.
  induction 1 as [es|es name child segs es' Hin Hd IH]; intros top.
  - rewrite os_walk_dir. now left.
  - rewrite os_walk_dir. right. apply in_flat_map.
    exists (name, child). split; [assumption | apply IH].
Qed.

Lemma package_files_In t p :
  In p (package_files t) <->
  exists segs es,
    dir_at t segs es
    /\ list_in "package.json" (nondirs es) = true
    /\ str_in "node_modules" (walk_root segs) = false
    /\ p = os_path_join (walk_root segs) "package.json".
Proof.
  unfold package_files. rewrite find_package_files_collected. simpl.
  rewrite in_flat_map. split.
  - intros [[[root ds] files] [Hw Hc]].
    apply os_walk_dirs in Hw as (segs & es & Hd & -> & -> & ->).
    exists segs, es. unfold collected in Hc. fold (walk_root segs) in *.
    destruct (str_in "node_modules" (walk_root segs)); [contradiction|].
    destruct (list_in "package.json" (nondirs es)); [|contradiction].
    destruct Hc as [<-|[]]. auto.
  - intros (segs & es & Hd & Hf & Hn & ->).
    exists (walk_root segs, dirs es, nondirs es). split.
    + apply (dirs_os_walk t segs es Hd).
    + unfold collected. rewrite Hn, Hf. now left.
Qed.

(** [os.path.join] with a second part that does not start with [/]. *)
Lemma os_path_join_cases a b :
  startswith b "/" = false ->
  os_path_join a b = (a ++ b)%string
  \/ os_path_join a b = (a ++ "/" ++ b)%string.
Proof.
  intros H. unfold os_path_join. rewrite H.
  destruct (String.eqb a EmptyString || endswith a "/"); auto.
Qed.

Lemma valid_name_relative s : valid_name s = true -> startswith s "/" = false.
Proof.
  unfold valid_name. rewrite andb_true_iff, !negb_true_iff. intros [_ H].
  destruct s as [|c s]; [reflexivity|]. cbn [has_char] in H.
  apply orb_false_iff in H as [H _].
  now rewrite startswith_cons, Ascii.eqb_sym, H.
Qed.

Lemma str_in_join_l sub a b :
  startswith b "/" = false -> str_in sub a = true ->
  str_in sub (os_path_join a b) = true.
Proof.
  intros Hb H. destruct (os_path_join_cases a b Hb) as [-> | ->];
    now apply str_in_app_l.
Qed.

Lemma str_in_join_r sub a b :
  startswith b "/" = false -> str_in sub b = true ->
  str_in sub (os_path_join a b) = true.
Proof.
  intros Hb H. destruct (os_path_join_cases a b Hb) as [-> | ->].
  - now apply str_in_app_r.
  - apply str_in_app_r. now apply (str_in_app_r sub "/" b).
Qed.

Lemma walk_root_snoc segs name :
  walk_root (segs ++ [name]) = os_path_join (walk_root segs) name.
Proof. unfold walk_root. now rewrite fold_left_app. Qed.

(** The path [os.walk] gives a directory holds each name on the way to it. *)
Lemma walk_root_holds segs name :
  forallb valid_name segs = true -> In name segs ->
  str_in name (walk_root segs) = true.
Proof.
  induction segs as [|s segs IH] using rev_ind; intros Hv Hin; [contradiction|].
  rewrite forallb_app in Hv. apply andb_true_iff in Hv as [Hv Hs].
  simpl in Hs. rewrite andb_true_r in Hs. apply valid_name_relative in Hs.
  rewrite walk_root_snoc. apply in_app_or in Hin as [Hin|[->|[]]].
  - apply str_in_join_l; auto.
  - apply str_in_join_r; [assumption | apply str_in_refl].
Qed.

(** A path that [main] collects does not hold [node_modules]. *)
Lemma package_files_clear t p :
  In p (package_files t) -> str_in "node_modules" p = false.
Proof.
  intros H. apply package_files_In in H as (segs & es & _ & _ & Hn & ->).
  destruct (str_in "node_modules"
              (os_path_join (walk_root segs) "package.json")) eqn:E;
    [|reflexivity].
  destruct (os_path_join_cases (walk_root segs) "package.json" eq_refl)
    as [Hj|Hj]; rewrite Hj in E.
  - apply (str_in_around "p" "node_modules" (walk_root segs) "ackage.json"
             eq_refl) in E.
    destruct E as [E|E]; [congruence | discriminate].
  - apply (str_in_around "/" "node_modules" (walk_root segs) "package.json"
             eq_refl) in E.
    destruct E as [E|E]; [congruence | discriminate].
Qed.

(** Nor does any name it goes through. *)
Lemma package_files_resolve t p :
  In p (package_files t) -> ~ In "node_modules" (resolve p).
Proof.
  intros H Hin. apply package_files_clear in H.
  unfold resolve in Hin. apply filter_In in Hin as [Hin _].
  apply split_str_in in Hin. congruence.
Qed.

End Discovery.

(* ================================================================== *)
(** ** A run *)

(** After a scan of an object with proper mappings no item is stale. *)
Lemma scan_settles d :
  proper (JDict d) = true ->
  scan_changed dep_types (scan dep_types d) = false.
Proof.
  intros Hp. rewrite (scan_changed_fields dep_types _ dep_types_NoDup).
  destruct (existsb (field_changed (scan dep_types d)) dep_types) eqn:E;
    [|reflexivity].
  apply existsb_exists in E as [k [Hk Hc]]. unfold field_changed in Hc.
  rewrite (scan_get_in dep_types k d dep_types_NoDup Hk) in Hc.
  destruct (dict_get d k) as [[| | | | | |deps]|] eqn:Hget; try discriminate.
  rewrite (scan_items_normalize deps (proper_field d k deps Hp Hget)) in Hc.
  assert (H := normalize_normalized deps).
  apply normalized_not_stale in H. congruence.
Qed.

Section Run.

Variable json_load : string -> loaded.

Lemma for_files_cons file_path rest w :
  for_files json_load (file_path :: rest) w =
  match fix_dependencies json_load file_path w with
  | (Returns _, w') => for_files json_load rest w'
  | (Raises e, w') => (Raises e, w')
  end.
Proof. reflexivity. Qed.

Lemma main_for_files w :
  main json_load w = for_files json_load (package_files (cwd w)) w.
Proof. reflexivity. Qed.

(** One call, seen from its end. *)
Lemma fix_step file_path w r w' :
  fix_dependencies json_load file_path w = (r, w') ->
  (at_rest json_load (cwd w) file_path = true
   /\ cwd w' = cwd w /\ dumped w' = dumped w)
  \/ (exists text d,
        read_path (cwd w) file_path = Some text
        /\ json_load text = Loaded (JDict d)
        /\ forallb (mapping_or_absent d) dep_types = true
        /\ r = Returns tt
        /\ write_path (cwd w) file_path (dump_text (JDict (scan dep_types d)))
           = Some (cwd w')
        /\ read_path (cwd w') file_path
           = Some (dump_text (JDict (scan dep_types d)))
        /\ dumped w' = dumped w ++ [(file_path, JDict (scan dep_types d))]).
Proof.
  intros Hfix.
  destruct (fix_dependencies_cases json_load (cwd w) file_path)
    as [[Hrest (r0 & out & Hq)]
       |(text & d & t' & Hr & Hl & Hok & Hc & Hw & Hr' & Hch)].
  - left. rewrite (Hq w eq_refl) in Hfix. injection Hfix as <- <-. auto.
  - right. rewrite (Hch w eq_refl) in Hfix. injection Hfix as <- <-.
    exists text, d. cbn [cwd dumped]. auto 10.
Qed.

(** A call leaves at rest its own path, and every path that was at
    rest. *)
Lemma fix_at_rest file_path w r w' p :
  loads_proper json_load ->
  fix_dependencies json_load file_path w = (r, w') ->
  (forall v, In (file_path, v) (dumped w') -> reads_back json_load v) ->
  p = file_path \/ at_rest json_load (cwd w) p = true ->
  at_rest json_load (cwd w') p = true.
Proof.
  intros Hproper Hfix Hback Hp.
  destruct (fix_step file_path w r w' Hfix)
    as [(Hrest & Hcwd & _)
       |(text & d & Hr & Hl & Hok & _ & Hw & Hr' & Hd)].
  - rewrite Hcwd. destruct Hp as [->|Hp]; assumption.
  - assert (Hnew : rests json_load (dump_text (JDict (scan dep_types d)))
                   = true).
    { unfold rests.
      rewrite Hback by (rewrite Hd; apply in_or_app; right; now left).
      rewrite (scan_settles d (Hproper text _ Hl)). now rewrite andb_false_r. }
    destruct (list_eq_dec string_dec (resolve p) (resolve file_path))
      as [E|Hne].
    + unfold at_rest, read_path in *. rewrite E, Hr'. exact Hnew.
    + destruct Hp as [->|Hp]; [now destruct Hne|].
      unfold at_rest, read_path in *.
      now rewrite (write_at_other (resolve file_path) _ (cwd w) (cwd w') text
                     (resolve p) Hr Hw Hne).
Qed.

Lemma fix_dumped_grows file_path w r w' :
  fix_dependencies json_load file_path w = (r, w') ->
  exists new, dumped w' = dumped w ++ new.
Proof.
  intros Hfix. destruct (fix_step file_path w r w' Hfix)
    as [(_ & _ & Hd)|(text & d & _ & _ & _ & _ & _ & _ & Hd)].
  - exists []. now rewrite app_nil_r.
  - eexists. exact Hd.
Qed.

Lemma for_files_dumped_grows ps :
  forall w r w',
    for_files json_load ps w = (r, w') ->
    exists new, dumped w' = dumped w ++ new.
Proof.
  induction ps as [|p ps IH]; intros w r w' Hrun.
  - injection Hrun as <- <-. exists []. now rewrite app_nil_r.
  - rewrite for_files_cons in Hrun.
    destruct (fix_dependencies json_load p w) as [[[]|e] wa] eqn:Hfix.
    + destruct (fix_dumped_grows p w _ wa Hfix) as [n1 H1].
      destruct (IH wa r w' Hrun) as [n2 H2].
      exists (n1 ++ n2). now rewrite H2, H1, app_assoc.
    + injection Hrun as <- <-. exact (fix_dumped_grows p w _ wa Hfix).
Qed.

Lemma for_files_at_rest ps :
  forall w r w' p,
    loads_proper json_load ->
    for_files json_load ps w = (r, w') ->
    (forall q v, In (q, v) (dumped w') -> reads_back json_load v) ->
    at_rest json_load (cwd w) p = true ->
    at_rest json_load (cwd w') p = true.
Proof.
  induction ps as [|q ps IH]; intros w r w' p Hproper Hrun Hback Hp.
  - now injection Hrun as <- <-.
  - rewrite for_files_cons in Hrun.
    destruct (fix_dependencies json_load q w) as [[[]|e] wa] eqn:Hfix.
    + apply (IH wa r w' p Hproper Hrun Hback).
      apply (fix_at_rest q w _ wa p Hproper Hfix); [|now right].
      intros v Hv. destruct (for_files_dumped_grows ps wa r w' Hrun) as [n Hn].
      apply (Hback q v). rewrite Hn. apply in_or_app. now left.
    + injection Hrun as <- <-.
      apply (fix_at_rest q w _ wa p Hproper Hfix); [|now right].
      intros v Hv. now apply (Hback q v).
Qed.

(** A call leaves the text of a file it does not name as it was. *)
Lemma fix_keeps file_path w r w' b :
  fix_dependencies json_load file_path w = (r, w') ->
  resolve file_path <> b ->
  read_at (cwd w') b = read_at (cwd w) b.
Proof.
  intros Hfix Hne. destruct (fix_step file_path w r w' Hfix)
    as [(_ & -> & _)|(text & d & Hr & _ & _ & _ & Hw & _)]; [reflexivity|].
  apply (write_at_other (resolve file_path) _ (cwd w) (cwd w') text b Hr Hw).
  congruence.
Qed.

Lemma for_files_keeps ps b :
  forall w r w',
    (forall q, In q ps -> resolve q <> b) ->
    for_files json_load ps w = (r, w') ->
    read_at (cwd w') b = read_at (cwd w) b.
Proof.
  induction ps as [|p ps IH]; intros w r w' Hne Hrun.
  - now injection Hrun as <- <-.
  - rewrite for_files_cons in Hrun.
    assert (Hp : resolve p <> b) by (apply Hne; now left).
    destruct (fix_dependencies json_load p w) as [[[]|e] wa] eqn:Hfix.
    + rewrite (IH wa r w') by (auto; intros q Hq; apply Hne; now right).
      exact (fix_keeps p w _ wa b Hfix Hp).
    + injection Hrun as <- <-. exact (fix_keeps p w _ wa b Hfix Hp).
Qed.

(** A call leaves [os.walk] as it was. *)
Lemma fix_walk file_path w r w' top :
  fix_dependencies json_load file_path w = (r, w') ->
  os_walk top (cwd w') = os_walk top (cwd w).
Proof.
  intros Hfix. destruct (fix_step file_path w r w' Hfix)
    as [(_ & -> & _)|(text & d & Hr & _ & _ & _ & Hw & _)]; [reflexivity|].
  exact (write_at_walk (resolve file_path) _ (cwd w) (cwd w') text top Hr Hw).
Qed.

Lemma for_files_walk ps top :
  forall w r w',
    for_files json_load ps w = (r, w') ->
    os_walk top (cwd w') = os_walk top (cwd w).
Proof.
  induction ps as [|p ps IH]; intros w r w' Hrun.
  - now injection Hrun as <- <-.
  - rewrite for_files_cons in Hrun.
    destruct (fix_dependencies json_load p w) as [[[]|e] wa] eqn:Hfix.
    + rewrite (IH wa r w' Hrun). exact (fix_walk p w _ wa top Hfix).
    + injection Hrun as <- <-. exact (fix_walk p w _ wa top Hfix).
Qed.

(** The loop of [main] once more, on the tree the first time left: the
    same files, nothing dumped. *)
Lemma second_pass ps :
  forall w r1 w1,
    loads_proper json_load ->
    for_files json_load ps w = (r1, w1) ->
    (forall q v, In (q, v) (dumped w1) -> reads_back json_load v) ->
    forall w2, cwd w2 = cwd w1 ->
      exists r2 out,
        for_files json_load ps w2 =
        (r2, World (cwd w1) (stdout w2 ++ out) (dumped w2)).
Proof.
  induction ps as [|p ps IH]; intros w r1 w1 Hproper Hrun Hback w2 Hw2.
  - exists (Returns tt), []. simpl. unfold ret.
    now rewrite app_nil_r, <- Hw2, world_eta.
  - rewrite for_files_cons in Hrun. rewrite for_files_cons.
    destruct (fix_dependencies json_load p w) as [[[]|e] wa] eqn:Hfix.
    + assert (Hrest : at_rest json_load (cwd w1) p = true).
      { apply (for_files_at_rest ps wa r1 w1 p Hproper Hrun Hback).
        apply (fix_at_rest p w _ wa p Hproper Hfix); [|now left].
        intros v Hv.
        destruct (for_files_dumped_grows ps wa r1 w1 Hrun) as [n Hn].
        apply (Hback p v). rewrite Hn. apply in_or_app. now left. }
      destruct (at_rest_settled json_load (cwd w1) p Hrest) as (r & out & Hq).
      rewrite (Hq w2 Hw2). destruct r as [[]|e].
      * destruct (IH wa r1 w1 Hproper Hrun Hback
                    (World (cwd w1) (stdout w2 ++ out) (dumped w2)) eq_refl)
          as (r2 & out2 & Hrun2).
        exists r2, (out ++ out2). rewrite Hrun2. cbn [stdout dumped].
        now rewrite app_assoc.
      * now exists (Raises e), out.
    + injection Hrun as <- <-.
      destruct (fix_dependencies_cases json_load (cwd w) p)
        as [[_ (r & out & Hq)]|(text & d & t' & _ & _ & _ & _ & _ & _ & Hch)].
      * assert (Hcwd : cwd wa = cwd w).
        { rewrite (Hq w eq_refl) in Hfix. now injection Hfix as _ <-. }
        assert (Hr : r = Raises e).
        { rewrite (Hq w eq_refl) in Hfix. now injection Hfix as -> _. }
        subst r. rewrite Hcwd in *. rewrite (Hq w2 Hw2).
        now exists (Raises e), out.
      * rewrite (Hch w eq_refl) in Hfix. discriminate.
Qed.

End Run.

(* ================================================================== *)
(** ** Properties of [main] *)

Section RunClaims.

Variable json_load : string -> loaded.

(** After a loop that returned, every path it went through is at rest. *)
Lemma for_files_rests ps :
  forall w w1 p,
    loads_proper json_load ->
    for_files json_load ps w = (Returns tt, w1) ->
    (forall q v, In (q, v) (dumped w1) -> reads_back json_load v) ->
    In p ps -> at_rest json_load (cwd w1) p = true.
Proof.
  induction ps as [|q ps IH]; intros w w1 p Hproper Hrun Hback Hin;
    [contradiction|].
  rewrite for_files_cons in Hrun.
  destruct (fix_dependencies json_load q w) as [[[]|e] wa] eqn:Hfix;
    [|discriminate].
  destruct Hin as [->|Hin]; [|exact (IH wa w1 p Hproper Hrun Hback Hin)].
  apply (for_files_at_rest json_load ps wa _ w1 p Hproper Hrun Hback).
  apply (fix_at_rest json_load p w _ wa p Hproper Hfix); [|now left].
  intros v Hv.
  destruct (for_files_dumped_grows json_load ps wa _ w1 Hrun) as [n Hn].
  apply (Hback p v). rewrite Hn. apply in_or_app. now left.
Qed.

(** C3. Two runs of [main] in succession, with a [json.load] that builds
    dicts and reads back the manifests the first run wrote: the second run
    writes nothing, so the tree after it is the tree after the first.  When
    the first run returned, no manifest it collected holds, in a recognized
    mapping, a package that starts with [@styx/] with a version other than
    [workspace:*]. *)
Theorem main_idempotent w r1 w1 r2 w2 :
  loads_proper json_load ->
  main json_load w = (r1, w1) ->
  (forall q v, In (q, v) (dumped w1) -> reads_back json_load v) ->
  main json_load w1 = (r2, w2) ->
  cwd w2 = cwd w1
  /\ dumped w2 = dumped w1
  /\ (r1 = Returns tt ->
      forall p text d dep_type deps,
        In p (package_files (cwd w)) ->
        read_path (cwd w1) p = Some text ->
        json_load text = Loaded (JDict d) ->
        forallb (mapping_or_absent d) dep_types = true ->
        In dep_type dep_types ->
        dict_get d dep_type = Some (JDict deps) ->
        normalized deps).
Proof.
  intros Hproper Hrun1 Hback Hrun2. rewrite main_for_files in Hrun1, Hrun2.
  assert (Hfiles : package_files (cwd w1) = package_files (cwd w)).
  { unfold package_files.
    now rewrite (for_files_walk json_load _ "." w r1 w1 Hrun1). }
  rewrite Hfiles in Hrun2.
  destruct (second_pass json_load (package_files (cwd w)) w r1 w1
              Hproper Hrun1 Hback w1 eq_refl) as (r & out & Hsecond).
  rewrite Hsecond in Hrun2. injection Hrun2 as <- <-.
  repeat split.
  intros -> p text d k deps Hp Hr Hl Hok Hk Hget.
  assert (Hrest := for_files_rests (package_files (cwd w)) w w1 p
                     Hproper Hrun1 Hback Hp).
  unfold at_rest, rests in Hrest. rewrite Hr, Hl, Hok in Hrest.
  apply negb_true_iff in Hrest.
  exact (not_changed_normalized d k deps Hrest Hk Hget).
Qed.

(** C6, as the code has it.  [main] collects exactly the paths
    [os.path.join(root, 'package.json')] of the directories that hold a
    file named [package.json] and whose path [root], as [os.walk('.')]
    gives it, does not have [node_modules] as a substring. *)
Theorem package_files_spec t p :
  In p (package_files t) <->
  exists segs es,
    dir_at t segs es
    /\ list_in "package.json" (nondirs es) = true
    /\ str_in "node_modules" (walk_root segs) = false
    /\ p = os_path_join (walk_root segs) "package.json".
Proof. apply package_files_In. Qed.

(** C7. A manifest below a directory named [node_modules]: the path
    [os.walk] gives it is not collected, no collected path leads to it, and
    after a run of [main] its text is what it was. *)
Theorem main_skips_node_modules w segs r w' :
  forallb valid_name segs = true ->
  In "node_modules" segs ->
  main json_load w = (r, w') ->
  ~ In (os_path_join (walk_root segs) "package.json") (package_files (cwd w))
  /\ (forall q, In q (package_files (cwd w)) ->
                resolve q <> segs ++ ["package.json"])
  /\ read_at (cwd w') (segs ++ ["package.json"])
     = read_at (cwd w) (segs ++ ["package.json"]).
Proof.
  intros Hv Hin Hrun.
  assert (Hother : forall q, In q (package_files (cwd w)) ->
                     resolve q <> segs ++ ["package.json"]).
  { intros q Hq E. apply (package_files_resolve (cwd w) q Hq).
    rewrite E. apply in_or_app. now left. }
  repeat split.
  - intros Hp. apply package_files_clear in Hp.
    rewrite str_in_join_l in Hp; [discriminate | reflexivity |].
    now apply walk_root_holds.
  - exact Hother.
  - rewrite main_for_files in Hrun.
    exact (for_files_keeps json_load (package_files (cwd w)) _ w r w'
             Hother Hrun).
Qed.

End RunClaims.

(* ================================================================== *)
(** ** The properties on the sample workspace *)

Import Sample Layout.

(** The example scenario: [packages/a/package.json] with [@styx/core] at
    [^1.0.0] and [lodash] at [^4.0.0].  One run prints the line for
    [@styx/core] and leaves the file with [@styx/core] at [workspace:*],
    [lodash] as it was, two spaces of indentation and a final line
    break. *)
Example example_scenario :
  let t :=
    Dir [("packages", Dir [("a", Dir [("package.json", File a_text)])])] in
  main sample_load (start t) =
  (Returns tt,
   World
     (Dir [("packages",
            Dir [("a",
                  Dir [("package.json",
                        File (String "{" (String "010"
                          ("  " ++ quoted "dependencies" ++ ": {"
                           ++ String "010"
                           ("    " ++ quoted "@styx/core" ++ ": "
                            ++ quoted "workspace:*" ++ ","
                            ++ String "010"
                            ("    " ++ quoted "lodash" ++ ": "
                             ++ quoted "^4.0.0"
                             ++ String "010" ("  }" ++ String "010"
                             ("}" ++ String "010" EmptyString)))))))%string)])])])
     [Updating "@styx/core" "./packages/a/package.json" (JStr "^1.0.0")]
     [("./packages/a/package.json", a_fixed)]).
Proof. reflexivity. Qed.

(** Fault isolation: a manifest that is no JSON, then one with a stale
    internal package.  The run returns; the first file is as it was and its
    path is printed, the second is rewritten. *)
Example fault_isolation_scenario :
  main sample_load (start broken_first) =
  (Returns tt,
   World
     (Dir [("broken", Dir [("package.json", File broken_text)]);
           ("packages",
            Dir [("a", Dir [("package.json", File (dump_text a_fixed))])])])
     [Error_decoding "./broken/package.json";
      Updating "@styx/core" "./packages/a/package.json" (JStr "^1.0.0")]
     [("./packages/a/package.json", a_fixed)]).
Proof. reflexivity. Qed.

(** [json.dump] on strings beyond ASCII: the euro sign, U+20AC, whose
    UTF-8 bytes are [e2 82 ac], and U+1F600, whose bytes are [f0 9f 98 80]
    and which is written as its two surrogates. *)
Example encode_str_euro :
  encode_str (String "226" (String "130" (String "172" EmptyString)))
  = quoted "\u20ac".
Proof. reflexivity. Qed.

Example encode_str_beyond_basic_plane :
  encode_str
    (String "240" (String "159" (String "152" (String "128" EmptyString))))
  = quoted "\ud83d\ude00".
Proof. reflexivity. Qed.

(** The manifests [main] collects in the sample workspace. *)
Example sample_package_files :
  package_files workspace =
  ["./package.json"; "./packages/a/package.json";
   "./packages/b/package.json"; "./packages/broken/package.json"].
Proof. reflexivity. Qed.

Lemma fix_dependencies_normalizes_witness :
  exists d',
    (after a_text = start (single a_text) /\ d' = a_fields
     \/ read_path (cwd (after a_text)) "./package.json"
        = Some (dump_text (JDict d'))
        /\ dumped (after a_text)
           = dumped (start (single a_text)) ++ [("./package.json", JDict d')])
    /\ keys d' = keys a_fields
    /\ (forall k, ~ In k dep_types -> dict_get d' k = dict_get a_fields k)
    /\ (forall dep_type,
          In dep_type dep_types ->
          dict_get a_fields dep_type = None /\ dict_get d' dep_type = None
          \/ exists deps,
               dict_get a_fields dep_type = Some (JDict deps)
               /\ dict_get d' dep_type =
                  Some (JDict
                          (map (fun kv =>
                                  if startswith (fst kv) "@styx/"
                                  then (fst kv, JStr "workspace:*")
                                  else kv) deps)))
    /\ forall dep_type deps pkg version,
         In dep_type dep_types ->
         dict_get d' dep_type = Some (JDict deps) ->
         In (pkg, version) deps ->
         startswith pkg "@styx/" = true ->
         version = JStr "workspace:*".
Proof.
  apply (fix_dependencies_normalizes sample_load "./package.json"
           (start (single a_text)) a_text a_fields
           (after a_text)); reflexivity.
Defined.

Lemma fix_dependencies_decode_error_witness :
  (sample_load broken_text = JSONDecodeError
   /\ fix_dependencies sample_load "./broken/package.json"
        (start broken_first) =
      (Returns tt,
       World (cwd (start broken_first))
         (stdout (start broken_first)
          ++ [Error_decoding "./broken/package.json"])
         (dumped (start broken_first)))
   /\ for_files sample_load
        ("./broken/package.json" :: ["./packages/a/package.json"])
        (start broken_first) =
      for_files sample_load ["./packages/a/package.json"]
        (World (cwd (start broken_first))
           (stdout (start broken_first)
            ++ [Error_decoding "./broken/package.json"])
           (dumped (start broken_first))))
  \/ (exists e,
        sample_load broken_text = Uncaught e
        /\ fix_dependencies sample_load "./broken/package.json"
             (start broken_first) = (Raises e, start broken_first)
        /\ for_files sample_load
             ("./broken/package.json" :: ["./packages/a/package.json"])
             (start broken_first) = (Raises e, start broken_first)).
Proof.
  apply (fix_dependencies_decode_error sample_load "./broken/package.json"
           (start broken_first) broken_text ["./packages/a/package.json"]).
  - reflexivity.
  - intros data. vm_compute. discriminate.
Defined.

(** C2, as the claim has it: a manifest on which parsing fails would be
    reported and the run would go on.  The manifest of [big] holds one
    integer of 4301 digits: [json.load] fails on it with [ValueError], which
    is not [json.JSONDecodeError]; [main] ends with that exception, nothing
    is printed, and the manifest of [packages/a], which comes next, is as it
    was, its [@styx/core] still at [^1.0.0]. *)
Lemma decode_error_counterexample :
  package_files long_first
  = ["./big/package.json"; "./packages/a/package.json"]
  /\ read_path long_first "./big/package.json" = Some (nines 4301)
  /\ (forall data, sample_load (nines 4301) <> Loaded data)
  /\ main sample_load (start long_first)
     = (Raises ValueError, start long_first)
  /\ stdout (snd (main sample_load (start long_first))) = []
  /\ read_path (cwd (snd (main sample_load (start long_first))))
       "./packages/a/package.json" = Some a_text.
Proof.
  split; [reflexivity|]. split; [reflexivity|].
  split; [intros data; vm_compute; discriminate|].
  split; [|split]; vm_compute; reflexivity.
Qed.

Lemma fix_dependencies_shape_error_witness :
  exists w',
    fix_dependencies sample_load "./odd/package.json" (start odd_first) =
    (Raises AttributeError, w')
    /\ cwd w' = odd_first /\ dumped w' = []
    /\ for_files sample_load
         ["./odd/package.json"; "./packages/a/package.json"]
         (start odd_first) = (Raises AttributeError, w').
Proof.
  apply (fix_dependencies_shape_error sample_load "./odd/package.json"
           (start odd_first) (dump_text odd_data) odd_fields
           "dependencies" (JStr "none")).
  - reflexivity.
  - reflexivity.
  - simpl. auto.
  - reflexivity.
  - discriminate.
Defined.

Lemma fix_dependencies_frame_witness :
  exists d',
    read_path (cwd (after (dump_text b_data))) "./package.json" =
    Some (dump_text (JDict d'))
    /\ keys d' = keys b_fields
    /\ (forall k, ~ In k dep_types ->
                  dict_get d' k = dict_get b_fields k)
    /\ (forall k deps,
          In k dep_types ->
          dict_get b_fields k = Some (JDict deps) ->
          exists deps',
            dict_get d' k = Some (JDict deps')
            /\ keys deps' = keys deps
            /\ forall pkg, startswith pkg "@styx/" = false ->
                           dict_get deps' pkg = dict_get deps pkg).
Proof.
  apply (fix_dependencies_frame sample_load "./package.json"
           (start (single (dump_text b_data))) (dump_text b_data) b_fields
           (Returns tt) (after (dump_text b_data))).
  - reflexivity.
  - reflexivity.
  - reflexivity.
  - vm_compute. discriminate.
Defined.

Lemma fix_dependencies_writes_iff_changed_witness :
  let stale_entry :=
    exists dep_type deps pkg version,
      In dep_type dep_types
      /\ dict_get a_fields dep_type = Some (JDict deps)
      /\ In (pkg, version) deps /\ startswith pkg "@styx/" = true
      /\ version <> JStr "workspace:*" in
  exists w',
    fix_dependencies sample_load "./package.json" (start (single a_text))
    = (Returns tt, w')
    /\ (stale_entry ->
        exists d',
          keys d' = keys a_fields
          /\ (forall k, ~ In k dep_types ->
                        dict_get d' k = dict_get a_fields k)
          /\ dumped w' = dumped (start (single a_text))
                         ++ [("./package.json", JDict d')]
          /\ write_path (cwd (start (single a_text))) "./package.json"
               (dump_text (JDict d')) = Some (cwd w')
          /\ read_path (cwd w') "./package.json"
             = Some (dump_text (JDict d')))
    /\ (~ stale_entry -> w' = start (single a_text))
    /\ (dumped w' <> dumped (start (single a_text)) <-> stale_entry)
    /\ exists out,
         stdout w' = stdout (start (single a_text)) ++ out
         /\ (out <> [] <-> stale_entry)
         /\ forall pkg fp version,
              In (Updating pkg fp version) out ->
              version <> JStr "workspace:*".
Proof.
  apply (fix_dependencies_writes_iff_changed sample_load "./package.json"
           (start (single a_text)) a_text a_fields);
    reflexivity.
Defined.

(** C5, as the claim has it: a manifest in which an entry was changed
    during the scan would be written back.  In [odd_late] the scan of
    [dependencies] changes [@styx/core], sets [changed] and prints the line;
    then [devDependencies], a number, has no [items]: the call raises
    [AttributeError], and the file is never opened for writing. *)
Lemma writes_iff_changed_counterexample :
  let w := start (single (dump_text odd_late_data)) in
  read_path (cwd w) "./package.json" = Some (dump_text odd_late_data)
  /\ wide_load (dump_text odd_late_data) = Loaded (JDict odd_late_fields)
  /\ dict_get odd_late_fields "dependencies"
     = Some (JDict [("@styx/core", JStr "^1.0.0")])
  /\ for_dep_types "./package.json" ["dependencies"] odd_late_data false w
     = (Returns
          (JDict [("name", JStr "odd-late");
                  ("dependencies", JDict [("@styx/core", JStr "workspace:*")]);
                  ("devDependencies", JInt 3)],
           true),
        World (cwd w)
          [Updating "@styx/core" "./package.json" (JStr "^1.0.0")] [])
  /\ fix_dependencies wide_load "./package.json" w
     = (Raises AttributeError,
        World (cwd w)
          [Updating "@styx/core" "./package.json" (JStr "^1.0.0")] [])
  /\ read_path (cwd (snd (fix_dependencies wide_load "./package.json" w)))
       "./package.json" = Some (dump_text odd_late_data).
Proof. repeat split. Qed.

Lemma fix_dependencies_dump_witness :
  exists d' text',
    dumped (after a_text)
    = dumped (start (single a_text)) ++ [("./package.json", JDict d')]
    /\ keys d' = keys a_fields
    /\ (forall k, ~ In k dep_types -> dict_get d' k = dict_get a_fields k)
    /\ read_path (cwd (after a_text)) "./package.json" = Some text'
    /\ text' = (encode 2 0 (JDict d') ++ newline)%string
    /\ text' = unlines (pretty (JDict d'))
    /\ (exists rest,
          text' = ("{" ++ newline ++ "  " ++ String "034" rest)%string)
    /\ (exists body, text' = (body ++ newline ++ "}" ++ newline)%string)
    /\ (exists middle,
          pretty (JDict d') = "{" :: middle ++ ["}"]
          /\ Forall (fun l => startswith l "  " = true) middle)
    /\ (forall k v,
          In (k, v) d' ->
          exists l rest before after,
            pretty v = l :: rest
            /\ text' = (before ++ newline ++ "  " ++ encode_str k ++ ": "
                        ++ l ++ after)%string)
    /\ (forall k deps pkg version,
          In (k, JDict deps) d' -> In (pkg, version) deps ->
          exists l rest before after,
            pretty version = l :: rest
            /\ text' = (before ++ newline ++ "    " ++ encode_str pkg ++ ": "
                        ++ l ++ after)%string).
Proof.
  apply (fix_dependencies_dump sample_load "./package.json"
           (start (single a_text)) a_text a_fields (Returns tt)
           (after a_text)).
  - reflexivity.
  - reflexivity.
  - reflexivity.
  - vm_compute. discriminate.
Defined.

Lemma fix_dependencies_any_value_witness :
  exists w' d' deps',
    fix_dependencies sample_load "./package.json"
      (start (single (dump_text b_data))) = (Returns tt, w')
    /\ In (Updating "@styx/core" "./package.json"
             (JDict [("version", JStr "1.x")])) (stdout w')
    /\ dumped w' = dumped (start (single (dump_text b_data)))
                   ++ [("./package.json", JDict d')]
    /\ read_path (cwd w') "./package.json" = Some (dump_text (JDict d'))
    /\ keys d' = keys b_fields
    /\ dict_get d' "dependencies" = Some (JDict deps')
    /\ keys deps'
       = keys [("@styx/core", JDict [("version", JStr "1.x")]);
               ("react", JStr "^18.2.0")]
    /\ dict_get deps' "@styx/core" = Some (JStr "workspace:*").
Proof.
  apply (fix_dependencies_any_value sample_load "./package.json"
           (start (single (dump_text b_data))) (dump_text b_data) b_fields
           "dependencies"
           [("@styx/core", JDict [("version", JStr "1.x")]);
            ("react", JStr "^18.2.0")]
           "@styx/core" (JDict [("version", JStr "1.x")])).
  - reflexivity.
  - reflexivity.
  - reflexivity.
  - reflexivity.
  - simpl. auto.
  - reflexivity.
  - simpl. auto.
  - reflexivity.
  - discriminate.
Defined.

(** C9, as the claim has it: any value of an internal package other than
    the string [workspace:*] would be replaced.  In [odd_early] the package
    [@styx/a] of [devDependencies] has the version [1]; [dependencies], a
    number, comes first and has no [items]: the call raises
    [AttributeError] before it reaches [devDependencies]; nothing is
    printed, and the file holds what it held, [@styx/a] at [1]. *)
Lemma any_value_counterexample :
  let w := start (single (dump_text odd_early_data)) in
  read_path (cwd w) "./package.json" = Some (dump_text odd_early_data)
  /\ wide_load (dump_text odd_early_data) = Loaded (JDict odd_early_fields)
  /\ In "devDependencies" dep_types
  /\ dict_get odd_early_fields "devDependencies"
     = Some (JDict [("@styx/a", JInt 1)])
  /\ startswith "@styx/a" "@styx/" = true
  /\ JInt 1 <> JStr "workspace:*"
  /\ fix_dependencies wide_load "./package.json" w
     = (Raises AttributeError, w).
Proof.
  repeat split; try reflexivity.
  - simpl. auto.
  - discriminate.
Qed.

Lemma sample_load_proper : loads_proper sample_load.
Proof.
  intros text v H. unfold sample_load in H.
  destruct (dict_get documents text) as [v'|] eqn:E;
    [|destruct (long_integer text); discriminate].
  injection H as ->. apply dict_get_In in E. rename E into H.
  unfold documents in H. simpl In in H.
  repeat (destruct H as [H|H]; [injection H as _ <-; reflexivity|]).
  contradiction.
Qed.

Lemma main_idempotent_witness :
  cwd (snd (main sample_load (snd (main sample_load (start workspace)))))
  = cwd (snd (main sample_load (start workspace)))
  /\ dumped (snd (main sample_load (snd (main sample_load (start workspace)))))
     = dumped (snd (main sample_load (start workspace)))
  /\ (Returns tt = Returns tt ->
      forall p text d dep_type deps,
        In p (package_files (cwd (start workspace))) ->
        read_path (cwd (snd (main sample_load (start workspace)))) p
        = Some text ->
        sample_load text = Loaded (JDict d) ->
        forallb (mapping_or_absent d) dep_types = true ->
        In dep_type dep_types ->
        dict_get d dep_type = Some (JDict deps) ->
        normalized deps).
Proof.
  apply (main_idempotent sample_load (start workspace) (Returns tt)
           (snd (main sample_load (start workspace))) (Returns tt)).
  - exact sample_load_proper.
  - reflexivity.
  - intros q v H. vm_compute in H.
    destruct H as [H|[H|[]]]; injection H as _ <-; reflexivity.
  - reflexivity.
Defined.

(** C6, as the claim has it: a directory with [package.json] and no path
    segment equal to [node_modules] would be collected.  The directory
    [node_modules_old] of the sample workspace is not. *)
Lemma package_files_segment_counterexample :
  dir_at workspace ["node_modules_old"] [("package.json", File a_text)]
  /\ list_in "package.json" (nondirs [("package.json", File a_text)]) = true
  /\ ~ In "node_modules" ["node_modules_old"]
  /\ ~ In "./node_modules_old/package.json" (package_files workspace).
Proof.
  repeat split.
  - apply dir_below with (Dir [("package.json", File a_text)]).
    + unfold workspace. simpl. auto.
    + constructor.
  - intros [H|[]]. discriminate.
  - intros H. vm_compute in H.
    repeat (destruct H as [H|H]; [discriminate|]). contradiction.
Qed.

Lemma main_skips_node_modules_witness :
  ~ In (os_path_join
          (walk_root ["packages"; "b"; "node_modules"; "dep"])
          "package.json")
       (package_files (cwd (start workspace)))
  /\ (forall q, In q (package_files (cwd (start workspace))) ->
                resolve q <>
                ["packages"; "b"; "node_modules"; "dep"] ++ ["package.json"])
  /\ read_at (cwd (snd (main sample_load (start workspace))))
       (["packages"; "b"; "node_modules"; "dep"] ++ ["package.json"])
     = read_at (cwd (start workspace))
         (["packages"; "b"; "node_modules"; "dep"] ++ ["package.json"]).
Proof.
  apply (main_skips_node_modules sample_load (start workspace)
           ["packages"; "b"; "node_modules"; "dep"] (Returns tt)).
  - reflexivity.
  - simpl. auto.
  - reflexivity.
Defined.

(* ================================================================== *)
(** ** Manifests that are no objects, files that cannot be opened *)

Lemma in_list_of_str (l : list json) k :
  existsb (fun x => negb (ne_str x k)) l = true <-> In (JStr k) l.
Proof.
  rewrite existsb_exists. split.
  - intros [x [Hin Hx]]. apply negb_true_iff in Hx.
    now rewrite <- (ne_str_false x k Hx).
  - intros Hin. exists (JStr k). split; [assumption|].
    simpl. now rewrite String.eqb_refl.
Qed.

(** The outer loop on a list: [TypeError] at the first name that is an
    item, since a list has no item by name. *)
Lemma for_dep_types_list file_path ks l :
  forall changed w,
    for_dep_types file_path ks (JList l) changed w =
    (if existsb (fun k => existsb (fun x => negb (ne_str x k)) l) ks
     then Raises TypeError else Returns (JList l, changed), w).
Proof.
  induction ks as [|k ks IH]; intros changed w; [reflexivity|].
  simpl for_dep_types. unfold bind at 1. unfold lift at 1. simpl py_contains.
  simpl existsb. destruct (existsb (fun x => negb (ne_str x k)) l).
  - reflexivity.
  - apply IH.
Qed.

(** The outer loop on a string: [TypeError] at the first name that is a
    substring. *)
Lemma for_dep_types_str file_path ks s :
  forall changed w,
    for_dep_types file_path ks (JStr s) changed w =
    (if existsb (fun k => str_in k s) ks
     then Raises TypeError else Returns (JStr s, changed), w).
Proof.
  induction ks as [|k ks IH]; intros changed w; [reflexivity|].
  simpl for_dep_types. unfold bind at 1. unfold lift at 1. simpl py_contains.
  simpl existsb. destruct (str_in k s).
  - reflexivity.
  - apply IH.
Qed.

Section OtherManifests.

Variable json_load : string -> loaded.

Lemma for_files_raises file_path rest w e w' :
  fix_dependencies json_load file_path w = (Raises e, w') ->
  for_files json_load (file_path :: rest) w = (Raises e, w').
Proof. intros H. rewrite for_files_cons. now rewrite H. Qed.

(** X1. A manifest that loads as [None], a bool or a number: the test
    [dep_type in data] raises [TypeError]; nothing is printed or written,
    and the loop of [main] ends there with that exception. *)
Theorem fix_dependencies_scalar file_path w text data rest :
  read_path (cwd w) file_path = Some text ->
  json_load text = Loaded data ->
  no_container data = true ->
  fix_dependencies json_load file_path w = (Raises TypeError, w)
  /\ for_files json_load (file_path :: rest) w = (Raises TypeError, w).
Proof.
  intros Hr Hl Hs.
  assert (Hfix : fix_dependencies json_load file_path w
                 = (Raises TypeError, w)).
  { rewrite (fix_loaded json_load file_path w text data Hr Hl).
    destruct data; try discriminate; reflexivity. }
  split; [exact Hfix | now apply for_files_raises].
Qed.

(** X2. A manifest that loads as a list: when one of the three field names
    is an item of the list, [data[dep_type]] raises [TypeError]; when none
    is, the call returns.  Either way nothing is printed or written. *)
Theorem fix_dependencies_list file_path w text l :
  read_path (cwd w) file_path = Some text ->
  json_load text = Loaded (JList l) ->
  ((exists k, In k dep_types /\ In (JStr k) l) ->
   fix_dependencies json_load file_path w = (Raises TypeError, w))
  /\ ((forall k, In k dep_types -> ~ In (JStr k) l) ->
      fix_dependencies json_load file_path w = (Returns tt, w)).
Proof.
  intros Hr Hl.
  rewrite (fix_loaded json_load file_path w text (JList l) Hr Hl).
  unfold bind. rewrite for_dep_types_list.
  destruct (existsb (fun k => existsb (fun x => negb (ne_str x k)) l) dep_types)
    eqn:E.
  - split; [reflexivity|]. intros Hnone.
    apply existsb_exists in E as [k [Hk Hin]].
    apply in_list_of_str in Hin. now destruct (Hnone k Hk).
  - split; [|reflexivity]. intros [k [Hk Hin]].
    assert (existsb (fun k => existsb (fun x => negb (ne_str x k)) l) dep_types
            = true); [|congruence].
    apply existsb_exists. exists k. split; [assumption|].
    now apply in_list_of_str.
Qed.

(** X3. A manifest that loads as a string: when one of the three field
    names occurs in the string, [data[dep_type]] raises [TypeError]; when
    none does, the call returns.  Either way nothing is printed or
    written. *)
Theorem fix_dependencies_str file_path w text s :
  read_path (cwd w) file_path = Some text ->
  json_load text = Loaded (JStr s) ->
  ((exists k, In k dep_types /\ str_in k s = true) ->
   fix_dependencies json_load file_path w = (Raises TypeError, w))
  /\ ((forall k, In k dep_types -> str_in k s = false) ->
      fix_dependencies json_load file_path w = (Returns tt, w)).
Proof.
  intros Hr Hl.
  rewrite (fix_loaded json_load file_path w text (JStr s) Hr Hl).
  unfold bind. rewrite for_dep_types_str.
  destruct (existsb (fun k => str_in k s) dep_types) eqn:E.
  - split; [reflexivity|]. intros Hnone.
    apply existsb_exists in E as [k [Hk Hin]].
    rewrite (Hnone k Hk) in Hin. discriminate.
  - split; [|reflexivity]. intros [k [Hk Hin]].
    assert (existsb (fun k => str_in k s) dep_types = true); [|congruence].
    apply existsb_exists. now exists k.
Qed.

(** X4. A path that cannot be opened for reading, a directory or a missing
    file: [open] raises [OSError], which nothing catches; nothing is
    printed or written, and the loop of [main] ends there. *)
Theorem fix_dependencies_unreadable file_path w rest :
  read_path (cwd w) file_path = None ->
  fix_dependencies json_load file_path w = (Raises OSError, w)
  /\ for_files json_load (file_path :: rest) w = (Raises OSError, w).
Proof.
  intros Hr. assert (Hfix := fix_missing json_load file_path w Hr).
  split; [exact Hfix | now apply for_files_raises].
Qed.

(** The loop of [main] over two lists in a row. *)
Lemma for_files_app ps1 ps2 :
  forall w,
    for_files json_load (ps1 ++ ps2) w =
    match for_files json_load ps1 w with
    | (Returns _, w') => for_files json_load ps2 w'
    | (Raises e, w') => (Raises e, w')
    end.
Proof.
  induction ps1 as [|p ps1 IH]; intros w; [reflexivity|].
  simpl app. rewrite !for_files_cons.
  destruct (fix_dependencies json_load p w) as [[[]|e] w']; [apply IH|].
  reflexivity.
Qed.

(** X5. The loop of [main] ends at the first call that raises, wherever it
    stands in the list: the run has that exception as its result and the
    state that call left, so the manifests after it are not opened. *)
Theorem for_files_stops_at_raise before file_path after w w1 e w2 :
  for_files json_load before w = (Returns tt, w1) ->
  fix_dependencies json_load file_path w1 = (Raises e, w2) ->
  for_files json_load (before ++ file_path :: after) w = (Raises e, w2).
Proof.
  intros Hbefore Hfix. rewrite for_files_app, Hbefore.
  now apply for_files_raises.
Qed.

(** X6. On an object whose recognized fields are mappings, the lines a
    call prints are those of the stale packages of [dependencies], then of
    [devDependencies], then of [peerDependencies], each field in the order
    of its items, one line per stale package with the version it had. *)
Theorem fix_dependencies_lines file_path w text d :
  read_path (cwd w) file_path = Some text ->
  json_load text = Loaded (JDict d) ->
  forallb (mapping_or_absent d) dep_types = true ->
  stdout (snd (fix_dependencies json_load file_path w)) =
  stdout w
  ++ updates file_path (stale_items d "dependencies")
  ++ updates file_path (stale_items d "devDependencies")
  ++ updates file_path (stale_items d "peerDependencies").
Proof.
  intros Hr Hl Hok.
  assert (Hlines : scan_lines file_path dep_types d =
            updates file_path (stale_items d "dependencies")
            ++ updates file_path (stale_items d "devDependencies")
            ++ updates file_path (stale_items d "peerDependencies")).
  { unfold dep_types. cbn [scan_lines].
    rewrite !stale_items_scan_field by discriminate.
    now rewrite app_nil_r. }
  rewrite <- Hlines.
  destruct (scan_changed dep_types d) eqn:Hc.
  - destruct (fix_object_changed json_load file_path w text d Hr Hl Hok Hc)
      as (t' & _ & _ & ->). reflexivity.
  - rewrite (fix_object_unchanged json_load file_path w text d Hr Hl Hok Hc).
    destruct (scan_unchanged file_path dep_types d Hc) as [_ ->].
    now rewrite app_nil_r.
Qed.

End OtherManifests.

Lemma fix_dependencies_scalar_witness :
  fix_dependencies wide_load "./package.json" (start (single "42")) =
  (Raises TypeError, start (single "42"))
  /\ for_files wide_load ["./package.json"; "./a/package.json"]
       (start (single "42")) = (Raises TypeError, start (single "42")).
Proof.
  apply (fix_dependencies_scalar wide_load "./package.json"
           (start (single "42")) "42" (JInt 42)); reflexivity.
Defined.

Lemma fix_dependencies_list_witness :
  ((exists k, In k dep_types /\ In (JStr k) [JInt 1; JInt 2]) ->
   fix_dependencies wide_load "./package.json" (start (single "[1, 2]")) =
   (Raises TypeError, start (single "[1, 2]")))
  /\ ((forall k, In k dep_types -> ~ In (JStr k) [JInt 1; JInt 2]) ->
      fix_dependencies wide_load "./package.json" (start (single "[1, 2]")) =
      (Returns tt, start (single "[1, 2]"))).
Proof.
  apply (fix_dependencies_list wide_load "./package.json"
           (start (single "[1, 2]")) "[1, 2]"); reflexivity.
Defined.

Lemma fix_dependencies_str_witness :
  ((exists k, In k dep_types /\ str_in k "my peerDependencies" = true) ->
   fix_dependencies wide_load "./package.json"
     (start (single (quoted "my peerDependencies"))) =
   (Raises TypeError, start (single (quoted "my peerDependencies"))))
  /\ ((forall k, In k dep_types -> str_in k "my peerDependencies" = false) ->
      fix_dependencies wide_load "./package.json"
        (start (single (quoted "my peerDependencies"))) =
      (Returns tt, start (single (quoted "my peerDependencies")))).
Proof.
  apply (fix_dependencies_str wide_load "./package.json"
           (start (single (quoted "my peerDependencies")))
           (quoted "my peerDependencies")); reflexivity.
Defined.

Lemma fix_dependencies_unreadable_witness :
  fix_dependencies sample_load "./packages/package.json" (start workspace) =
  (Raises OSError, start workspace)
  /\ for_files sample_load ["./packages/package.json"; "./package.json"]
       (start workspace) = (Raises OSError, start workspace).
Proof.
  apply (fix_dependencies_unreadable sample_load "./packages/package.json"
           (start workspace)); reflexivity.
Defined.

Lemma for_files_stops_at_raise_witness :
  for_files sample_load
    (["./a/package.json"] ++ "./odd/package.json" :: ["./z/package.json"])
    (start odd_second) =
  (Raises AttributeError,
   snd (for_files sample_load ["./a/package.json"] (start odd_second))).
Proof.
  apply (for_files_stops_at_raise sample_load ["./a/package.json"]
           "./odd/package.json" ["./z/package.json"] (start odd_second)
           (snd (for_files sample_load ["./a/package.json"]
                   (start odd_second))));
    reflexivity.
Defined.

Lemma fix_dependencies_lines_witness :
  stdout (snd (fix_dependencies sample_load "./package.json"
                 (start (single (dump_text b_data))))) =
  stdout (start (single (dump_text b_data)))
  ++ updates "./package.json" (stale_items b_fields "dependencies")
  ++ updates "./package.json" (stale_items b_fields "devDependencies")
  ++ updates "./package.json" (stale_items b_fields "peerDependencies").
Proof.
  apply (fix_dependencies_lines sample_load "./package.json"
           (start (single (dump_text b_data))) (dump_text b_data) b_fields);
    reflexivity.
Defined.

(* ================================================================== *)
(** ** What a run leaves alone *)

Lemma skeleton_dir es :
  skeleton (Dir es) = Dir (map (fun e => (fst e, skeleton (snd e))) es).
Proof.
  simpl. f_equal. induction es as [|[name child] es IH]; simpl; [reflexivity|].
  now rewrite IH.
Qed.

(** Writing a file that is there changes a text and nothing else. *)
Lemma write_at_skeleton a x :
  forall t t' text,
    read_at t a = Some text -> write_at a x t = Some t' ->
    skeleton t' = skeleton t.
Proof.
  induction a as [|s r IH]; intros t t' text Hr Hw.
  - unfold read_at in Hr. simpl in *. destruct t; [|discriminate].
    now injection Hw as <-.
  - unfold read_at in Hr. simpl in Hr, Hw.
    destruct t as [|es]; [discriminate|].
    destruct (find_entry s es) as [c|] eqn:E; [|discriminate].
    destruct (write_at r x c) as [c'|] eqn:Hc; [|discriminate].
    injection Hw as <-.
    assert (Hs : skeleton c' = skeleton c)
      by (apply (IH c c' text); [exact Hr | exact Hc]).
    rewrite !skeleton_dir. f_equal. clear Hr Hc IH.
    induction es as [|[n y] es IHes]; simpl in *; [discriminate|].
    destruct (String.eqb s n).
    + injection E as ->. simpl. now rewrite Hs.
    + simpl. now rewrite (IHes E).
Qed.

Lemma says_quiet {A} file_path (m : M A) :
  (forall w, stdout (snd (m w)) = stdout w) -> says file_path m.
Proof.
  intros H w. exists []. rewrite app_nil_r. split; [apply H | constructor].
Qed.

Lemma says_bind {A B} file_path (m : M A) (k : A -> M B) :
  says file_path m -> (forall a, says file_path (k a)) ->
  says file_path (bind m k).
Proof.
  intros Hm Hk w. unfold bind. destruct (Hm w) as (out1 & E1 & F1).
  destruct (m w) as [[a|e] w1]; simpl in E1.
  - destruct (Hk a w1) as (out2 & E2 & F2). exists (out1 ++ out2).
    rewrite E2, E1, app_assoc. split; [reflexivity|].
    apply Forall_app. now split.
  - exists out1. now split.
Qed.

Lemma says_lift {A} file_path (r : result A) : says file_path (lift r).
Proof. now apply says_quiet. Qed.

Lemma says_ret {A} file_path (a : A) : says file_path (ret a).
Proof. now apply says_quiet. Qed.

Lemma says_for_items file_path dep_type its :
  forall data changed,
    says file_path (for_items file_path dep_type its data changed).
Proof.
  induction its as [|[pkg version] its IH]; intros data changed.
  - apply says_ret.
  - cbn [for_items].
    destruct (startswith pkg "@styx/" && ne_str version "workspace:*");
      [|apply IH].
    apply says_bind.
    + intros w. exists [Updating pkg file_path version].
      split; [reflexivity|]. now repeat constructor.
    + intros _. apply says_bind; [apply says_lift|]. intros deps.
      apply says_bind; [apply says_lift|]. intros deps'.
      apply says_bind; [apply says_lift|]. intros data'. apply IH.
Qed.

Lemma says_for_dep_types file_path l :
  forall data changed,
    says file_path (for_dep_types file_path l data changed).
Proof.
  induction l as [|k l IH]; intros data changed.
  - apply says_ret.
  - cbn [for_dep_types]. apply says_bind; [apply says_lift|].
    intros [|]; [|apply IH].
    apply says_bind; [apply says_lift|]. intros deps.
    apply says_bind; [apply says_lift|]. intros its.
    apply says_bind; [apply says_for_items|]. intros [data' changed'].
    apply IH.
Qed.

Section Frames.

Variable json_load : string -> loaded.

Lemma says_fix_dependencies file_path :
  says file_path (fix_dependencies json_load file_path).
Proof.
  unfold fix_dependencies. apply says_bind.
  - apply says_quiet. intros w. unfold open_read.
    now destruct (read_path (cwd w) file_path).
  - intros text. destruct (json_load text) as [data| |e].
    + apply says_bind; [apply says_for_dep_types|].
      intros [data' [|]]; [|apply says_ret].
      apply says_quiet. intros w. unfold open_dump.
      now destruct (write_path (cwd w) file_path (dump_text data')).
    + intros w. exists [Error_decoding file_path].
      split; [reflexivity|]. now repeat constructor.
    + apply says_lift.
Qed.

Lemma fix_skeleton file_path w :
  skeleton (cwd (snd (fix_dependencies json_load file_path w)))
  = skeleton (cwd w).
Proof.
  destruct (fix_dependencies json_load file_path w) as [r w'] eqn:Hfix.
  destruct (fix_step json_load file_path w r w' Hfix)
    as [(_ & Hc & _)|(text & d & Hr & _ & _ & _ & Hw & _)]; simpl.
  - now rewrite Hc.
  - exact (write_at_skeleton (resolve file_path) _ (cwd w) (cwd w') text Hr Hw).
Qed.

Lemma for_files_skeleton ps :
  forall w, skeleton (cwd (snd (for_files json_load ps w))) = skeleton (cwd w).
Proof.
  induction ps as [|p ps IH]; intros w; [reflexivity|].
  rewrite for_files_cons. assert (Hp := fix_skeleton p w).
  destruct (fix_dependencies json_load p w) as [[[]|e] w']; simpl in Hp.
  - now rewrite IH.
  - exact Hp.
Qed.

(** X7. A run of [main] creates, deletes and renames nothing: after it
    the tree has the directories and the names it had, in the same order;
    only texts of files can differ. *)
Theorem main_keeps_skeleton w :
  skeleton (cwd (snd (main json_load w))) = skeleton (cwd w).
Proof. rewrite main_for_files. apply for_files_skeleton. Qed.

Lemma for_files_dumps ps :
  forall w, exists new,
    dumped (snd (for_files json_load ps w)) = dumped w ++ new
    /\ incl (map fst new) ps
    /\ length new <= length ps.
Proof.
  induction ps as [|p ps IH]; intros w.
  - exists []. simpl. rewrite app_nil_r. repeat split; [easy | lia].
  - rewrite for_files_cons.
    destruct (fix_dependencies json_load p w) as [r w'] eqn:Hfix.
    assert (Hone : exists n1, dumped w' = dumped w ++ n1
                     /\ incl (map fst n1) [p] /\ length n1 <= 1).
    { destruct (fix_step json_load p w r w' Hfix)
        as [(_ & _ & Hd)|(text & d & _ & _ & _ & _ & _ & _ & Hd)].
      - exists []. rewrite app_nil_r.
        repeat split; [assumption | easy | simpl; lia].
      - eexists. split; [exact Hd|]. split; [|simpl; lia].
        intros q [<-|[]]. now left. }
    destruct Hone as (n1 & E1 & I1 & L1).
    destruct r as [[]|e].
    + destruct (IH w') as (n2 & E2 & I2 & L2). exists (n1 ++ n2).
      rewrite E2, E1, app_assoc. split; [reflexivity|]. split.
      * rewrite map_app. intros q Hq. apply in_app_or in Hq as [Hq|Hq].
        -- apply I1 in Hq as [<-|[]]. now left.
        -- right. now apply I2.
      * rewrite length_app. simpl. lia.
    + exists n1. simpl. split; [assumption|]. split.
      * intros q Hq. apply I1 in Hq as [<-|[]]. now left.
      * simpl. lia.
Qed.

(** X8. A run of [main] writes collected manifests only: what it dumps
    goes to collected paths, at most one dump for each place in the list,
    and a file no collected path leads to has the text it had. *)
Theorem main_writes_collected w :
  exists new,
    dumped (snd (main json_load w)) = dumped w ++ new
    /\ incl (map fst new) (package_files (cwd w))
    /\ length new <= length (package_files (cwd w))
    /\ forall b,
         (forall q, In q (package_files (cwd w)) -> resolve q <> b) ->
         read_at (cwd (snd (main json_load w))) b = read_at (cwd w) b.
Proof.
  rewrite main_for_files.
  destruct (for_files_dumps (package_files (cwd w)) w) as (new & E & I & L).
  exists new. repeat split; try assumption.
  intros b Hb.
  destruct (for_files json_load (package_files (cwd w)) w) as [r w'] eqn:Hrun.
  exact (for_files_keeps json_load (package_files (cwd w)) b w r w' Hb Hrun).
Qed.

Lemma for_files_says ps :
  forall w, exists out,
    stdout (snd (for_files json_load ps w)) = stdout w ++ out
    /\ forall l, In l out -> In (line_path l) ps.
Proof.
  induction ps as [|p ps IH]; intros w.
  - exists []. simpl. now rewrite app_nil_r.
  - rewrite for_files_cons.
    destruct (says_fix_dependencies p w) as (out1 & E1 & F1).
    rewrite Forall_forall in F1.
    destruct (fix_dependencies json_load p w) as [[[]|e] w']; simpl in E1.
    + destruct (IH w') as (out2 & E2 & F2). exists (out1 ++ out2).
      rewrite E2, E1, app_assoc. split; [reflexivity|].
      intros l Hl. apply in_app_or in Hl as [Hl|Hl].
      * left. symmetry. now apply F1.
      * right. now apply F2.
    + exists out1. split; [assumption|].
      intros l Hl. left. symmetry. now apply F1.
Qed.

(** X9. Every line a run of [main] prints, an error or an update, is
    about a collected manifest. *)
Theorem main_lines_collected w :
  exists out,
    stdout (snd (main json_load w)) = stdout w ++ out
    /\ forall l, In l out -> In (line_path l) (package_files (cwd w)).
Proof. rewrite main_for_files. apply for_files_says. Qed.

(** X12. In a tree where no directory holds a file named [package.json],
    [main] returns and the state is as it was. *)
Theorem main_nothing_to_do w :
  (forall segs es, dir_at (cwd w) segs es ->
                   list_in "package.json" (nondirs es) = false) ->
  main json_load w = (Returns tt, w).
Proof.
  intros Hnone. rewrite main_for_files.
  destruct (package_files (cwd w)) as [|p ps] eqn:E; [reflexivity|].
  assert (Hp : In p (package_files (cwd w))) by (rewrite E; now left).
  apply package_files_In in Hp as (segs & es & Hd & Hf & _).
  rewrite (Hnone segs es Hd) in Hf. discriminate.
Qed.

End Frames.

(** X10. The manifest of the root directory is collected, and it is the
    first: [main] goes through it before any other. *)
Theorem package_files_root_first es :
  list_in "package.json" (nondirs es) = true ->
  exists rest, package_files (Dir es) = "./package.json" :: rest.
Proof.
  intros Hf. unfold package_files.
  rewrite find_package_files_collected, os_walk_dir. simpl flat_map.
  unfold collected at 1. rewrite Hf.
  change (str_in "node_modules" ".") with false.
  change (os_path_join "." "package.json") with "./package.json".
  eexists. reflexivity.
Qed.

(** X11. Below a skipped directory everything is skipped: [os.walk] still
    goes down, but the path of every directory below holds the path of the
    skipped one, and with it [node_modules]. *)
Theorem skipped_subtree t segs below :
  str_in "node_modules" (walk_root segs) = true ->
  forallb valid_name below = true ->
  str_in "node_modules" (walk_root (segs ++ below)) = true
  /\ ~ In (os_path_join (walk_root (segs ++ below)) "package.json")
          (package_files t).
Proof.
  intros Hs Hv.
  assert (Hall : str_in "node_modules" (walk_root (segs ++ below)) = true).
  { induction below as [|s below IH] using rev_ind.
    - now rewrite app_nil_r.
    - rewrite forallb_app in Hv. apply andb_true_iff in Hv as [Hv Hname].
      simpl in Hname. rewrite andb_true_r in Hname.
      rewrite app_assoc, walk_root_snoc.
      apply str_in_join_l; [now apply valid_name_relative | now apply IH]. }
  split; [exact Hall|].
  intros Hp. apply package_files_clear in Hp.
  rewrite str_in_join_l in Hp; [discriminate | reflexivity | exact Hall].
Qed.

(* ================================================================== *)
(** ** Paths in a well-formed tree *)

Section WellFormed.

Lemma well_formed_dir es :
  well_formed (Dir es) =
  forallb entry_name (map fst es) && unique (map fst es)
  && forallb (fun e => well_formed (snd e)) es.
Proof.
  simpl. f_equal. induction es as [|[n c] es IH]; simpl; [reflexivity|].
  now rewrite IH.
Qed.

Lemma find_entry_In name child es :
  unique (map fst es) = true -> In (name, child) es ->
  find_entry name es = Some child.
Proof.
  induction es as [|[n c] es IH]; simpl; [contradiction|].
  rewrite andb_true_iff, negb_true_iff. intros [Hn Hu] [E|Hin].
  - injection E as -> ->. now rewrite String.eqb_refl.
  - destruct (String.eqb_spec name n) as [->|]; [|auto].
    exfalso. apply (in_map fst) in Hin. simpl in Hin.
    apply list_in_In in Hin. congruence.
Qed.

Lemma lookup_app a b :
  forall t,
    lookup t (a ++ b) =
    match lookup t a with
    | Some c => lookup c b
    | None => None
    end.
Proof.
  induction a as [|s a IH]; intros t; [reflexivity|].
  simpl. destruct t as [|es]; [reflexivity|].
  destruct (find_entry s es); [apply IH | reflexivity].
Qed.

(** In a well-formed tree the names on the way to a directory are entry
    names, and they lead to it. *)
Lemma dir_at_lookup t segs es :
  dir_at t segs es -> well_formed t = true ->
  lookup t segs = Some (Dir es)
  /\ forallb entry_name segs = true
  /\ well_formed (Dir es) = true.
Proof.
  induction 1 as [es|es name child segs es' Hin Hd IH]; intros Hwf.
  - auto.
  - rewrite well_formed_dir in Hwf.
    apply andb_true_iff in Hwf as [Hwf Hall].
    apply andb_true_iff in Hwf as [Hnames Hu].
    rewrite forallb_forall in Hall, Hnames.
    destruct (IH (Hall _ Hin)) as (Hl & Hs & Hw).
    repeat split; [| |exact Hw].
    + simpl. now rewrite (find_entry_In name child es Hu Hin).
    + simpl. rewrite Hs, andb_true_r. apply Hnames.
      now apply (in_map fst) in Hin.
Qed.

Lemma entry_name_valid s : entry_name s = true -> valid_name s = true.
Proof.
  unfold entry_name. rewrite !andb_true_iff. tauto.
Qed.

Lemma entry_names_valid segs :
  forallb entry_name segs = true -> forallb valid_name segs = true.
Proof.
  rewrite !forallb_forall. intros H s Hs. apply entry_name_valid. auto.
Qed.

Lemma split_plain sep s : has_char sep s = false -> split sep s = [s].
Proof.
  induction s as [|c s IH]; [reflexivity|]. cbn [has_char split].
  rewrite orb_false_iff. intros [Hc Hs].
  rewrite Ascii.eqb_sym, Hc, (IH Hs). reflexivity.
Qed.

Lemma split_app sep a b :
  split sep (a ++ String sep b)%string = split sep a ++ split sep b.
Proof.
  induction a as [|c a IH]; cbn [append split].
  - now rewrite Ascii.eqb_refl.
  - rewrite IH. destruct (Ascii.eqb c sep); [reflexivity|].
    destruct (split_head sep a) as (x & r & -> & _). reflexivity.
Qed.

Lemma endswith_plain b : has_char "/" b = false -> endswith b "/" = false.
Proof.
  induction b as [|c b IH]; [reflexivity|]. cbn [has_char endswith].
  rewrite orb_false_iff. intros [Hc Hb]. rewrite (IH Hb), orb_false_r.
  apply String.eqb_neq. intros E. injection E as -> _.
  now rewrite Ascii.eqb_refl in Hc.
Qed.

Lemma endswith_app a b :
  b <> EmptyString -> endswith (a ++ b) "/" = endswith b "/".
Proof.
  intros Hb. induction a as [|c a IH]; [reflexivity|].
  cbn [append endswith]. rewrite IH.
  replace (String.eqb (String c (a ++ b)) "/") with false; [reflexivity|].
  symmetry. apply String.eqb_neq. intros E. injection E as _ E.
  destruct a; simpl in E; [contradiction | discriminate].
Qed.

Lemma os_path_join_plain a b :
  a <> EmptyString -> endswith a "/" = false -> startswith b "/" = false ->
  os_path_join a b = (a ++ String "/" b)%string.
Proof.
  intros Ha He Hb. unfold os_path_join. rewrite Hb, He.
  apply String.eqb_neq in Ha. now rewrite Ha.
Qed.

Lemma valid_name_plain s :
  valid_name s = true -> s <> EmptyString /\ has_char "/" s = false.
Proof.
  unfold valid_name. rewrite andb_true_iff, !negb_true_iff.
  intros [Hs Hc]. split; [now apply String.eqb_neq | exact Hc].
Qed.

(** The path [os.walk] gives a directory, part by part. *)
Lemma walk_root_shape segs :
  forallb valid_name segs = true ->
  split "/" (walk_root segs) = "."%string :: segs
  /\ endswith (walk_root segs) "/" = false
  /\ walk_root segs <> EmptyString.
Proof.
  induction segs as [|s segs IH] using rev_ind; intros Hv.
  - repeat split. discriminate.
  - rewrite forallb_app in Hv. apply andb_true_iff in Hv as [Hv Hs].
    simpl in Hs. rewrite andb_true_r in Hs.
    destruct (IH Hv) as (Hsplit & Hend & Hne).
    destruct (valid_name_plain s Hs) as [Hs1 Hs2].
    rewrite walk_root_snoc,
      (os_path_join_plain _ s Hne Hend (valid_name_relative s Hs)).
    repeat split.
    + now rewrite split_app, Hsplit, (split_plain "/" s Hs2).
    + rewrite endswith_app by discriminate. cbn [endswith].
      rewrite (endswith_plain s Hs2), orb_false_r.
      apply String.eqb_neq. intros E. injection E as E. contradiction.
    + destruct (walk_root segs); [contradiction | discriminate].
Qed.

Lemma kept_entry_names segs :
  forallb entry_name segs = true ->
  filter (fun s => negb (String.eqb s EmptyString || String.eqb s ".")) segs
  = segs.
Proof.
  induction segs as [|s segs IH]; [reflexivity|]. simpl.
  rewrite andb_true_iff. intros [Hs Hsegs]. rewrite (IH Hsegs).
  unfold entry_name, valid_name in Hs. rewrite !andb_true_iff in Hs.
  destruct Hs as [[[Hne _] Hdot] _].
  apply negb_true_iff in Hne, Hdot. now rewrite Hne, Hdot.
Qed.

(** The path of a collected manifest leads to the file [package.json] of
    its directory. *)
Lemma resolve_collected segs :
  forallb entry_name segs = true ->
  resolve (os_path_join (walk_root segs) "package.json")
  = segs ++ ["package.json"%string].
Proof.
  intros Hs.
  destruct (walk_root_shape segs (entry_names_valid segs Hs))
    as (Hsplit & Hend & Hne).
  rewrite (os_path_join_plain _ "package.json" Hne Hend eq_refl).
  unfold resolve. rewrite split_app, Hsplit.
  change (split "/" "package.json") with ["package.json"%string].
  cbn [app filter]. change (negb _) with false at 1. cbv iota.
  rewrite filter_app, (kept_entry_names segs Hs). reflexivity.
Qed.

End WellFormed.

(* ================================================================== *)
(** ** A run on a well-formed tree *)

Lemma package_files_found t : package_files t = found "." t.
Proof. unfold package_files. now rewrite find_package_files_collected. Qed.

Lemma found_dir top es :
  found top (Dir es) =
  collected (top, dirs es, nondirs es)
  ++ flat_map (fun e => found (os_path_join top (fst e)) (snd e)) es.
Proof.
  unfold found. rewrite os_walk_dir. cbn [flat_map]. f_equal.
  induction es as [|e es IH]; [reflexivity|].
  cbn [flat_map]. now rewrite flat_map_app, IH.
Qed.

Lemma nondirs_In name es :
  In name (nondirs es) -> exists text, In (name, File text) es.
Proof.
  unfold nondirs. rewrite in_map_iff. intros [[n c] [E H]].
  apply filter_In in H as [Hin Hf]. simpl in *. subst n.
  destruct c as [text|]; [|discriminate]. now exists text.
Qed.

(** X13. In a well-formed tree every collected path can be opened: it
    leads to the file [package.json] of its directory. *)
Theorem collected_readable t segs es :
  well_formed t = true ->
  dir_at t segs es ->
  list_in "package.json" (nondirs es) = true ->
  exists text,
    In ("package.json"%string, File text) es
    /\ read_path t (os_path_join (walk_root segs) "package.json") = Some text.
Proof.
  intros Hwf Hd Hf. apply list_in_In in Hf.
  destruct (nondirs_In _ _ Hf) as [text Hin].
  destruct (dir_at_lookup t segs es Hd Hwf) as (Hl & Hs & Hes).
  exists text. split; [exact Hin|].
  unfold read_path, read_at.
  rewrite (resolve_collected segs Hs), lookup_app, Hl.
  rewrite well_formed_dir in Hes. apply andb_true_iff in Hes as [Hes _].
  apply andb_true_iff in Hes as [_ Hu].
  simpl. now rewrite (find_entry_In _ _ es Hu Hin).
Qed.

(** Where the manifests collected below [walk_root pre] lie. *)
Lemma found_resolve t pre q :
  forallb entry_name pre = true -> well_formed t = true ->
  In q (found (walk_root pre) t) ->
  exists segs, resolve q = pre ++ segs ++ ["package.json"%string].
Proof.
  intros Hpre Hwf Hq. unfold found in Hq.
  apply in_flat_map in Hq as [[[root ds] files] [Hw Hc]].
  apply os_walk_dirs in Hw as (segs & es & Hd & -> & _ & _).
  destruct (dir_at_lookup t segs es Hd Hwf) as (_ & Hs & _).
  exists segs. unfold collected in Hc.
  destruct (str_in "node_modules" _); [contradiction|].
  destruct (list_in "package.json" files); [|contradiction].
  destruct Hc as [<-|[]].
  unfold walk_root at 1. rewrite <- fold_left_app.
  fold (walk_root (pre ++ segs)).
  rewrite resolve_collected, app_assoc; [reflexivity|].
  now rewrite forallb_app, Hpre, Hs.
Qed.

(** In a well-formed tree no two collected paths lead to the same file. *)
Lemma found_NoDup t :
  forall pre,
    forallb entry_name pre = true -> well_formed t = true ->
    NoDup (map resolve (found (walk_root pre) t)).
Proof.
  induction t as [text|es IH] using node_induction; intros pre Hpre Hwf.
  - constructor.
  - rewrite found_dir, map_app.
    assert (Hwf' := Hwf). rewrite well_formed_dir in Hwf'.
    apply andb_true_iff in Hwf' as [Hwf' Hall].
    apply andb_true_iff in Hwf' as [Hnames Hu].
    assert (Hbelow : forall e q,
              In e es ->
              In q (found (os_path_join (walk_root pre) (fst e)) (snd e)) ->
              exists segs,
                resolve q = pre ++ fst e :: segs ++ ["package.json"%string]).
    { intros [n c] q He Hq. simpl in *. rewrite <- walk_root_snoc in Hq.
      rewrite forallb_forall in Hall, Hnames.
      apply found_resolve in Hq as [segs Hq].
      - exists segs. now rewrite Hq, <- app_assoc.
      - rewrite forallb_app, Hpre. simpl. rewrite andb_true_r.
        apply Hnames. now apply (in_map fst) in He.
      - exact (Hall _ He). }
    apply NoDup_app.
    + unfold collected. destruct (str_in "node_modules" (walk_root pre));
        [constructor|].
      destruct (list_in "package.json" (nondirs es)); [|constructor].
      repeat constructor. intros [].
    + clear Hwf. induction es as [|[n c] es IHes]; [constructor|].
      cbn [flat_map]. rewrite map_app.
      inversion IH as [|? ? IHc IHrest]; subst.
      simpl in Hnames, Hu, Hall.
      apply andb_true_iff in Hnames as [Hn Hnames].
      apply andb_true_iff in Hu as [Hfresh Hu].
      apply andb_true_iff in Hall as [Hc Hall].
      apply NoDup_app.
      * simpl. rewrite <- walk_root_snoc. apply IHc; [|exact Hc].
        rewrite forallb_app, Hpre. simpl. now rewrite Hn.
      * apply IHes; try assumption.
        intros e q He. apply Hbelow. now right.
      * intros pos Ha Hb.
        apply in_map_iff in Ha as (qa & <- & Ha).
        apply in_map_iff in Hb as (qb & Eb & Hb).
        apply in_flat_map in Hb as [e [He Hb]].
        destruct (Hbelow (n, c) qa (or_introl eq_refl) Ha) as [sa Hqa].
        destruct (Hbelow e qb (or_intror He) Hb) as [sb Hqb].
        rewrite Hqa, Hqb in Eb. apply app_inv_head in Eb.
        injection Eb as En _. simpl in En.
        apply negb_true_iff in Hfresh.
        assert (list_in n (map fst es) = true); [|congruence].
        apply list_in_In. rewrite <- En. now apply in_map.
    + intros pos Ha Hb.
      apply in_map_iff in Ha as (qa & <- & Ha).
      apply in_map_iff in Hb as (qb & Eb & Hb).
      apply in_flat_map in Hb as [e [He Hb]].
      destruct (Hbelow e qb He Hb) as [sb Hqb].
      assert (Hqa : resolve qa = pre ++ ["package.json"%string]).
      { unfold collected in Ha.
        destruct (str_in "node_modules" (walk_root pre)); [contradiction|].
        destruct (list_in "package.json" (nondirs es)); [|contradiction].
        destruct Ha as [<-|[]]. exact (resolve_collected pre Hpre). }
      rewrite Hqa, Hqb in Eb. apply app_inv_head in Eb.
      apply (f_equal (@List.length string)) in Eb.
      simpl in Eb. rewrite length_app in Eb. simpl in Eb. lia.
Qed.

Lemma package_files_NoDup t :
  well_formed t = true -> NoDup (map resolve (package_files t)).
Proof.
  intros Hwf. rewrite package_files_found.
  exact (found_NoDup t [] eq_refl Hwf).
Qed.

Section WellFormedRun.

Variable json_load : string -> loaded.

(** The text of a manifest after a call on it. *)
Lemma fix_text file_path w :
  read_path (cwd (snd (fix_dependencies json_load file_path w))) file_path
  = option_map (rewritten json_load) (read_path (cwd w) file_path).
Proof.
  destruct (fix_dependencies_cases json_load (cwd w) file_path)
    as [[Hrest (r & out & Hq)]
       |(text & d & t' & Hr & Hl & Hok & Hc & _ & Hr' & Hch)].
  - rewrite (Hq w eq_refl). cbn [snd cwd].
    unfold at_rest, rests in Hrest. unfold rewritten.
    destruct (read_path (cwd w) file_path) as [text|]; [|reflexivity].
    cbn [option_map].
    destruct (json_load text) as [[| | | | | |d]| |e]; try reflexivity.
    apply negb_true_iff in Hrest. now rewrite Hrest.
  - rewrite (Hch w eq_refl). cbn [snd cwd]. rewrite Hr', Hr.
    cbn [option_map]. unfold rewritten. now rewrite Hl, Hok, Hc.
Qed.

(** The loop of [main] over paths that lead to different files: each
    manifest is left as its own call leaves it, or, when the loop ended
    with an exception before it, as it was. *)
Lemma for_files_each ps :
  forall w r w',
    NoDup (map resolve ps) ->
    for_files json_load ps w = (r, w') ->
    forall p, In p ps ->
      read_path (cwd w') p
      = read_path (cwd (snd (fix_dependencies json_load p w))) p
      \/ (r <> Returns tt /\ read_path (cwd w') p = read_path (cwd w) p).
Proof.
  induction ps as [|q ps IH]; intros w r w' Hnd Hrun p Hp; [contradiction|].
  simpl in Hnd. inversion Hnd as [|? ? Hq Hps]; subst.
  assert (Hother : forall x, In x ps -> resolve x <> resolve q).
  { intros x Hx E. apply Hq. rewrite <- E. now apply in_map. }
  rewrite for_files_cons in Hrun.
  destruct (fix_dependencies json_load q w) as [rq wa] eqn:Hfix.
  destruct rq as [[]|e].
  - destruct Hp as [->|Hp].
    + left. rewrite Hfix. cbn [snd]. unfold read_path.
      exact (for_files_keeps json_load ps (resolve p) wa r w' Hother Hrun).
    + assert (Hsame : read_path (cwd wa) p = read_path (cwd w) p).
      { unfold read_path.
        apply (fix_keeps json_load q w _ wa (resolve p) Hfix).
        intros E. now apply (Hother p Hp). }
      destruct (IH wa r w' Hps Hrun p Hp) as [H|[Hr H]].
      * left. now rewrite H, !fix_text, Hsame.
      * right. split; [exact Hr | now rewrite H].
  - injection Hrun as <- <-. destruct Hp as [->|Hp].
    + left. now rewrite Hfix.
    + right. split; [discriminate|]. unfold read_path.
      apply (fix_keeps json_load q w _ wa (resolve p) Hfix).
      intros E. now apply (Hother p Hp).
Qed.

(** X15. On a well-formed tree the manifests are handled one by one,
    each on its own: after a run that returned, every collected manifest
    holds the text a single call of [fix_dependencies] on the tree of the
    start gives it. *)
Theorem main_file_by_file w w' p :
  well_formed (cwd w) = true ->
  main json_load w = (Returns tt, w') ->
  In p (package_files (cwd w)) ->
  read_path (cwd w') p
  = read_path (cwd (snd (fix_dependencies json_load p w))) p.
Proof.
  intros Hwf Hrun Hp. rewrite main_for_files in Hrun.
  destruct (for_files_each (package_files (cwd w)) w (Returns tt) w'
              (package_files_NoDup (cwd w) Hwf) Hrun p Hp) as [H|[Hr _]].
  - exact H.
  - now destruct Hr.
Qed.

(** The result of a call depends on the text of its file only. *)
Lemma fix_result_same file_path w1 w2 :
  read_path (cwd w1) file_path = read_path (cwd w2) file_path ->
  fst (fix_dependencies json_load file_path w1)
  = fst (fix_dependencies json_load file_path w2).
Proof.
  intros E. destruct (read_path (cwd w2) file_path) as [text|] eqn:Hr2.
  2:{ now rewrite (fix_missing json_load file_path w1 E),
        (fix_missing json_load file_path w2 Hr2). }
  rename E into Hr1. destruct (json_load text) as [data| |e] eqn:Hl.
  2:{ now rewrite (fix_undecodable json_load file_path w1 text Hr1 Hl),
        (fix_undecodable json_load file_path w2 text Hr2 Hl). }
  2:{ now rewrite (fix_uncaught json_load file_path w1 text e Hr1 Hl),
        (fix_uncaught json_load file_path w2 text e Hr2 Hl). }
  assert (Hd : (exists d, data = JDict d) \/ forall d, data <> JDict d)
    by (destruct data; try (right; discriminate); left; eauto).
  destruct Hd as [[d ->]|Hnd].
  - destruct (forallb (mapping_or_absent d) dep_types) eqn:Hok.
    + destruct (scan_changed dep_types d) eqn:Hc.
      * destruct (fix_object_changed json_load file_path w1 text d
                    Hr1 Hl Hok Hc) as (t1 & _ & _ & ->).
        destruct (fix_object_changed json_load file_path w2 text d
                    Hr2 Hl Hok Hc) as (t2 & _ & _ & ->).
        reflexivity.
      * now rewrite (fix_object_unchanged json_load file_path w1 text d
                       Hr1 Hl Hok Hc),
          (fix_object_unchanged json_load file_path w2 text d Hr2 Hl Hok Hc).
    + destruct (fix_object_bad json_load file_path text d Hl Hok) as [out H].
      now rewrite (H w1 Hr1), (H w2 Hr2).
  - destruct (fix_other json_load file_path text data Hl Hnd) as [r H].
    now rewrite (H w1 Hr1), (H w2 Hr2).
Qed.

Lemma for_files_returns ps :
  forall w,
    NoDup (map resolve ps) ->
    (fst (for_files json_load ps w) = Returns tt <->
     forall p, In p ps -> fst (fix_dependencies json_load p w) = Returns tt).
Proof.
  induction ps as [|q ps IH]; intros w Hnd.
  - split; [intros _ p [] | reflexivity].
  - simpl in Hnd. inversion Hnd as [|? ? Hq Hps]; subst.
    rewrite for_files_cons.
    destruct (fix_dependencies json_load q w) as [rq wa] eqn:Hfix.
    assert (Hsame : forall p, In p ps ->
              fst (fix_dependencies json_load p wa)
              = fst (fix_dependencies json_load p w)).
    { intros p Hp. apply fix_result_same. unfold read_path.
      apply (fix_keeps json_load q w rq wa (resolve p) Hfix).
      intros E. apply Hq. rewrite E. now apply in_map. }
    destruct rq as [[]|e].
    + rewrite (IH wa Hps). split.
      * intros H p [<-|Hp]; [now rewrite Hfix|].
        rewrite <- (Hsame p Hp). now apply H.
      * intros H p Hp. rewrite (Hsame p Hp). apply H. now right.
    + split; [discriminate|]. intros H.
      specialize (H q (or_introl eq_refl)). rewrite Hfix in H. exact H.
Qed.

(** X16. On a well-formed tree whether a run returns is decided file by
    file: [main] returns exactly when, for every collected manifest, a
    single call of [fix_dependencies] on the tree of the start returns. *)
Theorem main_returns_iff w :
  well_formed (cwd w) = true ->
  (fst (main json_load w) = Returns tt <->
   forall p, In p (package_files (cwd w)) ->
             fst (fix_dependencies json_load p w) = Returns tt).
Proof.
  intros Hwf. rewrite main_for_files.
  apply for_files_returns. now apply package_files_NoDup.
Qed.

End WellFormedRun.

(* ================================================================== *)
(** ** Lines without a write, runs without a line *)

Lemma for_dep_types_app file_path l1 l2 :
  forall data changed w,
    for_dep_types file_path (l1 ++ l2) data changed w =
    match for_dep_types file_path l1 data changed w with
    | (Returns (data', changed'), w') =>
        for_dep_types file_path l2 data' changed' w'
    | (Raises e, w') => (Raises e, w')
    end.
Proof.
  induction l1 as [|k l1 IH]; intros data changed w; [reflexivity|].
  cbn [app for_dep_types]. unfold bind, lift.
  destruct (py_contains data k) as [[|]|e]; [| apply IH | reflexivity].
  destruct (py_getitem data k) as [deps|e]; [|reflexivity].
  destruct (py_items deps) as [its|e]; [|reflexivity].
  destruct (for_items file_path k its data changed w)
    as [[[data' changed']|e] w'];
    [apply IH | reflexivity].
Qed.

Lemma scan_lines_flat file_path l :
  forall d, NoDup l ->
    scan_lines file_path l d =
    flat_map (fun k => updates file_path (stale_items d k)) l.
Proof.
  induction l as [|k l IH]; intros d Hnd; [reflexivity|].
  inversion Hnd as [|? ? Hk Hl]; subst. cbn [scan_lines flat_map].
  rewrite (IH (scan_field d k) Hl). f_equal.
  clear - Hk. induction l as [|k' l IHl]; [reflexivity|].
  cbn [flat_map]. rewrite IHl by (intros H; apply Hk; now right).
  rewrite stale_items_scan_field; [reflexivity|].
  intros ->. apply Hk. now left.
Qed.

Section LinesAndRuns.

Variable json_load : string -> loaded.

(** X17. When a recognized field is no mapping, the lines for the stale
    packages of the fields before it are printed all the same, and then the
    call raises [AttributeError]: the output names updates that no file
    ever gets. *)
Theorem fix_dependencies_lines_lost
  file_path w text d before dep_type v after :
  read_path (cwd w) file_path = Some text ->
  json_load text = Loaded (JDict d) ->
  dep_types = before ++ dep_type :: after ->
  forallb (mapping_or_absent d) before = true ->
  dict_get d dep_type = Some v ->
  (forall deps, v <> JDict deps) ->
  fix_dependencies json_load file_path w =
  (Raises AttributeError,
   World (cwd w)
     (stdout w
      ++ flat_map (fun k => updates file_path (stale_items d k)) before)
     (dumped w)).
Proof.
  intros Hr Hl Hsplit Hok Hget Hv.
  assert (Hnd := dep_types_NoDup). rewrite Hsplit in Hnd.
  assert (Hfresh := NoDup_remove_2 _ _ _ Hnd).
  assert (Hbefore : NoDup before)
    by (apply NoDup_remove_1 in Hnd; now apply NoDup_app_remove_r in Hnd).
  rewrite (fix_loaded json_load file_path w text (JDict d) Hr Hl), Hsplit.
  unfold bind at 1. rewrite for_dep_types_app.
  rewrite (for_dep_types_ok file_path before d false w Hok).
  rewrite (scan_lines_flat file_path before d Hbefore).
  cbn [for_dep_types]. unfold bind at 1. unfold lift at 1.
  assert (Hget' : dict_get (scan before d) dep_type = Some v).
  { rewrite scan_get_other; [exact Hget|].
    intros H. apply Hfresh. apply in_or_app. now left. }
  cbn [py_contains].
  replace (dict_in dep_type (scan before d)) with true
    by (symmetry; apply dict_in_get; eauto).
  unfold bind at 1. unfold lift at 1. cbn [py_getitem]. rewrite Hget'.
  unfold bind at 1. unfold lift at 1.
  destruct v; try reflexivity. now destruct (Hv d0).
Qed.

(** X18. A run over manifests that each call leaves as they are, without
    a line, is itself without effect: [main] returns and the state is the
    one it started from. *)
Theorem main_silent w :
  (forall p, In p (package_files (cwd w)) ->
             fix_dependencies json_load p w = (Returns tt, w)) ->
  main json_load w = (Returns tt, w).
Proof.
  rewrite main_for_files. generalize (package_files (cwd w)) as ps.
  induction ps as [|p ps IH]; intros Hall; [reflexivity|].
  rewrite for_files_cons, (Hall p (or_introl eq_refl)).
  apply IH. intros q Hq. apply Hall. now right.
Qed.

End LinesAndRuns.

(* ================================================================== *)
(** ** These properties on the sample workspace *)

Lemma main_nothing_to_do_witness :
  main sample_load (start bare) = (Returns tt, start bare).
Proof.
  apply (main_nothing_to_do sample_load (start bare)).
  intros segs es Hd. assert (Hw := dirs_os_walk _ _ _ Hd ".").
  remember (fold_left os_path_join segs ".") as root.
  remember (dirs es) as ds. remember (nondirs es) as files.
  vm_compute in Hw.
  destruct Hw as [E|[E|[]]]; injection E as _ _ <-; reflexivity.
Defined.

Lemma package_files_root_first_witness :
  exists rest,
    package_files (Dir [("package.json", File a_text)])
    = "./package.json" :: rest.
Proof.
  apply (package_files_root_first [("package.json", File a_text)]).
  reflexivity.
Defined.

Lemma skipped_subtree_witness :
  str_in "node_modules" (walk_root (["node_modules_old"] ++ ["lib"; "x"]))
  = true
  /\ ~ In (os_path_join (walk_root (["node_modules_old"] ++ ["lib"; "x"]))
             "package.json")
          (package_files workspace).
Proof.
  apply (skipped_subtree workspace ["node_modules_old"] ["lib"; "x"]);
    reflexivity.
Defined.

Lemma collected_readable_witness :
  exists text,
    In ("package.json", File text)
       [("package.json", File a_text); ("README.md", File "a")]
    /\ read_path workspace
         (os_path_join (walk_root ["packages"; "a"]) "package.json")
       = Some text.
Proof.
  apply (collected_readable workspace ["packages"; "a"]).
  - reflexivity.
  - eapply dir_below; [right; left; reflexivity|].
    eapply dir_below; [left; reflexivity|]. constructor.
  - reflexivity.
Defined.

Lemma main_file_by_file_witness :
  read_path (cwd (snd (main sample_load (start workspace))))
    "./packages/b/package.json"
  = read_path
      (cwd (snd (fix_dependencies sample_load "./packages/b/package.json"
                   (start workspace))))
      "./packages/b/package.json".
Proof.
  apply (main_file_by_file sample_load (start workspace)
           (snd (main sample_load (start workspace)))
           "./packages/b/package.json").
  - reflexivity.
  - reflexivity.
  - vm_compute. auto.
Defined.

Lemma main_returns_iff_witness :
  fst (main sample_load (start odd_second)) = Returns tt <->
  forall p, In p (package_files (cwd (start odd_second))) ->
            fst (fix_dependencies sample_load p (start odd_second))
            = Returns tt.
Proof.
  apply (main_returns_iff sample_load (start odd_second)). reflexivity.
Defined.

Lemma fix_dependencies_lines_lost_witness :
  fix_dependencies wide_load "./package.json"
    (start (single (dump_text odd_late_data))) =
  (Raises AttributeError,
   World (cwd (start (single (dump_text odd_late_data))))
     (stdout (start (single (dump_text odd_late_data)))
      ++ flat_map
           (fun k => updates "./package.json" (stale_items odd_late_fields k))
           ["dependencies"])
     (dumped (start (single (dump_text odd_late_data))))).
Proof.
  apply (fix_dependencies_lines_lost wide_load "./package.json"
           (start (single (dump_text odd_late_data)))
           (dump_text odd_late_data) odd_late_fields
           ["dependencies"] "devDependencies" (JInt 3)
           ["peerDependencies"]); try reflexivity.
  discriminate.
Defined.

Lemma main_silent_witness :
  main sample_load (start (single (dump_text c_data)))
  = (Returns tt, start (single (dump_text c_data))).
Proof.
  apply (main_silent sample_load (start (single (dump_text c_data)))).
  intros p Hp. vm_compute in Hp. destruct Hp as [<-|[]]. reflexivity.
Defined.
